(** * Telemetry pipeline of the Flask monitoring demo

    A shallow embedding of the request instrumentation, the error tracker,
    the health score, the background sampler and the load generator, with
    the properties the specification states about them.

    Conventions of the embedding:
    - a Python [int] is a [Z];
    - a Python [float] (percentages, durations, time stamps) is an exact
      rational [Q]: comparisons and [/] are the exact ones, rounding of the
      binary representation is outside the model;
    - a Prometheus metric family is a finite map from its label values to
      the value of the series; a gauge that was never set reads 0;
    - everything the code asks of its environment (clock, uuid generator,
      psutil, the outcome of a view function) is an explicit argument. *)

From Stdlib Require Import ZArith QArith Qround Qabs Lia Lqa List.
From stdpp Require Import base option list strings gmap pretty.
Import ListNotations.

Open Scope string_scope.
Open Scope Z_scope.

(** ** Python comparisons on floats *)

(** [a > b] on Python floats. *)
Definition Qgtb (a b : Q) : bool := negb (Qle_bool a b).

(** [a < b] on Python floats. *)
Definition Qltb (a b : Q) : bool := negb (Qle_bool b a).

(** ** Health score and error tracker: [class SystemMonitor] *)

Module Monitor.

(** The fields set by [SystemMonitor.__init__]. *)
Record SystemMonitor : Type := mkMonitor {
  start_time : Q;
  error_count : Z;
  total_requests : Z
}.

(** [SystemMonitor.__init__] at clock reading [now]. *)
Definition init (now : Q) : SystemMonitor :=
  {| start_time := now; error_count := 0; total_requests := 0 |}.

(** The expression [(self.error_count / self.total_requests) * 100] of
    [calculate_health_score], [increment_error] and [increment_request];
    the code evaluates it only under [self.total_requests > 0]. *)
Definition error_rate_expr (self : SystemMonitor) : Q :=
  (inject_Z (error_count self) / inject_Z (total_requests self)) * 100.

(** [SystemMonitor.calculate_health_score], statement by statement. *)
Definition calculate_health_score (self : SystemMonitor)
    (cpu_percent memory_percent disk_percent : Q) : Z :=
  let score := 100 in
  let score :=
    if Qgtb cpu_percent 80 then score - 30
    else if Qgtb cpu_percent 60 then score - 15
    else score in
  let score :=
    if Qgtb memory_percent 90 then score - 25
    else if Qgtb memory_percent 70 then score - 10
    else score in
  let score :=
    if Qgtb disk_percent 95 then score - 20
    else if Qgtb disk_percent 85 then score - 10
    else score in
  let score :=
    if 0 <? total_requests self then
      let current_error_rate := error_rate_expr self in
      if Qgtb current_error_rate 10 then score - 20
      else if Qgtb current_error_rate 5 then score - 10
      else score
    else score in
  Z.max 0 score.

(** One dimension of the specification's rule: subtract [big] above [hi],
    else [small] above [lo]. *)
Definition tier (x hi lo : Q) (big small : Z) : Z :=
  if Qgtb x hi then big else if Qgtb x lo then small else 0.

(** The scoring rule in the words of the specification, with the error
    rate as a fourth argument; compared with the code below. *)
Definition score_rule (cpu_pct mem_pct disk_pct error_rate_pct : Q) : Z :=
  Z.max 0 (100 - tier cpu_pct 80 60 30 15
               - tier mem_pct 90 70 25 10
               - tier disk_pct 95 85 20 10
               - tier error_rate_pct 10 5 20 10).

(** The error rate the code feeds into the score: the stored counters'
    ratio once a request has been counted, and no penalty (rate 0) before. *)
Definition stored_error_rate (self : SystemMonitor) : Q :=
  if 0 <? total_requests self then error_rate_expr self else 0.

(** The metric names of the two error-tracking gauges. *)
Definition error_rate : string := "error_rate_percent".
Definition last_error_timestamp : string := "last_error_timestamp".

(** [Gauge.set] and the value a scrape reads. *)
Definition gauge_set (name : string) (v : Q) (g : gmap string Q) : gmap string Q :=
  <[name := v]> g.

Definition gauge_get (name : string) (g : gmap string Q) : Q :=
  default 0%Q (g !! name).

(** [SystemMonitor.increment_error]; [now] is [time.time()]. *)
Definition increment_error (now : Q) (st : SystemMonitor * gmap string Q)
    : SystemMonitor * gmap string Q :=
  let '(self, g) := st in
  let self := {| start_time := start_time self;
                 error_count := error_count self + 1;
                 total_requests := total_requests self |} in
  let g := gauge_set last_error_timestamp now g in
  if 0 <? total_requests self
  then (self, gauge_set error_rate (error_rate_expr self) g)
  else (self, g).

(** [SystemMonitor.increment_request]. *)
Definition increment_request (st : SystemMonitor * gmap string Q)
    : SystemMonitor * gmap string Q :=
  let '(self, g) := st in
  let self := {| start_time := start_time self;
                 error_count := error_count self;
                 total_requests := total_requests self + 1 |} in
  if 0 <? total_requests self
  then (self, gauge_set error_rate (error_rate_expr self) g)
  else (self, g).

(** The calls the tracker can receive. *)
Inductive call : Type :=
  | IncrementRequest
  | IncrementError (now : Q).

Definition apply_call (c : call) (st : SystemMonitor * gmap string Q)
    : SystemMonitor * gmap string Q :=
  match c with
  | IncrementRequest => increment_request st
  | IncrementError now => increment_error now st
  end.

(** The tracker after a sequence of calls, oldest first. *)
Definition run (cs : list call) (st : SystemMonitor * gmap string Q)
    : SystemMonitor * gmap string Q :=
  fold_left (fun s c => apply_call c s) cs st.

(** The state at import time: a fresh monitor and no gauge written. *)
Definition boot (now : Q) : SystemMonitor * gmap string Q := (init now, ∅).

(** The nearest integer of an exact rational, ties to even. *)
Definition round_half_even (x : Q) : Z :=
  let f := Qfloor x in
  let r := (x - inject_Z f)%Q in
  if Qltb r (1 # 2) then f
  else if Qltb (1 # 2) r then f + 1
  else if Z.even f then f else f + 1.

(** What holds of the tracker after any sequence of calls: the counters
    are not negative and the gauge is the stored rate. *)
Definition tracked (st : SystemMonitor * gmap string Q) : Prop :=
  0 <= error_count st.1 /\ 0 <= total_requests st.1
  /\ gauge_get error_rate st.2 = stored_error_rate st.1.

End Monitor.

(** ** Request instrumentation: [app_20250618114951.py] *)

Module App.
Import Monitor.

(** What the hooks read of Flask's [request], and the two attributes
    [before_request] attaches to it ([None]: attribute absent). *)
Record Request : Type := mkRequest {
  path : string;
  method : string;
  data_len : Z;
  req_start_time : option Q;
  request_id : option string
}.

(** A response: status code, the JSON object of an error body (empty for
    the payload of a view) and [len(response.get_data())]. *)
Record Response : Type := mkResponse {
  status_code : Z;
  json : list (string * string);
  resp_len : Z
}.

(** The value of a key of a JSON object. *)
Fixpoint json_get (k : string) (o : list (string * string)) : option string :=
  match o with
  | [] => None
  | (k', v) :: o => if String.eqb k' k then Some v else json_get k o
  end.

(** An exception that leaves a view: werkzeug's [HTTPException] with its
    [code] and [description], or any other [Exception]; [str_e] is
    [str(e)]. *)
Inductive exn : Type :=
  | HTTPException (type_name : string) (code : Z) (description : string)
                  (str_e : string)
  | OtherException (type_name : string) (str_e : string).

Definition exn_type_name (e : exn) : string :=
  match e with
  | HTTPException n _ _ _ => n
  | OtherException n _ => n
  end.

Definition exn_str (e : exn) : string :=
  match e with
  | HTTPException _ _ _ s => s
  | OtherException _ s => s
  end.

(** The dict [error_details] of [handle_exception]. *)
Record ErrorDetails : Type := mkErrorDetails {
  error_id : string;
  timestamp : string;
  err_path : string;
  err_method : string;
  error_type : string;
  error_message : string;
  err_request_id : string
}.

(** Lines written through [logger]. *)
Inductive log_entry : Type :=
  | LogRequest (rid meth pth : string) (status : Z) (duration : Q)
               (request_size response_size : Z)
  | LogError (details : ErrorDetails)
  | LogSamplerError (message : string)
  | LogSamplerDebug (cpu memory : Q) (health : Z).

(** The telemetry state of the process: the monitor, the gauges, the
    labelled request counter, the three labelled histograms (a series is
    kept as the list of its observations, newest first) and the log. *)
Record State : Type := mkState {
  system_monitor : SystemMonitor;
  gauges : gmap string Q;
  http_requests_total : gmap (string * string * Z) Z;
  http_request_duration_seconds : gmap (string * string) (list Q);
  http_request_size_bytes : gmap (string * string) (list Z);
  http_response_size_bytes : gmap (string * string) (list Z);
  log : list log_entry
}.

(** The state when the module has been imported at clock reading [now]. *)
Definition boot (now : Q) : State :=
  {| system_monitor := init now; gauges := ∅; http_requests_total := ∅;
     http_request_duration_seconds := ∅; http_request_size_bytes := ∅;
     http_response_size_bytes := ∅; log := [] |}.

(** [Counter.labels(...).inc()] and the value of a series. *)
Definition counter_get {K} `{Countable K} (k : K) (m : gmap K Z) : Z :=
  default 0 (m !! k).

Definition counter_inc {K} `{Countable K} (k : K) (m : gmap K Z) : gmap K Z :=
  <[k := counter_get k m + 1]> m.

(** [Histogram.labels(...).observe(v)] and the observations of a series. *)
Definition observations {K A} `{Countable K} (k : K) (m : gmap K (list A)) : list A :=
  default [] (m !! k).

Definition observe {K A} `{Countable K} (k : K) (v : A) (m : gmap K (list A))
    : gmap K (list A) :=
  <[k := v :: observations k m]> m.

(** The two literal lists of paths in the hooks. *)
Definition before_request_skipped : list string :=
  ["/favicon.ico"; "/health"; "/metrics"].

Definition after_request_skipped : list string :=
  ["/favicon.ico"; "/metrics"].

(** [before_request]; [now] is [time.time()] and [rid] is
    [str(uuid.uuid4())]. *)
Definition before_request (now : Q) (rid : string) (req : Request) (st : State)
    : Request * State :=
  let req := {| path := path req; method := method req;
                data_len := data_len req;
                req_start_time := Some now; request_id := Some rid |} in
  if decide (path req ∉ before_request_skipped) then
    let '(m, g) := increment_request (system_monitor st, gauges st) in
    (req, {| system_monitor := m; gauges := g;
             http_requests_total := http_requests_total st;
             http_request_duration_seconds := http_request_duration_seconds st;
             http_request_size_bytes := http_request_size_bytes st;
             http_response_size_bytes := http_response_size_bytes st;
             log := log st |})
  else (req, st).

(** [after_request]; [now] is [time.time()]. The request id is read after
    [hasattr(request, 'start_time')] held; both attributes are set together
    by [before_request]. *)
Definition after_request (now : Q) (req : Request) (response : Response)
    (st : State) : Response * State :=
  match req_start_time req with
  | Some t0 =>
      if decide (path req ∉ after_request_skipped) then
        let duration := (now - t0)%Q in
        let request_size := data_len req in
        let response_size := resp_len response in
        (response,
         {| system_monitor := system_monitor st; gauges := gauges st;
            http_requests_total :=
              counter_inc (method req, path req, status_code response)
                          (http_requests_total st);
            http_request_duration_seconds :=
              observe (method req, path req) duration
                      (http_request_duration_seconds st);
            http_request_size_bytes :=
              observe (method req, path req) request_size
                      (http_request_size_bytes st);
            http_response_size_bytes :=
              observe (method req, path req) response_size
                      (http_response_size_bytes st);
            log := LogRequest (default "" (request_id req)) (method req)
                              (path req) (status_code response) duration
                              request_size response_size :: log st |})
      else (response, st)
  | None => (response, st)
  end.

(** [handle_exception]; [now] is [time.time()], [eid] is
    [str(uuid.uuid4())], [iso] is [datetime.now().isoformat()] and [size]
    is the length of the serialized JSON body. *)
Definition handle_exception (now : Q) (eid iso : string) (size : Z) (e : exn)
    (req : Request) (st : State) : Response * State :=
  let '(m, g) := increment_error now (system_monitor st, gauges st) in
  let error_details :=
    {| error_id := eid; timestamp := iso; err_path := path req;
       err_method := method req; error_type := exn_type_name e;
       error_message := exn_str e;
       err_request_id := default "unknown" (request_id req) |} in
  let '(status, message) :=
    match e with
    | HTTPException _ code description _ => (code, description)
    | OtherException _ _ => (500, "Internal Server Error")
    end in
  ({| status_code := status;
      json := [("error", message); ("error_id", error_id error_details);
               ("timestamp", timestamp error_details)];
      resp_len := size |},
   {| system_monitor := m; gauges := g;
      http_requests_total := http_requests_total st;
      http_request_duration_seconds := http_request_duration_seconds st;
      http_request_size_bytes := http_request_size_bytes st;
      http_response_size_bytes := http_response_size_bytes st;
      log := LogError error_details :: log st |}).

(** *** Dispatch of one request *)

(** What a view does with an exception raised in its body: most let it
    escape (no handler, or [except Exception: ... raise]); [metrics]
    turns it into [abort(500)]; [health_check] answers 503. *)
Inductive view : Type :=
  | Propagating
  | MetricsView
  | HealthView.

(** The rules registered with [@app.route], in the order of the file:
    the URL, the [methods] given (GET when none is given) and the view. *)
Definition url_map : list (string * list string * view) :=
  [("/", ["GET"], Propagating);
   ("/api/analytics", ["GET"], Propagating);
   ("/api/users", ["POST"], Propagating);
   ("/api/stress", ["GET"], Propagating);
   ("/api/simulate-error", ["GET"], Propagating);
   ("/metrics", ["GET"], MetricsView);
   ("/api/config", ["GET"], Propagating);
   ("/api/health", ["GET"], HealthView);
   ("/api/users", ["GET"], Propagating);
   ("/api/products", ["GET"], Propagating);
   ("/api/orders", ["GET"], Propagating)].

(** The view of the first rule with a URL. *)
Fixpoint match_rule (rules : list (string * list string * view)) (p : string)
    : option view :=
  match rules with
  | [] => None
  | (r, _, v) :: rules => if String.eqb r p then Some v else match_rule rules p
  end.

(** The methods a rule answers: those given, HEAD with GET (added by
    werkzeug) and OPTIONS (added by Flask). *)
Definition rule_methods (methods : list string) : list string :=
  (methods ++ (if existsb (String.eqb "GET") methods then ["HEAD"] else [])
   ++ ["OPTIONS"])%list.

(** The first rule with a URL that answers a method: the methods it was
    given and its view. *)
Fixpoint match_method (rules : list (string * list string * view)) (p m : string)
    : option (list string * view) :=
  match rules with
  | [] => None
  | (r, methods, v) :: rules =>
      if String.eqb r p && existsb (String.eqb m) (rule_methods methods)
      then Some (methods, v)
      else match_method rules p m
  end.

(** What the body of a view does, as far as the hooks can tell. *)
Inductive outcome : Type :=
  | Returns (r : Response)
  | Raises (e : exn).

(** werkzeug's exceptions for an unknown URL, for a URL whose rules do
    not answer the method, and for [abort(500)]. *)
Definition NotFound : exn :=
  HTTPException "NotFound" 404
    "The requested URL was not found on the server. If you entered the URL manually please check your spelling and try again."
    "404 Not Found: The requested URL was not found on the server. If you entered the URL manually please check your spelling and try again.".

Definition MethodNotAllowed : exn :=
  HTTPException "MethodNotAllowed" 405
    "The method is not allowed for the requested URL."
    "405 Method Not Allowed: The method is not allowed for the requested URL.".

Definition InternalServerError : exn :=
  HTTPException "InternalServerError" 500
    "The server encountered an internal error and was unable to complete your request. Either the server is overloaded or there is an error in the application."
    "500 Internal Server Error: The server encountered an internal error and was unable to complete your request. Either the server is overloaded or there is an error in the application.".

(** Everything one request takes from its environment: the clock at the
    three hooks, the two uuids, the ISO time stamp, the size of a
    serialized error body and what the body of the view does. *)
Record Env : Type := mkEnv {
  t_before : Q;
  new_request_id : string;
  body : outcome;
  t_error : Q;
  new_error_id : string;
  iso_now : string;
  error_body_len : Z;
  t_after : Q
}.

(** werkzeug's match of a URL and a method: the rule that answers, else
    [MethodNotAllowed] when some rule has the URL and [NotFound] when none
    has. *)
Definition match_request (rules : list (string * list string * view))
    (p m : string) : (list string * view) + exn :=
  match match_method rules p m with
  | Some rule => inl rule
  | None =>
      match match_rule rules p with
      | Some _ => inr MethodNotAllowed
      | None => inr NotFound
      end
  end.

(** Flask's answer to OPTIONS for a rule that was not given that method:
    an empty response that lists the methods. *)
Definition default_options_response : Response :=
  {| status_code := 200; json := []; resp_len := 0 |}.

(** A view run in an environment, with the [try]/[except] of [metrics]
    and [health_check]. *)
Definition run_view (env : Env) (v : view) : Response + exn :=
  match v with
  | Propagating =>
      match body env with
      | Returns r => inl r
      | Raises e => inr e
      end
  | MetricsView =>
      match body env with
      | Returns r => inl r
      | Raises _ => inr InternalServerError
      end
  | HealthView =>
      match body env with
      | Returns r => inl r
      | Raises e =>
          inl {| status_code := 503;
                 json := [("status", "unhealthy"); ("error", exn_str e);
                          ("timestamp", iso_now env)];
                 resp_len := error_body_len env |}
      end
  end.

(** Flask's [dispatch_request] over a table of rules: the routing
    exception when no rule answers, the automatic answer to OPTIONS, else
    the view. *)
Definition dispatch (rules : list (string * list string * view))
    (env : Env) (req : Request) : Response + exn :=
  match match_request rules (path req) (method req) with
  | inr e => inr e
  | inl (methods, v) =>
      if String.eqb (method req) "OPTIONS"
         && negb (existsb (String.eqb "OPTIONS") methods)
      then inl default_options_response
      else run_view env v
  end.

Definition dispatch_request (env : Env) (req : Request) : Response + exn :=
  dispatch url_map env req.

(** Flask's [full_dispatch_request]: the pre-hook, the view, the error
    handler when the view raised, and the post-hook on whichever response
    came out. *)
Definition full_dispatch_request (env : Env) (req : Request) (st : State)
    : Response * State :=
  let '(req, st) := before_request (t_before env) (new_request_id env) req st in
  let '(response, st) :=
    match dispatch_request env req with
    | inl r => (r, st)
    | inr e => handle_exception (t_error env) (new_error_id env) (iso_now env)
                                (error_body_len env) e req st
    end in
  after_request (t_after env) req response st.

(** A request as it arrives, before any hook has run. *)
Definition incoming (p m : string) (len : Z) : Request :=
  {| path := p; method := m; data_len := len;
     req_start_time := None; request_id := None |}.

(** The state after serving a sequence of requests, oldest first. *)
Definition serve (reqs : list (Env * Request)) (st : State) : State :=
  fold_left (fun s er => snd (full_dispatch_request (fst er) (snd er) s)) reqs st.

End App.

(** ** Background sampler: [collect_system_metrics] and [monitor_loop] *)

Module Sampler.
Import Monitor App.

(** A call that returns a value or raises an [Exception] with a message. *)
Inductive result (A : Type) : Type :=
  | Ok (a : A)
  | Raise (message : string).
Arguments Ok {A} a.
Arguments Raise {A} message.

(** What the sampling thread does to the outside: gauge writes and
    sleeps, oldest first. *)
Inductive event : Type :=
  | EvSet (name : string) (v : Q)
  | EvSleep (seconds : Z).

(** Code of the sampling thread: it changes the telemetry state, leaves a
    trace of events and returns or raises. Writes made before a raise
    stay. *)
Definition io (A : Type) : Type :=
  State * list event -> result A * (State * list event).

#[export] Instance io_ret : MRet io := fun A a w => (Ok a, w).

#[export] Instance io_bind : MBind io := fun A B k m w =>
  match m w with
  | (Ok a, w) => k a w
  | (Raise msg, w) => (Raise msg, w)
  end.

(** A call into psutil whose result the environment fixed. *)
Definition call {A} (r : result A) : io A := fun w => (r, w).

(** The state after a change of its gauges, and after a line more in
    its log. *)
Definition update_gauges (f : gmap string Q -> gmap string Q) (st : State)
    : State :=
  let 'mkState m g c d q r l := st in mkState m (f g) c d q r l.

Definition add_log (e : log_entry) (st : State) : State :=
  let 'mkState m g c d q r l := st in mkState m g c d q r (e :: l).

(** [Gauge.set]. *)
Definition set (name : string) (v : Q) : io unit := fun w =>
  let '(st, tr) := w in
  (Ok tt, (update_gauges (gauge_set name v) st, (tr ++ [EvSet name v])%list)).

(** [logger.debug] and [logger.error]. *)
Definition write_log (l : log_entry) : io unit := fun w =>
  let '(st, tr) := w in (Ok tt, (add_log l st, tr)).

(** Reading [system_monitor]. *)
Definition monitor : io SystemMonitor := fun w => (Ok (system_monitor (fst w)), w).

(** [try: m except Exception as e: h e]. *)
Definition try_except {A} (m : io A) (h : string -> io A) : io A := fun w =>
  match m w with
  | (Ok a, w) => (Ok a, w)
  | (Raise msg, w) => h msg w
  end.

(** What [time.sleep(seconds)] raises before it sleeps: the length is
    first converted to nanoseconds in a signed 64-bit integer, an
    [OverflowError] when it does not fit, and then a negative length is a
    [ValueError]. *)
Definition sleep_error (seconds : Q) : option string :=
  if Qltb (inject_Z (2 ^ 63 - 1)) (Qabs seconds * inject_Z (10 ^ 9))
  then Some "timestamp too large to convert to C _PyTime_t"
  else if Qltb seconds 0 then Some "sleep length must be non-negative"
  else None.


(** [a / b] on two ints. *)
Definition true_div (a b : Z) : result Q :=
  if b =? 0 then Raise "division by zero" else Ok (inject_Z a / inject_Z b)%Q.

(** What [psutil.virtual_memory()] returns, as far as it is used. *)
Record svmem : Type := mkSvmem {
  used : Z;
  available : Z;
  percent : Q
}.

(** What [psutil.disk_usage('/')] returns, as far as it is used. *)
Record sdiskusage : Type := mkSdiskusage {
  disk_used : Z;
  disk_total : Z
}.

(** What one tick takes from its environment, in the order of the
    calls. *)
Record Probe : Type := mkProbe {
  cpu_percent : result Q;
  virtual_memory : result svmem;
  disk_usage : result sdiskusage;
  time_now : Q;
  randint_5_25 : Z;
  net_connections : result Z
}.

(** The gauges of the sampler, by metric name. *)
Definition system_cpu_usage_percent : string := "system_cpu_usage_percent".
Definition system_memory_usage_bytes : string := "system_memory_usage_bytes".
Definition system_memory_available_bytes : string := "system_memory_available_bytes".
Definition system_disk_usage_percent : string := "system_disk_usage_percent".
Definition app_uptime_seconds : string := "app_uptime_seconds".
Definition app_health_score : string := "app_health_score".
Definition database_connection_pool_size : string := "database_connection_pool_size".
Definition active_connections : string := "active_connections".

(** The body of the [try] of [collect_system_metrics]. *)
Definition collect_body (p : Probe) : io unit :=
  cpu ← call (cpu_percent p);
  set system_cpu_usage_percent cpu;;
  memory ← call (virtual_memory p);
  set system_memory_usage_bytes (inject_Z (used memory));;
  set system_memory_available_bytes (inject_Z (available memory));;
  disk ← call (disk_usage p);
  ratio ← call (true_div (disk_used disk) (disk_total disk));
  let disk_usage_percent := (ratio * 100)%Q in
  set system_disk_usage_percent disk_usage_percent;;
  self ← monitor;
  let uptime := (time_now p - start_time self)%Q in
  set app_uptime_seconds uptime;;
  let health_score :=
    calculate_health_score self cpu (percent memory) disk_usage_percent in
  set app_health_score (inject_Z health_score);;
  set database_connection_pool_size (inject_Z (randint_5_25 p));;
  connections ← call (net_connections p);
  set active_connections (inject_Z connections);;
  write_log (LogSamplerDebug cpu (percent memory) health_score).

(** [SystemMonitor.collect_system_metrics]. *)
Definition collect_system_metrics (p : Probe) : io unit :=
  try_except (collect_body p) (fun e => write_log (LogSamplerError e)).


(** The gauges one complete tick writes, in order. *)
Definition tick_gauges : list string :=
  [system_cpu_usage_percent; system_memory_usage_bytes;
   system_memory_available_bytes; system_disk_usage_percent;
   app_uptime_seconds; app_health_score; database_connection_pool_size;
   active_connections].

(** The names of the gauges written in a trace, oldest first. *)
Definition written (tr : list event) : list string :=
  omap (fun e => match e with EvSet n _ => Some n | EvSleep _ => None end) tr.

(** The sleeps of a trace, oldest first. *)
Definition sleeps (tr : list event) : list Z :=
  omap (fun e => match e with EvSleep s => Some s | EvSet _ _ => None end) tr.

(** A tick fails when one of its calls raises. *)
Definition fails (p : Probe) : bool :=
  match cpu_percent p, virtual_memory p, disk_usage p, net_connections p with
  | Ok _, Ok _, Ok d, Ok _ => disk_total d =? 0
  | _, _, _, _ => true
  end.


End Sampler.

(** ** The error handlers of [app_20250706113427.py] *)

Module AppV2.
Import App.

(** The telemetry the handlers touch: the labelled error counter, the
    gauge of requests in flight and the log. *)
Record State : Type := mkState {
  error_counter : gmap (string * string) Z;
  active_requests : Z;
  log : list string
}.

(** [handle_exception], registered for [Exception]: the JSON object and
    the status code of the returned pair, and the new state. *)
Definition handle_exception (e : exn) (req : Request) (st : State)
    : (list (string * string) * Z) * State :=
  (([("error", "Internal Server Error"); ("message", exn_str e)], 500),
   {| error_counter := counter_inc (path req, "500") (error_counter st);
      active_requests := active_requests st - 1;
      log := ("Unhandled exception: " ++ exn_str e) :: log st |}).

(** [page_not_found], registered for 404. *)
Definition page_not_found (e : exn) (req : Request) (st : State)
    : (list (string * string) * Z) * State :=
  (([("error", "Not Found");
     ("message", "The requested resource was not found")], 404),
   {| error_counter := counter_inc (path req, "404") (error_counter st);
      active_requests := active_requests st - 1;
      log := log st |}).

(** [forbidden], registered for 403. *)
Definition forbidden (e : exn) (req : Request) (st : State)
    : (list (string * string) * Z) * State :=
  (([("error", "Forbidden"); ("message", "Access denied")], 403),
   {| error_counter := counter_inc (path req, "403") (error_counter st);
      active_requests := active_requests st - 1;
      log := log st |}).

(** Flask's choice among the registered handlers: the one for the status
    code of an [HTTPException] when there is one, else the one for
    [Exception]. *)
Definition handle_user_exception (e : exn) (req : Request) (st : State)
    : (list (string * string) * Z) * State :=
  match e with
  | HTTPException _ 404 _ _ => page_not_found e req st
  | HTTPException _ 403 _ _ => forbidden e req st
  | _ => handle_exception e req st
  end.

End AppV2.

(** ** Traffic generator: [load-test_20250618112717.py] *)

Module LoadTest.
Import Sampler.

(** The two lists set by [LoadTester.__init__]. *)
Definition endpoints : list string :=
  ["/"; "/api/health"; "/api/users"; "/api/products"; "/api/orders"; "/about"].

Definition error_endpoints : list string := ["/error"; "/slow"].

(** The dict [make_request] returns; [error] is present on failure
    only. *)
Record report : Type := mkReport {
  endpoint : string;
  status_code : Z;
  response_time : Q;
  success : bool;
  error : option string
}.

(** What [requests.get] does: a response with its status code and elapsed
    seconds, or an exception. *)
Definition make_request (ep : string) (net : result (Z * Q)) : report :=
  match net with
  | Ok (status, elapsed) =>
      {| endpoint := ep; status_code := status; response_time := elapsed;
         success := true; error := None |}
  | Raise msg =>
      {| endpoint := ep; status_code := 0; response_time := 0;
         success := false; error := Some msg |}
  end.

(** What one turn of the worker's loop takes from its environment: the
    clock at the loop test, the draw of [random.random()], the index drawn
    by [random.choice] and what the network does. *)
Record Draw : Type := mkDraw {
  clock : Q;
  coin : Q;
  pick : nat;
  net : result (Z * Q)
}.

(** [random.choice(seq)] at the drawn index; [IndexError] on an empty
    sequence. *)
Definition choice (i : nat) (seq : list string) : result string :=
  match seq !! (i mod length seq)%nat with
  | Some x => Ok x
  | None => Raise "Cannot choose from an empty sequence"
  end.

(** What a worker does to the outside, oldest first: the request it
    sends, the line it prints (success or failure, and status and response
    time on success) and the sleep. *)
Inductive action : Type :=
  | Get (ep : string)
  | Print (r : report)
  | Sleep (seconds : Q).

(** The loop of [worker], one turn for each draw of the environment until
    the clock reaches [end_time]. *)
Fixpoint worker_loop (end_time interval : Q) (draws : list Draw)
    : result (list action) :=
  match draws with
  | [] => Ok []
  | d :: draws =>
      if Qltb (clock d) end_time then
        match (if Qltb (coin d) (9 # 10) then choice (pick d) endpoints
               else choice (pick d) error_endpoints) with
        | Raise msg => Raise msg
        | Ok ep =>
            let r := make_request ep (net d) in
            match sleep_error interval with
            | Some msg => Raise msg
            | None =>
                match worker_loop end_time interval draws with
                | Ok rest => Ok (Get ep :: Print r :: Sleep interval :: rest)
                | Raise msg => Raise msg
                end
            end
        end
      else Ok []
  end.

(** [1.0 / x]. *)
Definition reciprocal (x : Q) : result Q :=
  if Qeq_bool x 0 then Raise "float division by zero" else Ok (1 / x)%Q.

(** [LoadTester.worker]; [now] is the clock when the worker starts. *)
Definition worker (now : Q) (duration requests_per_second : Q)
    (draws : list Draw) : result (list action) :=
  let end_time := (now + duration)%Q in
  match reciprocal requests_per_second with
  | Raise msg => Raise msg
  | Ok interval => worker_loop end_time interval draws
  end.

(** The arguments [run_load_test] submits to the pool, one pair for each
    of the [num_threads] turns of its [for] loop. *)
Definition submissions (duration requests_per_second num_threads : Z)
    : result (list (Q * Q)) :=
  if num_threads <=? 0 then Raise "max_workers must be greater than 0"
  else
    match true_div requests_per_second num_threads with
    | Raise msg => Raise msg
    | Ok rate => Ok (repeat (inject_Z duration, rate) (Z.to_nat num_threads))
    end.

(** The workers' traces, in the order their futures are awaited; the
    first exception of a worker is re-raised by [future.result()]. *)
Fixpoint results (jobs : list ((Q * Q) * (Q * list Draw)))
    : result (list (list action)) :=
  match jobs with
  | [] => Ok []
  | ((duration, rate), (now, draws)) :: jobs =>
      match worker now duration rate draws with
      | Raise msg => Raise msg
      | Ok tr =>
          match results jobs with
          | Ok trs => Ok (tr :: trs)
          | Raise msg => Raise msg
          end
      end
  end.

(** [LoadTester.run_load_test]; [envs] gives each worker its start time
    and its draws. *)
Definition run_load_test (duration requests_per_second num_threads : Z)
    (envs : list (Q * list Draw)) : result (list (list action)) :=
  match submissions duration requests_per_second num_threads with
  | Raise msg => Raise msg
  | Ok args => results (zip args envs)
  end.




End LoadTest.

(** ** Predicates used to state what the hooks keep *)

Module Keeps.
Import Monitor App.

(** What the hooks may do to the counters and histograms: no count goes
    down and no observation is dropped. *)
Definition grows (st st' : State) : Prop :=
  error_count (system_monitor st) <= error_count (system_monitor st')
  /\ total_requests (system_monitor st) <= total_requests (system_monitor st')
  /\ (forall k, counter_get k (http_requests_total st)
                <= counter_get k (http_requests_total st'))
  /\ (forall k, observations k (http_request_duration_seconds st)
                `suffix_of` observations k (http_request_duration_seconds st'))
  /\ (forall k, observations k (http_request_size_bytes st)
                `suffix_of` observations k (http_request_size_bytes st'))
  /\ (forall k, observations k (http_response_size_bytes st)
                `suffix_of` observations k (http_response_size_bytes st')).

(** The three histograms of a series hold one observation for each
    request counted under that method and path, whatever its status. *)
Definition aligned (st : State) : Prop :=
  forall k : string * string,
    length (observations k (http_request_duration_seconds st))
    = length (observations k (http_request_size_bytes st))
    /\ length (observations k (http_request_size_bytes st))
       = length (observations k (http_response_size_bytes st)).

(** The gauges after the writes of a trace, oldest first. *)
Definition replay (tr : list Sampler.event) (g : gmap string Q) : gmap string Q :=
  fold_left (fun g e => match e with
                        | Sampler.EvSet n v => gauge_set n v g
                        | Sampler.EvSleep _ => g
                        end) tr g.

End Keeps.

(** ** The views of [app_20250618114951.py] *)

Module Views.
Import Monitor App.

(** werkzeug's exceptions for [abort(403)] and [abort(429)]. *)
Definition Forbidden : exn :=
  HTTPException "Forbidden" 403
    "You don't have the permission to access the requested resource. It is either read-protected or not readable by the server."
    "403 Forbidden: You don't have the permission to access the requested resource. It is either read-protected or not readable by the server.".

Definition TooManyRequests : exn :=
  HTTPException "TooManyRequests" 429
    "This user has exceeded an allotted request count. Try again later."
    "429 Too Many Requests: This user has exceeded an allotted request count. Try again later.".

(** A call in a view: the value it returns or the exception it raises. *)
Definition raising (A : Type) : Type := (A + exn)%type.

(** Lines the views and the database simulator write through [logger]. *)
Inductive view_entry : Type :=
  | DbDebug (operation table : string) (duration : Q)
  | DbError (message : string)
  | ViewError (prefix message : string).

(** The metrics the views write: the labelled counter and histogram of
    the database simulator, the labelled counter of API calls and the
    counter of registrations; and their log. *)
Record Business : Type := mkBusiness {
  database_operations_total : gmap (string * string * string) Z;
  database_query_duration_seconds : gmap (string * string) (list Q);
  api_calls_total : gmap (string * string) Z;
  user_registrations_total : Z;
  view_log : list view_entry
}.

Definition empty : Business :=
  {| database_operations_total := ∅; database_query_duration_seconds := ∅;
     api_calls_total := ∅; user_registrations_total := 0; view_log := [] |}.

(** [database_operations_total.labels(...).inc()]. *)
Definition inc_operation (k : string * string * string) (b : Business) : Business :=
  let 'mkBusiness ops dur api reg l := b in
  mkBusiness (counter_inc k ops) dur api reg l.

(** [database_query_duration_seconds.labels(...).observe(v)]. *)
Definition observe_query (k : string * string) (v : Q) (b : Business) : Business :=
  let 'mkBusiness ops dur api reg l := b in
  mkBusiness ops (observe k v dur) api reg l.

(** [api_calls_total.labels(...).inc()]. *)
Definition inc_api_call (k : string * string) (b : Business) : Business :=
  let 'mkBusiness ops dur api reg l := b in
  mkBusiness ops dur (counter_inc k api) reg l.

(** [user_registrations_total.inc()]. *)
Definition inc_registration (b : Business) : Business :=
  let 'mkBusiness ops dur api reg l := b in
  mkBusiness ops dur api (reg + 1) l.

(** A line more in the log. *)
Definition log_line (e : view_entry) (b : Business) : Business :=
  let 'mkBusiness ops dur api reg l := b in
  mkBusiness ops dur api reg (e :: l).

(** *** [DatabaseSimulator.execute_query] *)

(** What one query takes from its environment: the clock when it starts,
    the draws of [random.random()] for the slow case, for the delay (the
    one [random.uniform] scales) and for the failure, and the clock when
    its duration is taken. *)
Record Query : Type := mkQuery {
  q_start : Q;
  q_slow : Q;
  q_delay : Q;
  q_fail : Q;
  q_end : Q
}.

(** [random.uniform(a, b)] on the draw [u] of [random.random()]. *)
Definition uniform (a b u : Q) : Q := (a + (b - a) * u)%Q.

(** The body of the [try] of [execute_query], up to the [return True]:
    the exception it raises, or the duration it measured. *)
Definition query_body (operation table : string) (simulate_slow : bool) (q : Query)
    : raising Q :=
  let delay :=
    if simulate_slow || Qltb (q_slow q) (1 # 10)
    then uniform (1 # 2) 2 (q_delay q)
    else uniform (1 # 100) (1 # 10) (q_delay q) in
  if Qltb delay 0
  then inr (OtherException "ValueError" "sleep length must be non-negative")
  else if Qltb (q_fail q) (2 # 100)
  then inr (OtherException "Exception"
              ("Database operation failed: " ++ operation ++ " on " ++ table))
  else inl (q_end q - q_start q)%Q.

(** [DatabaseSimulator.execute_query]. *)
Definition execute_query (operation table : string) (simulate_slow : bool)
    (q : Query) (b : Business) : raising bool * Business :=
  match query_body operation table simulate_slow q with
  | inl duration =>
      let b := observe_query (operation, table) duration b in
      let b := inc_operation (operation, table, "success") b in
      let b := log_line (DbDebug operation table duration) b in
      (inl true, b)
  | inr e =>
      let b := inc_operation (operation, table, "error") b in
      let b := log_line (DbError ("Database operation failed: " ++ exn_str e)) b in
      (inr e, b)
  end.

(** The calls of a sequence of queries, oldest first, whatever each
    returns. *)
Definition run_queries (calls : list (string * string * bool * Query)) (b : Business)
    : Business :=
  fold_left (fun b c => (execute_query c.1.1.1 c.1.1.2 c.1.2 c.2 b).2) calls b.

(** Whether a call names the given operation and table, and whether it
    raises. *)
Definition names (operation table : string) (c : string * string * bool * Query)
    : bool :=
  bool_decide (c.1.1.1 = operation /\ c.1.1.2 = table).

Definition raises (c : string * string * bool * Query) : bool :=
  match query_body c.1.1.1 c.1.1.2 c.1.2 c.2 with
  | inl _ => false
  | inr _ => true
  end.

(** *** [require_api_key] *)

(** The wrapper [decorated_function]: [api_key] is the header
    [X-API-Key] ([None] when the request has none) and [f] the wrapped
    view. *)
Definition require_api_key {A} (PROMETHEUS_HEX : string) (api_key : option string)
    (f : Business -> raising A * Business) (b : Business) : raising A * Business :=
  if decide (api_key ≠ Some PROMETHEUS_HEX) then (inr Forbidden, b) else f b.

(** *** [simulate_error] *)

(** [simulate_error] on the query parameter [type] (['500'] when the
    request has none); [len] is the size of the JSON of the one response
    it can return. *)
Definition simulate_error (error_type : string) (len : Z) : outcome :=
  if String.eqb error_type "404" then Raises NotFound
  else if String.eqb error_type "403" then Raises Forbidden
  else if String.eqb error_type "429" then Raises TooManyRequests
  else if String.eqb error_type "timeout" then
    Returns {| status_code := 200;
               json := [("message", "This should have timed out")];
               resp_len := len |}
  else if String.eqb error_type "db" then
    Raises (OtherException "Exception" "Simulated database connection error")
  else
    Raises (OtherException "Exception"
              ("Simulated " ++ error_type ++ " error for testing monitoring")).

(** *** [get_config] *)

(** What the hooks see of a view's result: the response [ok] makes of a
    returned value, or the exception. *)
Definition outcome_of {A} (ok : A -> Response) (r : raising A) : outcome :=
  match r with
  | inl a => Returns (ok a)
  | inr e => Raises e
  end.

(** The body of [get_config]: it reads the configuration and returns its
    JSON, [len] bytes long. *)
Definition get_config (len : Z) (b : Business) : raising Response * Business :=
  (inl {| status_code := 200; json := []; resp_len := len |}, b).

(** *** The users: [get_users] *)

(** Python's [a // b] on ints; the message is CPython's. *)
Definition floor_div (a b : Z) : raising Z :=
  if b =? 0
  then inr (OtherException "ZeroDivisionError" "integer division or modulo by zero")
  else inl (a / b).

(** Python's [int(x)] on a float: the fraction is dropped. *)
Definition py_int (x : Q) : Z := Z.quot (Qnum x) (Z.pos (Qden x)).

(** Python's [round(x, n)] on an exact rational, ties to even. *)
Definition round_digits (n : nat) (x : Q) : Q :=
  (inject_Z (round_half_even (x * inject_Z (10 ^ Z.of_nat n)))
   / inject_Z (10 ^ Z.of_nat n))%Q.

(** An index of a slice, as Python places it in a list of length [len]:
    a negative index counts from the end, and both ends are clipped. *)
Definition slice_index (len i : Z) : Z :=
  if i <? 0 then Z.max (i + len) 0 else Z.min i len.

(** Python's [l[start:stop]]. *)
Definition py_slice {A} (l : list A) (start stop : Z) : list A :=
  let len := Z.of_nat (length l) in
  let a := slice_index len start in
  let b := slice_index len stop in
  take (Z.to_nat (b - a)) (drop (Z.to_nat a) l).

(** One of the mock users. *)
Record user : Type := mkUser {
  user_id : Z;
  user_name : string;
  user_email : string;
  user_created_at : string;
  user_status : string
}.

(** The list comprehension [all_users]; [rand i] is the creation date and
    the status drawn for user [i]. *)
Definition all_users (rand : Z -> string * string) : list user :=
  (fun i => {| user_id := i;
               user_name := "User " ++ pretty i;
               user_email := "user" ++ pretty i ++ "@company.com";
               user_created_at := (rand i).1;
               user_status := (rand i).2 |}) <$> seqZ 1 100.

(** The JSON of [get_users]. *)
Record users_page : Type := mkUsersPage {
  users : list user;
  page : Z;
  limit : Z;
  total : Z;
  pages : Z;
  users_timestamp : string;
  response_time_ms : Z
}.

(** What [get_users] takes from its environment. *)
Record users_env : Type := mkUsersEnv {
  u_query : Query;
  u_rand : Z -> string * string;
  u_iso : string;
  u_now : Q
}.

(** [get_users] on the query parameters [page] and [limit] (1 and 10 when
    the request has none); [start_time] is what the pre-hook stored in the
    request. *)
Definition get_users (page limit : Z) (start_time : Q) (env : users_env)
    (b : Business) : raising users_page * Business :=
  match execute_query "SELECT" "users" false (u_query env) b with
  | (inr e, b) => (inr e, log_line (ViewError "Error fetching users: " (exn_str e)) b)
  | (inl _, b) =>
      let all_users := all_users (u_rand env) in
      let start := (page - 1) * limit in
      let end_ := start + limit in
      let users := py_slice all_users start end_ in
      let b := inc_api_call ("/api/users", "GET") b in
      match floor_div (Z.of_nat (length all_users) + limit - 1) limit with
      | inr e =>
          (inr e, log_line (ViewError "Error fetching users: " (exn_str e)) b)
      | inl pages =>
          (inl {| users := users; page := page; limit := limit;
                  total := Z.of_nat (length all_users); pages := pages;
                  users_timestamp := u_iso env;
                  response_time_ms := py_int ((u_now env - start_time) * 1000) |},
           b)
      end
  end.

(** *** The orders: [get_orders] *)

Record order : Type := mkOrder {
  order_id : Z;
  order_user_id : Z;
  order_total : Q;
  order_status : string;
  order_created_at : string;
  order_items : Z;
  order_shipping_address : string
}.

(** The literal list [orders]. *)
Definition orders_table : list order :=
  [ mkOrder 1001 1 (145998 # 100) "completed" "2024-12-15T10:30:00Z" 3
            "123 Main St, City, State";
    mkOrder 1002 2 (8997 # 100) "pending" "2024-12-18T14:22:00Z" 1
            "456 Oak Ave, City, State";
    mkOrder 1003 3 (29999 # 100) "shipped" "2024-12-17T09:15:00Z" 2
            "789 Pine St, City, State";
    mkOrder 1004 1 (4550 # 100) "cancelled" "2024-12-16T16:45:00Z" 1
            "123 Main St, City, State" ].

(** The JSON of [get_orders]. *)
Record orders_report : Type := mkOrdersReport {
  orders : list order;
  total_orders : Z;
  total_value : Q;
  average_order_value : Q;
  status_breakdown : gmap string Z;
  filter_status : option string;
  orders_timestamp : string;
  query_time_ms : Z
}.

(** What [get_orders] takes from its environment. *)
Record orders_env : Type := mkOrdersEnv {
  o_query : Query;
  o_iso : string;
  o_now : Q
}.

Section Lower.

(** [str.lower]. *)
Variable lower : string -> string.

(** The filter on the query parameter [status]: none for a request
    without the parameter or with an empty one. *)
Definition select_orders (status_filter : option string) (orders : list order)
    : list order :=
  match status_filter with
  | Some s =>
      if String.eqb s "" then orders
      else filter (fun o => lower (order_status o) = lower s) orders
  | None => orders
  end.

(** The loop that fills [status_counts]. *)
Definition count_statuses (orders : list order) : gmap string Z :=
  fold_left (fun counts o => counter_inc (order_status o) counts) orders ∅.

(** [sum(order['total'] for order in orders)]. *)
Definition sum_totals (orders : list order) : Q :=
  fold_left (fun acc o => (acc + order_total o)%Q) orders 0%Q.

(** [get_orders]. *)
Definition get_orders (status_filter : option string) (start_time : Q)
    (env : orders_env) (b : Business) : raising orders_report * Business :=
  match execute_query "SELECT" "orders" true (o_query env) b with
  | (inr e, b) => (inr e, log_line (ViewError "Error fetching orders: " (exn_str e)) b)
  | (inl _, b) =>
      let orders := select_orders status_filter orders_table in
      let total_value := sum_totals orders in
      let status_counts := count_statuses orders in
      let b := inc_api_call ("/api/orders", "GET") b in
      (inl {| orders := orders;
              total_orders := Z.of_nat (length orders);
              total_value := round_digits 2 total_value;
              average_order_value :=
                round_digits 2
                  (match orders with
                   | [] => 0
                   | _ :: _ => total_value / inject_Z (Z.of_nat (length orders))
                   end);
              status_breakdown := status_counts;
              filter_status := status_filter;
              orders_timestamp := o_iso env;
              query_time_ms := py_int ((o_now env - start_time) * 1000) |},
       b)
  end.

End Lower.

(** *** Registration: [create_user] *)

(** The two answers of [create_user]: 400 with the list of required
    fields, or 201 with the new user and its links. *)
Inductive registration (V : Type) : Type :=
  | MissingFields (required : list string)
  | Created (id : Z) (name email : V) (status created_at : string)
            (profile_completed : bool) (self profile : string).
Arguments MissingFields {V} required.
Arguments Created {V} id name email status created_at profile_completed self profile.

(** What [create_user] takes from its environment: the draws of its
    query, what [request.get_json()] gives (an exception, no JSON, or the
    object), the drawn id and the time stamp. *)
Record create_env (V : Type) : Type := mkCreateEnv {
  c_query : Query;
  c_json : raising (option (gmap string V));
  c_id : Z;
  c_iso : string
}.
Arguments c_query {V} _.
Arguments c_json {V} _.
Arguments c_id {V} _.
Arguments c_iso {V} _.

(** The body of [create_user], under the decorator. *)
Definition create_user_body {V} (env : create_env V) (b : Business)
    : raising (registration V) * Business :=
  let failed e b := (inr e, log_line (ViewError "Error creating user: " (exn_str e)) b) in
  match execute_query "INSERT" "users" false (c_query env) b with
  | (inr e, b) => failed e b
  | (inl _, b) =>
      let b := inc_registration b in
      match c_json env with
      | inr e => failed e b
      | inl user_data =>
          let required_fields := ["email"; "name"] in
          let complete :=
            match user_data with
            | None => false
            | Some d =>
                negb (bool_decide (d = ∅))
                && forallb (fun field => bool_decide (is_Some (d !! field)))
                           required_fields
            end in
          if negb complete then (inl (MissingFields required_fields), b)
          else
            match user_data ≫= (fun d => d !! "name"),
                  user_data ≫= (fun d => d !! "email") with
            | Some name, Some email =>
                (inl (Created (c_id env) name email "active" (c_iso env) false
                        ("/api/users/" ++ pretty (c_id env))
                        ("/api/users/" ++ pretty (c_id env) ++ "/profile")),
                 b)
            | None, _ => failed (OtherException "KeyError" "'name'") b
            | _, None => failed (OtherException "KeyError" "'email'") b
            end
      end
  end.

(** [create_user]: the body behind [require_api_key]. *)
Definition create_user {V} (PROMETHEUS_HEX : string) (api_key : option string)
    (env : create_env V) : Business -> raising (registration V) * Business :=
  require_api_key PROMETHEUS_HEX api_key (create_user_body env).

(** *** Stress: [stress_test] *)

(** The [for] loop of [stress_test]: [n] queries, the [i]-th with the
    draws [queries i], until one raises. *)
Fixpoint stress_loop (n i : nat) (queries : nat -> Query) (b : Business)
    : raising unit * Business :=
  match n with
  | O => (inl tt, b)
  | S n =>
      match execute_query "SELECT" "stress_test" false (queries i) b with
      | (inr e, b) => (inr e, b)
      | (inl _, b) => stress_loop n (S i) queries b
      end
  end.

(** The JSON of [stress_test]. *)
Record stress_report : Type := mkStressReport {
  stress_message : string;
  iterations_done : Z;
  duration_seconds : Q;
  operations_per_second : Q;
  stress_timestamp : string
}.

(** [stress_test] on the query parameter [iterations] (100 when the
    request has none); [t0] and [t1] are the clock before and after the
    loop. *)
Definition stress_test (iterations : Z) (t0 t1 : Q) (iso : string)
    (queries : nat -> Query) (b : Business) : raising stress_report * Business :=
  let failed e b := (inr e, log_line (ViewError "Stress test failed: " (exn_str e)) b) in
  match stress_loop (Z.to_nat iterations) 0 queries b with
  | (inr e, b) => failed e b
  | (inl _, b) =>
      let duration := (t1 - t0)%Q in
      if Qeq_bool duration 0
      then failed (OtherException "ZeroDivisionError" "float division by zero") b
      else (inl {| stress_message :=
                     "Stress test completed with " ++ pretty iterations
                     ++ " iterations";
                   iterations_done := iterations;
                   duration_seconds := round_digits 3 duration;
                   operations_per_second :=
                     round_digits 2 (inject_Z iterations / duration);
                   stress_timestamp := iso |}, b)
  end.

End Views.

(** ** The request hooks of [app_20250706113427.py] *)

Module AppV2Flow.
Import App AppV2.

(** The traffic metrics [track_metrics] writes: two labelled counters, the
    labelled latency histogram, the summary of durations and the two size
    histograms (a series is the list of its observations, newest first),
    and the lines of [logger.info]. *)
Record Traffic : Type := mkTraffic {
  endpoint_clicks : gmap (string * string) Z;
  api_calls : gmap (string * string) Z;
  endpoint_latency : gmap (string * string) (list Q);
  request_duration : gmap string (list Q);
  request_size : gmap string (list Z);
  response_size : gmap string (list Z);
  info_log : list (string * string * Z * Q)
}.

(** The state when the module has been imported. *)
Definition boot : State * Traffic :=
  ({| error_counter := ∅; active_requests := 0; log := [] |},
   {| endpoint_clicks := ∅; api_calls := ∅; endpoint_latency := ∅;
      request_duration := ∅; request_size := ∅; response_size := ∅;
      info_log := [] |}).

(** [active_requests.inc()] and [active_requests.dec()]. *)
Definition add_active (d : Z) (st : State) : State :=
  let 'mkState c a l := st in mkState c (a + d) l.

(** [start_timer]; [now] is [time.time()]. *)
Definition start_timer (now : Q) (req : Request) (st : State * Traffic)
    : Request * (State * Traffic) :=
  ({| path := path req; method := method req; data_len := data_len req;
      req_start_time := Some now; request_id := request_id req |},
   (add_active 1 st.1, st.2)).

(** The metrics of one request, as [track_metrics] records them. *)
Definition record_request (req : Request) (status : Z) (latency : Q)
    (response_len : Z) (t : Traffic) : Traffic :=
  let 'mkTraffic clicks calls lat dur rq rs l := t in
  mkTraffic (counter_inc (path req, method req) clicks)
            (counter_inc (path req, method req) calls)
            (observe (path req, method req) latency lat)
            (observe (path req) latency dur)
            (observe (path req) (data_len req) rq)
            (observe (path req) response_len rs)
            ((method req, path req, status, latency) :: l).

(** [track_metrics]; [now] is [time.time()] and [start_time] is
    [request.start_time], which [start_timer] has set. *)
Definition track_metrics (now start_time : Q) (req : Request) (response : Response)
    (st : State * Traffic) : Response * (State * Traffic) :=
  let t :=
    if bool_decide (path req ≠ "/favicon.ico") && bool_decide (path req ≠ "/metrics")
    then record_request req (status_code response) (now - start_time)%Q
                        (resp_len response) st.2
    else st.2 in
  (response, (add_active (-1) st.1, t)).

(** The rules registered with [@app.route], in the order of the file;
    only [metrics] catches what its body raises, and turns it into
    [abort(500)]. *)
Definition url_map : list (string * list string * view) :=
  [("/metrics", ["GET"], MetricsView);
   ("/", ["GET"], Propagating);
   ("/api/health", ["GET"], Propagating);
   ("/api/users", ["GET"], Propagating);
   ("/api/products", ["GET"], Propagating);
   ("/api/orders", ["GET"], Propagating);
   ("/api/users", ["POST"], Propagating);
   ("/slow", ["GET"], Propagating);
   ("/error", ["GET"], Propagating);
   ("/about", ["GET"], Propagating)].

(** Flask's [dispatch_request]. *)
Definition dispatch_request (env : Env) (req : Request) : Response + exn :=
  dispatch url_map env req.

(** Flask's [full_dispatch_request]: [start_timer], the view, the error
    handler Flask picks when the view raised, and [track_metrics] on
    whichever response came out. *)
Definition full_dispatch_request (env : Env) (req : Request) (st : State * Traffic)
    : Response * (State * Traffic) :=
  let '(req, st) := start_timer (t_before env) req st in
  let '(response, st) :=
    match dispatch_request env req with
    | inl r => (r, st)
    | inr e =>
        let '((json, code), s) := handle_user_exception e req st.1 in
        ({| status_code := code; json := json; resp_len := error_body_len env |},
         (s, st.2))
    end in
  track_metrics (t_after env) (t_before env) req response st.

(** The state after serving a sequence of requests, oldest first. *)
Definition serve (reqs : list (Env * Request)) (st : State * Traffic)
    : State * Traffic :=
  fold_left (fun s er => (full_dispatch_request er.1 er.2 s).2) reqs st.

(** Whether a request ends in an error handler. *)
Definition fails (er : Env * Request) : bool :=
  match dispatch_request er.1 er.2 with
  | inl _ => false
  | inr _ => true
  end.

(** The label [status_code] under which the handlers count an
    exception. *)
Definition counted_as (e : exn) : string :=
  match e with
  | HTTPException _ 404 _ _ => "404"
  | HTTPException _ 403 _ _ => "403"
  | _ => "500"
  end.

(** *** [get_location] *)

(** A JSON value, as far as [get_location] looks at it. *)
Inductive jvalue : Type :=
  | JString (s : string)
  | JNumber (x : Q)
  | JOther.

(** [data[k]]: a key that is missing is a [KeyError]. *)
Definition lookup_key (data : gmap string jvalue) (k : string) : jvalue + exn :=
  match data !! k with
  | Some v => inl v
  | None => inr (OtherException "KeyError" ("'" ++ k ++ "'"))
  end.

(** [v == s] for a JSON value and a string. *)
Definition eq_str (v : jvalue) (s : string) : bool :=
  match v with
  | JString s' => String.eqb s' s
  | _ => false
  end.

(** The body of the [try] of [get_location]; [fetched] is what
    [requests.get(...)] followed by [response.json()] gives: the object, or
    the exception one of the two raised. *)
Definition get_location_body (fetched : gmap string jvalue + exn)
    : (jvalue * jvalue) + exn :=
  match fetched with
  | inr e => inr e
  | inl data =>
      match lookup_key data "status" with
      | inr e => inr e
      | inl status =>
          if eq_str status "success"
          then
            match lookup_key data "lat" with
            | inr e => inr e
            | inl lat =>
                match lookup_key data "lon" with
                | inr e => inr e
                | inl lon => inl (lat, lon)
                end
            end
          else inl (JNumber 0, JNumber 0)
      end
  end.

(** [get_location]: the pair it returns and the warning it logs. *)
Definition get_location (ip : string) (fetched : gmap string jvalue + exn)
    : (jvalue * jvalue) * option string :=
  match get_location_body fetched with
  | inl r => (r, None)
  | inr e =>
      ((JNumber 0, JNumber 0),
       Some ("Failed to get location for IP " ++ ip ++ ": " ++ exn_str e))
  end.

End AppV2Flow.

(** * Properties *)

(** ** Float comparisons *)

Lemma Qgtb_true (a b : Q) : Qgtb a b = true <-> (b < a)%Q.
Proof.
  unfold Qgtb. rewrite negb_true_iff, <- not_true_iff_false, Qle_bool_iff.
  split; [apply Qnot_le_lt | apply Qlt_not_le].
Qed.

Lemma Qgtb_false (a b : Q) : Qgtb a b = false <-> (a <= b)%Q.
Proof. unfold Qgtb. rewrite negb_false_iff. apply Qle_bool_iff. Qed.

Lemma Qltb_true (a b : Q) : Qltb a b = true <-> (a < b)%Q.
Proof.
  unfold Qltb. rewrite negb_true_iff, <- not_true_iff_false, Qle_bool_iff.
  split; [apply Qnot_le_lt | apply Qlt_not_le].
Qed.

Lemma Qltb_false (a b : Q) : Qltb a b = false <-> (b <= a)%Q.
Proof. unfold Qltb. rewrite negb_false_iff. apply Qle_bool_iff. Qed.

(** ** The health score *)

Section HealthScore.
Import Monitor.

(** Each dimension subtracts one of its two penalties or nothing. *)
Lemma tier_cases (x hi lo : Q) (big small : Z) :
  tier x hi lo big small = big \/ tier x hi lo big small = small
  \/ tier x hi lo big small = 0.
Proof. unfold tier. destruct (Qgtb x hi), (Qgtb x lo); auto. Qed.

(** The tiers in terms of the order of the rationals: the higher tier
    takes precedence and the lower one is not applied with it. *)
Lemma tier_spec (x hi lo : Q) (big small : Z) :
  ((hi < x)%Q -> tier x hi lo big small = big)
  /\ ((x <= hi)%Q -> (lo < x)%Q -> tier x hi lo big small = small)
  /\ ((x <= hi)%Q -> (x <= lo)%Q -> tier x hi lo big small = 0).
Proof.
  unfold tier. repeat split.
  - intros H. apply Qgtb_true in H. by rewrite H.
  - intros H1 H2. apply Qgtb_false in H1. apply Qgtb_true in H2.
    by rewrite H1, H2.
  - intros H1 H2. apply Qgtb_false in H1. apply Qgtb_false in H2.
    by rewrite H1, H2.
Qed.

(** The code is the specification's rule at the stored error rate. *)
Lemma calculate_health_score_score_rule (self : SystemMonitor) (cpu mem disk : Q) :
  calculate_health_score self cpu mem disk
  = score_rule cpu mem disk (stored_error_rate self).
Proof.
  unfold calculate_health_score, score_rule, stored_error_rate, tier.
  destruct (0 <? total_requests self).
  - destruct (Qgtb cpu 80), (Qgtb cpu 60), (Qgtb mem 90), (Qgtb mem 70),
      (Qgtb disk 95), (Qgtb disk 85), (Qgtb (error_rate_expr self) 10),
      (Qgtb (error_rate_expr self) 5); reflexivity.
  - change (Qgtb 0 10) with false. change (Qgtb 0 5) with false.
    destruct (Qgtb cpu 80), (Qgtb cpu 60), (Qgtb mem 90), (Qgtb mem 70),
      (Qgtb disk 95), (Qgtb disk 85); reflexivity.
Qed.

(** The rule never subtracts more than 95. *)
Lemma score_rule_range (cpu mem disk err : Q) :
  5 <= score_rule cpu mem disk err <= 100.
Proof.
  unfold score_rule.
  destruct (tier_cases cpu 80 60 30 15) as [-> | [-> | ->]],
           (tier_cases mem 90 70 25 10) as [-> | [-> | ->]],
           (tier_cases disk 95 85 20 10) as [-> | [-> | ->]],
           (tier_cases err 10 5 20 10) as [-> | [-> | ->]]; lia.
Qed.

End HealthScore.

(** C1 (as amended): the score is computed without side effects from the
    three arguments cpu, memory and disk and from the monitor's stored
    counters, whose ratio 100 * errors / requests is the error rate once a
    request has been counted (no error penalty before); on these four
    values it follows the tier rule of the specification, clamped at 0.
    In particular score(50,50,50,0) = 100, score(85,50,50,0) = 70,
    score(85,95,96,12) = 5 and score(100,100,100,100) = 5. *)
Theorem health_score_rule :
  (forall (self : Monitor.SystemMonitor) (cpu mem disk : Q),
      Monitor.calculate_health_score self cpu mem disk
      = Monitor.score_rule cpu mem disk (Monitor.stored_error_rate self))
  /\ (forall (self : Monitor.SystemMonitor),
        0 < Monitor.total_requests self ->
        (Monitor.stored_error_rate self
         == 100 * inject_Z (Monitor.error_count self)
            / inject_Z (Monitor.total_requests self))%Q)
  /\ Monitor.calculate_health_score (Monitor.mkMonitor 0 0 0) 50 50 50 = 100
  /\ Monitor.calculate_health_score (Monitor.mkMonitor 0 0 7) 85 50 50 = 70
  /\ Monitor.calculate_health_score (Monitor.mkMonitor 0 12 100) 85 95 96 = 5
  /\ Monitor.calculate_health_score (Monitor.mkMonitor 0 1 1) 100 100 100 = 5
  /\ Monitor.score_rule 50 50 50 0 = 100
  /\ Monitor.score_rule 85 50 50 0 = 70
  /\ Monitor.score_rule 85 95 96 12 = 5
  /\ Monitor.score_rule 100 100 100 100 = 5.
Proof.
  split; [exact calculate_health_score_score_rule |].
  split; [| repeat split; vm_compute; reflexivity].
  intros self Ht. unfold Monitor.stored_error_rate, Monitor.error_rate_expr.
  apply Z.ltb_lt in Ht as Hb. rewrite Hb.
  assert (~ (inject_Z (Monitor.total_requests self) == 0)%Q).
  { unfold Qeq. simpl. lia. }
  field. assumption.
Qed.

(** Witness of C1: twelve errors in a hundred requests are a rate of
    12. *)
Lemma health_score_rule_witness :
  0 < Monitor.total_requests (Monitor.mkMonitor 0 12 100)
  /\ (Monitor.stored_error_rate (Monitor.mkMonitor 0 12 100)
      == 100 * inject_Z 12 / inject_Z 100)%Q.
Proof.
  split; [reflexivity |].
  exact (proj1 (proj2 health_score_rule) (Monitor.mkMonitor 0 12 100) eq_refl).
Defined.

(** C1 (as stated) fails: with every input at 100 the four top penalties
    add up to 95 and the score is 5, not 0; and the score is not a
    function of its arguments alone, the error rate is read from the
    monitor. *)
Lemma health_score_counterexample :
  Monitor.calculate_health_score (Monitor.mkMonitor 0 1 1) 100 100 100 <> 0
  /\ Monitor.score_rule 100 100 100 100 <> 0
  /\ Monitor.calculate_health_score (Monitor.mkMonitor 0 0 1) 50 50 50
     <> Monitor.calculate_health_score (Monitor.mkMonitor 0 1 1) 50 50 50.
Proof. repeat split; vm_compute; discriminate. Qed.

(** C6: for all inputs the health score lies in [0, 100]: the clamp gives
    the lower bound, at most one penalty per dimension is subtracted from
    100, and 100 is attained. *)
Theorem health_score_bounds :
  (forall (self : Monitor.SystemMonitor) (cpu mem disk : Q),
      0 <= Monitor.calculate_health_score self cpu mem disk <= 100)
  /\ Monitor.calculate_health_score (Monitor.init 0) 0 0 0 = 100.
Proof.
  split; [| reflexivity].
  intros self cpu mem disk. rewrite calculate_health_score_score_rule.
  pose proof (score_rule_range cpu mem disk (Monitor.stored_error_rate self)).
  lia.
Qed.

(** ** The error tracker *)

Section Tracker.
Import Monitor.

Lemma gauge_get_set (name : string) (v : Q) (g : gmap string Q) :
  gauge_get name (gauge_set name v g) = v.
Proof. unfold gauge_get, gauge_set. by rewrite lookup_insert_eq. Qed.

Lemma gauge_get_set_ne (name name' : string) (v : Q) (g : gmap string Q) :
  name <> name' -> gauge_get name' (gauge_set name v g) = gauge_get name' g.
Proof. intros Hne. unfold gauge_get, gauge_set. by rewrite lookup_insert_ne. Qed.

Lemma tracked_boot (now : Q) : tracked (Monitor.boot now).
Proof. repeat split; reflexivity. Qed.

Lemma tracked_increment_request (st : SystemMonitor * gmap string Q) :
  tracked st -> tracked (increment_request st).
Proof.
  destruct st as [m g]. intros (He & Ht & Hg). simpl in *.
  unfold increment_request. cbn [total_requests].
  destruct (Z.ltb_spec 0 (total_requests m + 1)); [| lia].
  repeat split; cbn; try lia.
  rewrite gauge_get_set. unfold stored_error_rate. cbn.
  destruct (Z.ltb_spec 0 (total_requests m + 1)); [reflexivity | lia].
Qed.

Lemma tracked_increment_error (now : Q) (st : SystemMonitor * gmap string Q) :
  tracked st -> tracked (increment_error now st).
Proof.
  destruct st as [m g]. intros (He & Ht & Hg). simpl in *.
  unfold increment_error. cbn [total_requests].
  destruct (Z.ltb_spec 0 (total_requests m)) as [Hpos | Hzero].
  - repeat split; cbn; try lia.
    rewrite gauge_get_set. unfold stored_error_rate. cbn.
    destruct (Z.ltb_spec 0 (total_requests m)); [reflexivity | lia].
  - repeat split; cbn; try lia.
    rewrite gauge_get_set_ne by discriminate. rewrite Hg.
    unfold stored_error_rate. cbn.
    destruct (Z.ltb_spec 0 (total_requests m)); [lia | reflexivity].
Qed.

Lemma tracked_run (cs : list call) (st : SystemMonitor * gmap string Q) :
  tracked st -> tracked (run cs st).
Proof.
  revert st. induction cs as [| c cs IH]; intros st Hst; [exact Hst |].
  apply IH. destruct c; [apply tracked_increment_request
                        | apply tracked_increment_error]; exact Hst.
Qed.

(** The counters after [t] requests followed by [e] errors. *)
Lemma run_requests_then_errors (now : Q) (e t : nat) :
  let st := run (repeat IncrementRequest t ++ repeat (IncrementError now) e)
                (Monitor.boot now) in
  error_count st.1 = Z.of_nat e /\ total_requests st.1 = Z.of_nat t.
Proof.
  cbv zeta. unfold run. rewrite fold_left_app.
  assert (Hreq : forall (n : nat) (st : SystemMonitor * gmap string Q),
             let st' := fold_left (fun s c => apply_call c s)
                                  (repeat IncrementRequest n) st in
             error_count st'.1 = error_count st.1
             /\ total_requests st'.1 = total_requests st.1 + Z.of_nat n).
  { induction n as [| n IH]; intros st; cbn [repeat fold_left]; [lia |].
    destruct (IH (apply_call IncrementRequest st)) as [-> ->].
    destruct st as [m g]. cbn. unfold increment_request.
    destruct (0 <? _); cbn; lia. }
  assert (Herr : forall (n : nat) (st : SystemMonitor * gmap string Q),
             let st' := fold_left (fun s c => apply_call c s)
                                  (repeat (IncrementError now) n) st in
             error_count st'.1 = error_count st.1 + Z.of_nat n
             /\ total_requests st'.1 = total_requests st.1).
  { induction n as [| n IH]; intros st; cbn [repeat fold_left]; [lia |].
    destruct (IH (apply_call (IncrementError now) st)) as [-> ->].
    destruct st as [m g]. cbn. unfold increment_error.
    destruct (0 <? _); cbn; lia. }
  destruct (Herr e (fold_left (fun s c => apply_call c s)
                              (repeat IncrementRequest t) (Monitor.boot now)))
    as [-> ->].
  destruct (Hreq t (Monitor.boot now)) as [-> ->]. cbn. lia.
Qed.

(** The stored rate is [100 * errors / max(requests, 1)] whenever the
    errors do not exceed the requests. *)
Lemma stored_error_rate_max (m : SystemMonitor) :
  0 <= error_count m <= total_requests m ->
  (stored_error_rate m
   == 100 * inject_Z (error_count m) / inject_Z (Z.max (total_requests m) 1))%Q.
Proof.
  intros [He Het]. unfold stored_error_rate, error_rate_expr.
  destruct (Z.ltb_spec 0 (total_requests m)) as [Hpos | Hzero].
  - rewrite Z.max_l by lia.
    assert (~ (inject_Z (total_requests m) == 0)%Q) by (unfold Qeq; simpl; lia).
    field. assumption.
  - assert (error_count m = 0) as -> by lia.
    assert (total_requests m = 0) as -> by lia. reflexivity.
Qed.

End Tracker.

(** C2: for all integers with requests >= errors >= 0, a tracker holding
    these counts exists, and the rate it derives (the error-rate gauge) is
    100 * errors / max(requests, 1): 100 * errors / requests when requests
    > 0 and 0 when requests = 0; no division by zero is evaluated. *)
Theorem error_rate_derivation (errors requests : Z) :
  0 <= errors <= requests ->
  (exists (now : Q) (cs : list Monitor.call),
      Monitor.error_count (Monitor.run cs (Monitor.boot now)).1 = errors
      /\ Monitor.total_requests (Monitor.run cs (Monitor.boot now)).1 = requests)
  /\ forall (now : Q) (cs : list Monitor.call),
      Monitor.error_count (Monitor.run cs (Monitor.boot now)).1 = errors ->
      Monitor.total_requests (Monitor.run cs (Monitor.boot now)).1 = requests ->
      let rate :=
        Monitor.gauge_get Monitor.error_rate (Monitor.run cs (Monitor.boot now)).2 in
      (rate == 100 * inject_Z errors / inject_Z (Z.max requests 1))%Q
      /\ (0 < requests -> (rate == 100 * inject_Z errors / inject_Z requests)%Q)
      /\ (requests = 0 -> (rate == 0)%Q).
Proof.
  intros [He Het]. split.
  - exists 0%Q,
      (repeat Monitor.IncrementRequest (Z.to_nat requests)
       ++ repeat (Monitor.IncrementError 0) (Z.to_nat errors))%list.
    destruct (run_requests_then_errors 0 (Z.to_nat errors) (Z.to_nat requests))
      as [-> ->]. lia.
  - intros now cs Hce Hcr rate.
    destruct (tracked_run cs _ (tracked_boot now)) as (_ & _ & Hg).
    assert (Hrate : (rate == 100 * inject_Z errors
                             / inject_Z (Z.max requests 1))%Q).
    { subst rate. rewrite Hg, <- Hce, <- Hcr.
      apply stored_error_rate_max. lia. }
    split; [exact Hrate |]. split.
    + intros Hpos. rewrite Hrate, Z.max_l by lia. reflexivity.
    + intros ->. rewrite Hrate. assert (errors = 0) as -> by lia. reflexivity.
Qed.

(** Witness of C2 at one error in two requests. *)
Lemma error_rate_derivation_witness :
  0 <= 1 <= 2
  /\ (Monitor.gauge_get Monitor.error_rate
        (Monitor.run [Monitor.IncrementRequest; Monitor.IncrementError 0;
                      Monitor.IncrementRequest] (Monitor.boot 0)).2
      == 100 * inject_Z 1 / inject_Z (Z.max 2 1))%Q.
Proof.
  split; [lia |].
  refine (proj1 (proj2 (error_rate_derivation 1 2 _) 0%Q
            [Monitor.IncrementRequest; Monitor.IncrementError 0;
             Monitor.IncrementRequest] _ _)); [lia | reflexivity | reflexivity].
Defined.

(** ** The request hooks *)

(** Case analysis on membership in a literal list: [tac] closes the case
    of each element. *)
Ltac each_member H tac :=
  repeat (apply elem_of_cons in H as [H | H]; [tac |]);
  by apply elem_of_nil in H.

Section Hooks.
Import Monitor App.

(** A rule that answers a request is a rule of the table. *)
Lemma match_method_elem (rules : list (string * list string * view))
    (p m : string) (methods : list string) (v : view) :
  match_method rules p m = Some (methods, v) -> (p, methods, v) ∈ rules.
Proof.
  induction rules as [| [[r ms] v'] rules IH]; [discriminate |].
  cbn [match_method]. destruct (String.eqb_spec r p) as [-> | _]; cbn [andb].
  - destruct (existsb _ _).
    + intros [= <- <-]. apply elem_of_cons. by left.
    + intros H. apply elem_of_cons. right. by apply IH.
  - intros H. apply elem_of_cons. right. by apply IH.
Qed.

(** An exception other than an [HTTPException] reaches the error handler
    only from a view that lets exceptions escape, and no such view is on a
    path the pre-hook skips. *)
Lemma dispatch_other_exception (env : Env) (req : Request) (ty msg : string) :
  dispatch_request env req = inr (OtherException ty msg) ->
  path req ∉ before_request_skipped.
Proof.
  unfold dispatch_request, dispatch, match_request.
  destruct (match_method url_map (path req) (method req)) as [[methods v] |] eqn:Hm.
  2: { destruct (match_rule url_map (path req)); discriminate. }
  apply match_method_elem in Hm.
  destruct (_ && _); [discriminate |].
  destruct v; cbn [run_view]; destruct (body env); try discriminate.
  intros _ Hin. unfold before_request_skipped in Hin. unfold url_map in Hm.
  each_member Hm ltac:(first [ discriminate Hm
                             | apply (f_equal (fun rule => rule.1.1)) in Hm;
                               cbn [fst] in Hm; rewrite Hm in Hin;
                               each_member Hin ltac:(discriminate) ]).
Qed.

(** The pre-hook changes neither the path nor the method. *)
Lemma before_request_path (now : Q) (rid : string) (req : Request) (st : State) :
  path (before_request now rid req st).1 = path req
  /\ method (before_request now rid req st).1 = method req
  /\ req_start_time (before_request now rid req st).1 = Some now.
Proof.
  unfold before_request. cbn [path]. case_decide.
  - destruct (increment_request _). repeat split.
  - repeat split.
Qed.

(** The post-hook leaves the monitor and the gauges alone. *)
Lemma after_request_monitor (now : Q) (req : Request) (r : Response) (st : State) :
  system_monitor (after_request now req r st).2 = system_monitor st
  /\ gauges (after_request now req r st).2 = gauges st.
Proof.
  unfold after_request. destruct (req_start_time req); [| done].
  case_decide; done.
Qed.

(** The post-hook passes the response on. *)
Lemma after_request_response (now : Q) (req : Request) (r : Response) (st : State) :
  (after_request now req r st).1 = r.
Proof.
  unfold after_request. destruct (req_start_time req); [| done].
  case_decide; done.
Qed.

(** Routing reads the path and the method only, which the pre-hook
    leaves alone. *)
Lemma dispatch_before_request (env : Env) (now : Q) (rid : string)
    (req : Request) (st : State) :
  dispatch_request env (before_request now rid req st).1 = dispatch_request env req.
Proof.
  unfold dispatch_request, dispatch.
  destruct (before_request_path now rid req st) as (-> & -> & _). reflexivity.
Qed.

(** What a request leaves in the request counter and in the three
    histograms, on a path the post-hook records. *)
Lemma full_dispatch_recorded (env : Env) (req : Request) (st : State) :
  path req ∉ after_request_skipped ->
  let out := full_dispatch_request env req st in
  let k := (method req, path req) in
  http_requests_total out.2
  = counter_inc (method req, path req, status_code out.1) (http_requests_total st)
  /\ http_request_duration_seconds out.2
     = observe k (t_after env - t_before env)%Q (http_request_duration_seconds st)
  /\ http_request_size_bytes out.2
     = observe k (data_len req) (http_request_size_bytes st)
  /\ http_response_size_bytes out.2
     = observe k (resp_len out.1) (http_response_size_bytes st).
Proof.
  intros Hskip. cbv zeta. unfold full_dispatch_request.
  assert (Hb : exists st1,
             before_request (t_before env) (new_request_id env) req st
             = ({| path := path req; method := method req; data_len := data_len req;
                   req_start_time := Some (t_before env);
                   request_id := Some (new_request_id env) |}, st1)
             /\ http_requests_total st1 = http_requests_total st
             /\ http_request_duration_seconds st1 = http_request_duration_seconds st
             /\ http_request_size_bytes st1 = http_request_size_bytes st
             /\ http_response_size_bytes st1 = http_response_size_bytes st).
  { unfold before_request. case_decide; [destruct (increment_request _) |];
      eexists; split; try reflexivity; repeat split. }
  destruct Hb as (st1 & -> & H1 & H2 & H3 & H4).
  set (req1 := {| path := path req; method := method req; data_len := data_len req;
                  req_start_time := Some (t_before env);
                  request_id := Some (new_request_id env) |}).
  assert (Hafter : forall r s,
             http_requests_total s = http_requests_total st ->
             http_request_duration_seconds s = http_request_duration_seconds st ->
             http_request_size_bytes s = http_request_size_bytes st ->
             http_response_size_bytes s = http_response_size_bytes st ->
             let out := after_request (t_after env) req1 r s in
             http_requests_total out.2
             = counter_inc (method req, path req, status_code out.1)
                           (http_requests_total st)
             /\ http_request_duration_seconds out.2
                = observe (method req, path req) (t_after env - t_before env)%Q
                          (http_request_duration_seconds st)
             /\ http_request_size_bytes out.2
                = observe (method req, path req) (data_len req)
                          (http_request_size_bytes st)
             /\ http_response_size_bytes out.2
                = observe (method req, path req) (resp_len out.1)
                          (http_response_size_bytes st)).
  { intros r s E1 E2 E3 E4. cbv zeta. unfold after_request.
    cbn [req1 req_start_time path method data_len].
    rewrite decide_True by exact Hskip. cbn [fst snd http_requests_total
      http_request_duration_seconds http_request_size_bytes http_response_size_bytes].
    rewrite E1, E2, E3, E4. repeat split. }
  destruct (dispatch_request env req1) as [r | e].
  - apply Hafter; assumption.
  - destruct (handle_exception _ _ _ _ e req1 st1) as [resp st2] eqn:Hh.
    apply Hafter; unfold handle_exception in Hh;
      destruct (increment_error _ _); destruct e; injection Hh as <- <-; assumption.
Qed.

End Hooks.

(** C4: a request whose view raises an exception that is not an
    [HTTPException] adds exactly one to the total-request count and
    exactly one to the total-error count, and when it is done the
    error-rate gauge is 100 * errors / requests of the two new counts. *)
Theorem unrecognized_error_counts_once
    (env : App.Env) (req : App.Request) (st : App.State) (ty msg : string) :
  App.dispatch_request env req = inr (App.OtherException ty msg) ->
  0 <= Monitor.total_requests (App.system_monitor st) ->
  let st' := (App.full_dispatch_request env req st).2 in
  let errors := Monitor.error_count (App.system_monitor st') in
  let requests := Monitor.total_requests (App.system_monitor st') in
  requests = Monitor.total_requests (App.system_monitor st) + 1
  /\ errors = Monitor.error_count (App.system_monitor st) + 1
  /\ (Monitor.gauge_get Monitor.error_rate (App.gauges st')
      == 100 * inject_Z errors / inject_Z requests)%Q
  /\ App.status_code (App.full_dispatch_request env req st).1 = 500.
Proof.
  intros Hd Ht.
  pose proof (dispatch_other_exception _ _ _ _ Hd) as Hskip.
  assert (Hd' : forall now rid s,
             App.dispatch_request env (App.before_request now rid req s).1
             = inr (App.OtherException ty msg)).
  { intros now rid s. rewrite dispatch_before_request. exact Hd. }
  cbv zeta. unfold App.full_dispatch_request.
  specialize (Hd' (App.t_before env) (App.new_request_id env) st).
  destruct (App.before_request _ _ req st) as [req1 st1] eqn:Hb.
  cbn [fst] in Hd'. rewrite Hd'.
  destruct (App.handle_exception _ _ _ _ _ req1 st1) as [resp st2] eqn:Hh.
  rewrite after_request_response.
  destruct (after_request_monitor (App.t_after env) req1 resp st2) as [-> ->].
  unfold App.before_request in Hb. cbn [App.path] in Hb.
  rewrite decide_True in Hb by exact Hskip.
  unfold Monitor.increment_request in Hb. cbn [Monitor.total_requests] in Hb.
  destruct (Z.ltb_spec 0 (Monitor.total_requests (App.system_monitor st) + 1))
    as [_ |]; [| lia].
  injection Hb as <- <-.
  unfold App.handle_exception, Monitor.increment_error in Hh.
  cbn [App.system_monitor App.gauges Monitor.total_requests
       Monitor.error_count Monitor.start_time] in Hh.
  destruct (Z.ltb_spec 0 (Monitor.total_requests (App.system_monitor st) + 1))
    as [_ |]; [| lia].
  injection Hh as <- <-. cbn.
  repeat split.
  rewrite gauge_get_set. unfold Monitor.error_rate_expr. cbn.
  assert (~ (inject_Z (Monitor.total_requests (App.system_monitor st) + 1) == 0)%Q)
    by (unfold Qeq; simpl; lia).
  field. assumption.
Qed.

(** Witness of C4: [GET /api/simulate-error] raising at start-up. *)
Lemma unrecognized_error_counts_once_witness :
  let env := App.mkEnv 1 "rid" (App.Raises (App.OtherException "Exception" "boom"))
                       2 "eid" "iso" 90 3 in
  let req := App.incoming "/api/simulate-error" "GET" 0 in
  let st' := (App.full_dispatch_request env req (App.boot 0)).2 in
  App.dispatch_request env req = inr (App.OtherException "Exception" "boom")
  /\ 0 <= Monitor.total_requests (App.system_monitor (App.boot 0))
  /\ Monitor.total_requests (App.system_monitor st') = 0 + 1
  /\ Monitor.error_count (App.system_monitor st') = 0 + 1
  /\ (Monitor.gauge_get Monitor.error_rate (App.gauges st')
      == 100 * inject_Z (Monitor.error_count (App.system_monitor st'))
         / inject_Z (Monitor.total_requests (App.system_monitor st')))%Q.
Proof.
  intros env req st'.
  split; [reflexivity |]. split; [cbn; lia |].
  destruct (unrecognized_error_counts_once env req (App.boot 0)
              "Exception" "boom" eq_refl ltac:(cbn; lia)) as (Hr & He & Hg & _).
  split; [exact Hr |]. split; [exact He | exact Hg].
Defined.

(** C3 (the code at the failing input): the first request of a process,
    for the favicon, is skipped by the pre-hook, finds no view and reaches
    the error handler: one error is counted against no request. *)
Theorem favicon_error_outnumbers_requests (env : App.Env) :
  let st := (App.full_dispatch_request env
               (App.incoming "/favicon.ico" "GET" 0) (App.boot 0)).2 in
  Monitor.error_count (App.system_monitor st) = 1
  /\ Monitor.total_requests (App.system_monitor st) = 0
  /\ ~ (Monitor.error_count (App.system_monitor st)
        <= Monitor.total_requests (App.system_monitor st)).
Proof.
  cbv zeta.
  assert (Hst : App.system_monitor
                  (App.full_dispatch_request env
                     (App.incoming "/favicon.ico" "GET" 0) (App.boot 0)).2
                = Monitor.mkMonitor 0 1 0) by reflexivity.
  rewrite Hst. cbn. repeat split. lia.
Qed.

Section Counted.
Import Monitor App.

(** One request on a path the pre-hook counts adds one request and at
    most one error. *)
Lemma full_dispatch_counted (env : Env) (req : Request) (st : State) :
  path req ∉ before_request_skipped ->
  let m := system_monitor st in
  let m' := system_monitor (full_dispatch_request env req st).2 in
  total_requests m' = total_requests m + 1
  /\ error_count m <= error_count m' <= error_count m + 1.
Proof.
  intros Hskip. cbv zeta. unfold full_dispatch_request.
  destruct (before_request _ _ req st) as [req1 st1] eqn:Hb.
  unfold before_request in Hb. cbn [path] in Hb.
  rewrite decide_True in Hb by exact Hskip.
  unfold increment_request in Hb. destruct (0 <? _) in Hb; injection Hb as <- <-.
  all: destruct (dispatch_request env _) as [r | e].
  all: try (destruct (handle_exception _ _ _ _ e _ _) as [resp st2] eqn:Hh;
            unfold handle_exception, increment_error in Hh;
            destruct (0 <? _) in Hh; destruct e; injection Hh as <- <-).
  all: match goal with
       | |- context [after_request ?n ?r ?resp ?s] =>
           destruct (after_request_monitor n r resp s) as [-> _]
       end; cbn; lia.
Qed.

(** As long as every request is on a counted path, the errors do not
    exceed the requests. *)
Lemma errors_le_requests_on_counted_paths (reqs : list (Env * Request)) (st : State) :
  Forall (fun er => path er.2 ∉ before_request_skipped) reqs ->
  error_count (system_monitor st) <= total_requests (system_monitor st) ->
  error_count (system_monitor (serve reqs st))
  <= total_requests (system_monitor (serve reqs st)).
Proof.
  revert st. induction reqs as [| [env req] reqs IH]; intros st Hall Hst;
    [exact Hst |].
  inversion Hall as [| ? ? Hreq Hrest]; subst. cbn [serve fold_left].
  apply (IH _ Hrest). cbn [fst snd] in *.
  pose proof (full_dispatch_counted env req st Hreq) as H. cbv zeta in H. lia.
Qed.

(** No request lowers the total-request count. *)
Lemma full_dispatch_total_requests (env : Env) (req : Request) (st : State) :
  total_requests (system_monitor st)
  <= total_requests (system_monitor (full_dispatch_request env req st).2).
Proof.
  unfold full_dispatch_request.
  destruct (before_request _ _ req st) as [req1 st1] eqn:Hb.
  assert (H1 : total_requests (system_monitor st)
               <= total_requests (system_monitor st1)).
  { unfold before_request in Hb. case_decide.
    - unfold increment_request in Hb.
      destruct (0 <? _) in Hb; injection Hb as <- <-; cbn; lia.
    - injection Hb as <- <-. lia. }
  destruct (dispatch_request env req1) as [r | e].
  - destruct (after_request_monitor (t_after env) req1 r st1) as [-> _]. exact H1.
  - destruct (handle_exception _ _ _ _ e req1 st1) as [resp st2] eqn:Hh.
    destruct (after_request_monitor (t_after env) req1 resp st2) as [-> _].
    unfold handle_exception, increment_error in Hh.
    destruct (0 <? _) in Hh; destruct e; injection Hh as <- <-; cbn; lia.
Qed.

(** The total-request count of a running process is never negative. *)
Lemma serve_total_requests_nonneg (reqs : list (Env * Request)) (st : State) :
  0 <= total_requests (system_monitor st) ->
  0 <= total_requests (system_monitor (serve reqs st)).
Proof.
  revert st. induction reqs as [| [env req] reqs IH]; intros st Hst; [exact Hst |].
  cbn [serve fold_left]. apply IH. cbn [fst snd].
  pose proof (full_dispatch_total_requests env req st). lia.
Qed.

End Counted.

Section Exclusions.
Import Monitor App.

Lemma metrics_skipped_before : "/metrics" ∈ before_request_skipped.
Proof. unfold before_request_skipped. set_solver. Qed.

Lemma metrics_skipped_after : "/metrics" ∈ after_request_skipped.
Proof. unfold after_request_skipped. set_solver. Qed.

Lemma health_route_not_skipped_before : "/api/health" ∉ before_request_skipped.
Proof.
  intros Hin. unfold before_request_skipped in Hin. each_member Hin ltac:(discriminate).
Qed.

Lemma health_route_not_skipped_after : "/api/health" ∉ after_request_skipped.
Proof.
  intros Hin. unfold after_request_skipped in Hin. each_member Hin ltac:(discriminate).
Qed.

Lemma counter_get_inc {K} `{Countable K} (k : K) (m : gmap K Z) :
  counter_get k (counter_inc k m) = counter_get k m + 1.
Proof. unfold counter_inc. unfold counter_get at 1. by rewrite lookup_insert_eq. Qed.

Lemma observations_observe {K A} `{Countable K} (k : K) (v : A) (m : gmap K (list A)) :
  observations k (observe k v m) = v :: observations k m.
Proof. unfold observe. unfold observations at 1. by rewrite lookup_insert_eq. Qed.

End Exclusions.

(** C8: a request for [/metrics] changes no request telemetry: the
    pre-hook leaves the whole state, and so the total-request count, as it
    was; the post-hook leaves the request counter and the three histograms
    as they were; and a scrape that succeeds, which a GET or HEAD whose
    view returns does, leaves the state as it found it. *)
Theorem metrics_path_not_instrumented (req : App.Request) (st : App.State) :
  App.path req = "/metrics" ->
  (forall (now : Q) (rid : string), (App.before_request now rid req st).2 = st)
  /\ (forall (now : Q) (r : App.Response), (App.after_request now req r st).2 = st)
  /\ (forall (env : App.Env) (r : App.Response),
         App.dispatch_request env req = inl r ->
         App.full_dispatch_request env req st = (r, st))
  /\ (forall (env : App.Env) (r : App.Response),
         App.method req = "GET" \/ App.method req = "HEAD" ->
         App.body env = App.Returns r ->
         App.full_dispatch_request env req st = (r, st)).
Proof.
  intros Hp.
  assert (Hfull : forall (env : App.Env) (r : App.Response),
             App.dispatch_request env req = inl r ->
             App.full_dispatch_request env req st = (r, st)).
  { intros env r Hd. unfold App.full_dispatch_request, App.before_request.
    cbn [App.path]. rewrite Hp.
    rewrite decide_False by (intros Hn; exact (Hn metrics_skipped_before)).
    replace (App.dispatch_request env _) with (App.dispatch_request env req)
      by (unfold App.dispatch_request, App.dispatch; cbn [App.path App.method];
          by rewrite Hp).
    rewrite Hd. unfold App.after_request. cbn [App.req_start_time App.path].
    rewrite decide_False by (intros Hn; exact (Hn metrics_skipped_after)).
    reflexivity. }
  split; [| split; [| split; [exact Hfull |]]].
  3: { intros env r Hm Hbody. apply Hfull.
       unfold App.dispatch_request, App.dispatch. rewrite Hp.
       destruct Hm as [-> | ->]; cbn; by rewrite Hbody. }
  - intros now rid. unfold App.before_request. cbn [App.path]. rewrite Hp.
    rewrite decide_False; [reflexivity |].
    intros Hn. exact (Hn metrics_skipped_before).
  - intros now r. unfold App.after_request. rewrite Hp.
    destruct (App.req_start_time req); [| reflexivity].
    rewrite decide_False; [reflexivity |].
    intros Hn. exact (Hn metrics_skipped_after).
Qed.

(** Witness of C8: a scrape of a freshly started process. *)
Lemma metrics_path_not_instrumented_witness :
  App.path (App.incoming "/metrics" "GET" 0) = "/metrics"
  /\ (App.before_request 1 "rid" (App.incoming "/metrics" "GET" 0) (App.boot 0)).2
     = App.boot 0.
Proof.
  split; [reflexivity |].
  exact (proj1 (metrics_path_not_instrumented
                  (App.incoming "/metrics" "GET" 0) (App.boot 0) eq_refl)
               1%Q "rid").
Defined.

(** C10: every request for [/api/health], the registered health route,
    adds one to the total-request count and is recorded by the post-hook
    in the request counter and the three histograms; the pre-hook skips
    exactly [/favicon.ico], [/health] and [/metrics], and [/health] is not
    a route. *)
Theorem health_check_is_counted
    (env : App.Env) (m : string) (len : Z) (st : App.State) :
  let out := App.full_dispatch_request env (App.incoming "/api/health" m len) st in
  Monitor.total_requests (App.system_monitor out.2)
  = Monitor.total_requests (App.system_monitor st) + 1
  /\ App.counter_get (m, "/api/health", App.status_code out.1)
                     (App.http_requests_total out.2)
     = App.counter_get (m, "/api/health", App.status_code out.1)
                       (App.http_requests_total st) + 1
  /\ App.observations (m, "/api/health") (App.http_request_duration_seconds out.2)
     = (App.t_after env - App.t_before env)%Q
       :: App.observations (m, "/api/health") (App.http_request_duration_seconds st)
  /\ App.observations (m, "/api/health") (App.http_request_size_bytes out.2)
     = len :: App.observations (m, "/api/health") (App.http_request_size_bytes st)
  /\ App.observations (m, "/api/health") (App.http_response_size_bytes out.2)
     = App.resp_len out.1
       :: App.observations (m, "/api/health") (App.http_response_size_bytes st)
  /\ (forall p : string,
         p ∈ App.before_request_skipped
         <-> p = "/favicon.ico" \/ p = "/health" \/ p = "/metrics")
  /\ App.match_rule App.url_map "/api/health" = Some App.HealthView
  /\ App.match_rule App.url_map "/health" = None.
Proof.
  cbv zeta.
  assert (Hskip : forall p : string,
             p ∈ App.before_request_skipped
             <-> p = "/favicon.ico" \/ p = "/health" \/ p = "/metrics").
  { intros p. unfold App.before_request_skipped.
    rewrite !elem_of_cons, elem_of_nil. tauto. }
  pose proof (full_dispatch_counted env (App.incoming "/api/health" m len) st
                health_route_not_skipped_before) as [Ht _].
  pose proof (full_dispatch_recorded env (App.incoming "/api/health" m len) st
                health_route_not_skipped_after) as (H1 & H2 & H3 & H4).
  cbv zeta in Ht, H1, H2, H3, H4. cbn [App.incoming App.method App.path App.data_len] in *.
  rewrite H1, H2, H3, H4, counter_get_inc, !observations_observe.
  split; [exact Ht |]. do 4 (split; [reflexivity |]).
  split; [exact Hskip |]. split; reflexivity.
Qed.

(** ** The error handlers *)

Section ErrorBodies.
Import Monitor App.

(** X25: the handler of [app_20250618114951.py] answers every exception with
    its error id and time stamp, an [HTTPException] with its own code and
    description, and anything else with 500 and the generic message. *)
Lemma handle_exception_normalizes
    (now : Q) (eid iso : string) (size : Z) (e : exn) (req : Request) (st : State) :
  let resp := (handle_exception now eid iso size e req st).1 in
  json_get "error_id" (json resp) = Some eid
  /\ json_get "timestamp" (json resp) = Some iso
  /\ match e with
     | HTTPException _ code description _ =>
         status_code resp = code /\ json_get "error" (json resp) = Some description
     | OtherException _ _ =>
         status_code resp = 500
         /\ json_get "error" (json resp) = Some "Internal Server Error"
     end.
Proof.
  cbv zeta. unfold handle_exception, increment_error.
  destruct (0 <? _); destruct e; cbn; repeat split.
Qed.

(** X26: its response to an exception that is not an [HTTPException] does not
    depend on the exception: neither its type nor [str(e)] can show. *)
Lemma handle_exception_hides_message
    (now : Q) (eid iso : string) (size : Z) (req : Request) (st : State)
    (ty msg ty' msg' : string) :
  (handle_exception now eid iso size (OtherException ty msg) req st).1
  = (handle_exception now eid iso size (OtherException ty' msg') req st).1.
Proof.
  unfold handle_exception, increment_error. destruct (0 <? _); reflexivity.
Qed.

End ErrorBodies.




(** ** The sampling thread *)

Section SamplerLoop.
Import Monitor App Sampler Keeps.

(** One tick never raises: it appends to the trace a beginning of the
    writes of a complete tick and no sleep; the whole of them when no call
    fails, and otherwise a proper beginning, followed by an error line in
    the log. *)
Lemma collect_system_metrics_total (p : Probe) (w : State * list event) :
  exists (st' : State) (tr : list event),
    collect_system_metrics p w = (Ok tt, (st', (w.2 ++ tr)%list))
    /\ written tr `prefix_of` tick_gauges
    /\ sleeps tr = []
    /\ system_monitor st' = system_monitor w.1
    /\ if fails p
       then written tr <> tick_gauges
            /\ exists msg, log st' = LogSamplerError msg :: log w.1
       else written tr = tick_gauges.
Proof.
  destruct w as [[m g c h1 h2 h3 l] tr0].
  destruct p as [[cpu | e1] [mem | e2] [[du dt] | e3] now rand [conns | e4]];
    unfold collect_system_metrics, try_except, collect_body, fails;
    unfold mbind, io_bind, call, set, monitor, write_log, true_div;
    cbn [cpu_percent virtual_memory disk_usage net_connections disk_used
         disk_total fst snd update_gauges add_log gauges log system_monitor];
    try destruct (dt =? 0);
    cbn [fst snd update_gauges add_log gauges log system_monitor];
    rewrite <- ?app_assoc;
    first [ eexists _, _; split; [reflexivity |]
          | eexists _, []; split; [by rewrite app_nil_r |] ];
    cbn [written sleeps omap list_omap app];
    (split; [| split; [reflexivity | split; [reflexivity |]]]);
    try (split; [discriminate | eexists; reflexivity]);
    try reflexivity;
    unfold tick_gauges;
    try (by apply prefix_nil);
    repeat (apply prefix_cons); apply prefix_nil.
Qed.






End SamplerLoop.




(** ** The traffic generator *)

Section Pacing.
Import Sampler LoadTest.

(** [random.choice] on a list that is not empty returns one of its
    elements. *)
Lemma choice_elem (i : nat) (seq : list string) :
  seq <> [] -> exists x, choice i seq = Ok x /\ x ∈ seq.
Proof.
  intros Hne. unfold choice.
  assert (Hlt : (i mod length seq < length seq)%nat).
  { apply Nat.mod_upper_bound. destruct seq; [done | discriminate]. }
  destruct (lookup_lt_is_Some_2 seq _ Hlt) as [x Hx].
  exists x. rewrite Hx. split; [reflexivity |].
  eapply list_elem_of_lookup_2. exact Hx.
Qed.

(** What [time.sleep] does with the reciprocal of a rate that is a
    quotient of two ints, by the sign of the rate and the size of the
    quotient. *)
Lemma sleep_error_reciprocal (a b : Z) :
  a <> 0 -> 0 < b ->
  sleep_error (1 / (inject_Z a / inject_Z b))
  = if (2 ^ 63 - 1) * Z.abs a <? b * 10 ^ 9
    then Some "timestamp too large to convert to C _PyTime_t"
    else if a <? 0 then Some "sleep length must be non-negative" else None.
Proof.
  intros Ha Hb. unfold sleep_error.
  assert (Hia : ~ (inject_Z a == 0)%Q) by (unfold Qeq; simpl; lia).
  assert (Hib : ~ (inject_Z b == 0)%Q) by (unfold Qeq; simpl; lia).
  assert (Hinv : (1 / (inject_Z a / inject_Z b) == inject_Z b / inject_Z a)%Q)
    by (field; split; assumption).
  assert (Habs : (Qabs (1 / (inject_Z a / inject_Z b)) * inject_Z (10 ^ 9)
                  == inject_Z (b * 10 ^ 9) / inject_Z (Z.abs a))%Q).
  { rewrite Hinv. unfold Qdiv. rewrite Qabs_Qmult, Qabs_Qinv.
    rewrite (Qabs_pos (inject_Z b)) by (unfold Qle; simpl; lia).
    assert (Hqa : (Qabs (inject_Z a) == inject_Z (Z.abs a))%Q) by reflexivity.
    rewrite Hqa, inject_Z_mult. field. unfold Qeq. simpl. lia. }
  assert (Hpos : (0 < inject_Z (Z.abs a))%Q) by (unfold Qlt; simpl; lia).
  assert (Hbig : Qltb (inject_Z (2 ^ 63 - 1))
                   (Qabs (1 / (inject_Z a / inject_Z b)) * inject_Z (10 ^ 9))
                 = ((2 ^ 63 - 1) * Z.abs a <? b * 10 ^ 9)).
  { destruct (Z.ltb_spec ((2 ^ 63 - 1) * Z.abs a) (b * 10 ^ 9)) as [Hlt | Hge].
    - apply Qltb_true. rewrite Habs. apply Qlt_shift_div_l; [exact Hpos |].
      rewrite <- inject_Z_mult, <- Zlt_Qlt. exact Hlt.
    - apply Qltb_false. rewrite Habs. apply Qle_shift_div_r; [exact Hpos |].
      rewrite <- inject_Z_mult, <- Zle_Qle. exact Hge. }
  rewrite Hbig. destruct (_ <? b * 10 ^ 9); [reflexivity |].
  assert (Hneg : Qltb (1 / (inject_Z a / inject_Z b)) 0 = (a <? 0)).
  { destruct (Z.ltb_spec a 0) as [Hlt | Hge].
    - apply Qltb_true. rewrite Hinv.
      assert (Hq : (inject_Z b / inject_Z a == - (inject_Z b / inject_Z (- a)))%Q).
      { rewrite inject_Z_opp. field. exact Hia. }
      rewrite Hq.
      assert (0 < inject_Z b / inject_Z (- a))%Q; [| lra].
      apply Qlt_shift_div_l; [unfold Qlt; simpl; lia |].
      rewrite Qmult_0_l. unfold Qlt. simpl. lia.
    - apply Qltb_false. rewrite Hinv.
      apply Qle_shift_div_l; [unfold Qlt; simpl; lia |].
      rewrite Qmult_0_l. unfold Qle. simpl. lia. }
  rewrite Hneg. reflexivity.
Qed.



End Pacing.



(** * Further properties of the instrumented application *)

Section Monotone.
Import Monitor App Keeps.

Lemma counter_get_inc_le {K} `{Countable K} (k k' : K) (m : gmap K Z) :
  counter_get k m <= counter_get k (counter_inc k' m).
Proof.
  unfold counter_inc. unfold counter_get at 2.
  destruct (decide (k' = k)) as [-> | Hne].
  - rewrite lookup_insert_eq. cbn. lia.
  - rewrite lookup_insert_ne by exact Hne. reflexivity.
Qed.

Lemma observations_observe_suffix {K A} `{Countable K} (k k' : K) (v : A)
    (m : gmap K (list A)) :
  observations k m `suffix_of` observations k (observe k' v m).
Proof.
  unfold observe. unfold observations at 2.
  destruct (decide (k' = k)) as [-> | Hne].
  - rewrite lookup_insert_eq. cbn. by apply suffix_cons_r.
  - rewrite lookup_insert_ne by exact Hne. reflexivity.
Qed.

Lemma grows_refl (st : State) : grows st st.
Proof. unfold grows. repeat split; intros; reflexivity. Qed.

Lemma grows_trans (st1 st2 st3 : State) :
  grows st1 st2 -> grows st2 st3 -> grows st1 st3.
Proof.
  intros (A1 & A2 & A3 & A4 & A5 & A6) (B1 & B2 & B3 & B4 & B5 & B6).
  unfold grows. repeat split; intros; try lia.
  - specialize (A3 k). specialize (B3 k). lia.
  - etrans; [apply A4 | apply B4].
  - etrans; [apply A5 | apply B5].
  - etrans; [apply A6 | apply B6].
Qed.

Lemma before_request_grows (now : Q) (rid : string) (req : Request) (st : State) :
  grows st (before_request now rid req st).2.
Proof.
  unfold before_request. case_decide; [| apply grows_refl].
  unfold increment_request.
  destruct (0 <? _); unfold grows; cbn; repeat split; intros;
    first [lia | reflexivity].
Qed.

Lemma handle_exception_grows (now : Q) (eid iso : string) (size : Z) (e : exn)
    (req : Request) (st : State) :
  grows st (handle_exception now eid iso size e req st).2.
Proof.
  unfold handle_exception, increment_error.
  destruct (0 <? _); destruct e; unfold grows; cbn; repeat split; intros;
    first [lia | reflexivity].
Qed.

Lemma after_request_grows (now : Q) (req : Request) (r : Response) (st : State) :
  grows st (after_request now req r st).2.
Proof.
  unfold after_request. destruct (req_start_time req); [| apply grows_refl].
  case_decide; [| apply grows_refl].
  unfold grows. cbn. repeat split; intros; try lia.
  - apply counter_get_inc_le.
  - apply observations_observe_suffix.
  - apply observations_observe_suffix.
  - apply observations_observe_suffix.
Qed.

Lemma full_dispatch_grows (env : Env) (req : Request) (st : State) :
  grows st (full_dispatch_request env req st).2.
Proof.
  unfold full_dispatch_request.
  pose proof (before_request_grows (t_before env) (new_request_id env) req st) as Hb.
  destruct (before_request _ _ req st) as [req1 st1]. cbn [snd] in Hb.
  destruct (dispatch_request env req1) as [r | e].
  - eapply grows_trans; [exact Hb | apply after_request_grows].
  - pose proof (handle_exception_grows (t_error env) (new_error_id env)
                  (iso_now env) (error_body_len env) e req1 st1) as Hh.
    destruct (handle_exception _ _ _ _ e req1 st1) as [resp st2]. cbn [snd] in Hh.
    eapply grows_trans; [exact Hb |].
    eapply grows_trans; [exact Hh | apply after_request_grows].
Qed.

End Monotone.

(** X1: over any sequence of requests the error count, the total-request
    count and every series of the request counter never decrease, and the
    three histograms only gain observations. *)
Theorem telemetry_never_decreases (reqs : list (App.Env * App.Request)) (st : App.State) :
  Keeps.grows st (App.serve reqs st).
Proof.
  revert st. induction reqs as [| [env req] reqs IH]; intros st.
  - apply grows_refl.
  - cbn [App.serve fold_left]. eapply grows_trans; [| apply IH].
    apply full_dispatch_grows.
Qed.

Section ErrorRateGauge.
Import Monitor App Keeps.

Lemma tracked_before_request (now : Q) (rid : string) (req : Request) (st : State) :
  tracked (system_monitor st, gauges st) ->
  tracked (system_monitor (before_request now rid req st).2,
           gauges (before_request now rid req st).2).
Proof.
  intros Ht. unfold before_request. case_decide; [| exact Ht].
  pose proof (tracked_increment_request _ Ht) as Hi.
  destruct (increment_request _) as [m g]. exact Hi.
Qed.

Lemma tracked_handle_exception (now : Q) (eid iso : string) (size : Z) (e : exn)
    (req : Request) (st : State) :
  tracked (system_monitor st, gauges st) ->
  tracked (system_monitor (handle_exception now eid iso size e req st).2,
           gauges (handle_exception now eid iso size e req st).2).
Proof.
  intros Ht. unfold handle_exception.
  pose proof (tracked_increment_error now _ Ht) as Hi.
  destruct (increment_error now _) as [m g]. destruct e; exact Hi.
Qed.

Lemma tracked_full_dispatch (env : Env) (req : Request) (st : State) :
  tracked (system_monitor st, gauges st) ->
  tracked (system_monitor (full_dispatch_request env req st).2,
           gauges (full_dispatch_request env req st).2).
Proof.
  intros Ht. unfold full_dispatch_request.
  pose proof (tracked_before_request (t_before env) (new_request_id env) req st Ht)
    as Hb.
  destruct (before_request _ _ req st) as [req1 st1]. cbn [snd] in Hb.
  destruct (dispatch_request env req1) as [r | e].
  - destruct (after_request_monitor (t_after env) req1 r st1) as [-> ->]. exact Hb.
  - pose proof (tracked_handle_exception (t_error env) (new_error_id env)
                  (iso_now env) (error_body_len env) e req1 st1 Hb) as Hh.
    destruct (handle_exception _ _ _ _ e req1 st1) as [resp st2]. cbn [snd] in Hh.
    destruct (after_request_monitor (t_after env) req1 resp st2) as [-> ->].
    exact Hh.
Qed.

Lemma tracked_serve (reqs : list (Env * Request)) (st : State) :
  tracked (system_monitor st, gauges st) ->
  tracked (system_monitor (serve reqs st), gauges (serve reqs st)).
Proof.
  revert st. induction reqs as [| [env req] reqs IH]; intros st Ht; [exact Ht |].
  cbn [serve fold_left]. apply IH. apply tracked_full_dispatch. exact Ht.
Qed.

(** A ratio of counts is a percentage when the errors do not exceed the
    requests. *)
Lemma stored_error_rate_percentage (m : SystemMonitor) :
  0 <= error_count m <= total_requests m ->
  (0 <= stored_error_rate m <= 100)%Q.
Proof.
  intros [He Het]. unfold stored_error_rate, error_rate_expr.
  destruct (Z.ltb_spec 0 (total_requests m)) as [Hpos | _]; [| split; discriminate].
  assert (Ht : (0 < inject_Z (total_requests m))%Q) by (unfold Qlt; simpl; lia).
  assert (H0 : (0 <= inject_Z (error_count m) / inject_Z (total_requests m))%Q).
  { apply Qle_shift_div_l; [exact Ht |]. rewrite Qmult_0_l.
    unfold Qle. simpl. lia. }
  assert (H1 : (inject_Z (error_count m) / inject_Z (total_requests m) <= 1)%Q).
  { apply Qle_shift_div_r; [exact Ht |]. rewrite Qmult_1_l.
    unfold Qle. simpl. lia. }
  split; lra.
Qed.

End ErrorRateGauge.

(** X2: as long as every request is on a path the pre-hook counts, the
    errors never exceed the requests and the error-rate gauge stays
    between 0 and 100. *)
Theorem error_rate_gauge_is_a_percentage
    (now : Q) (reqs : list (App.Env * App.Request)) :
  Forall (fun er => App.path er.2 ∉ App.before_request_skipped) reqs ->
  let st := App.serve reqs (App.boot now) in
  0 <= Monitor.error_count (App.system_monitor st)
    <= Monitor.total_requests (App.system_monitor st)
  /\ (0 <= Monitor.gauge_get Monitor.error_rate (App.gauges st) <= 100)%Q.
Proof.
  intros Hall st.
  destruct (tracked_serve reqs (App.boot now) (tracked_boot now)) as (He & _ & Hg).
  cbn [fst snd] in He, Hg. fold st in He, Hg.
  assert (Hle : Monitor.error_count (App.system_monitor st)
                <= Monitor.total_requests (App.system_monitor st)).
  { apply errors_le_requests_on_counted_paths; [exact Hall | cbn; lia]. }
  split; [lia |]. rewrite Hg. apply stored_error_rate_percentage. lia.
Qed.

(** Witness of X2: a failing request for the users followed by a request
    for the products. *)
Lemma error_rate_gauge_is_a_percentage_witness :
  let reqs :=
    [(App.mkEnv 1 "r1" (App.Raises (App.OtherException "Exception" "boom"))
                2 "e1" "iso" 90 3, App.incoming "/api/users" "GET" 0);
     (App.mkEnv 4 "r2" (App.Returns (App.mkResponse 200 [] 300))
                5 "e2" "iso" 90 6, App.incoming "/api/products" "GET" 0)] in
  Forall (fun er => App.path er.2 ∉ App.before_request_skipped) reqs
  /\ (0 <= Monitor.gauge_get Monitor.error_rate
             (App.gauges (App.serve reqs (App.boot 0))) <= 100)%Q.
Proof.
  intros reqs.
  assert (Hall : Forall (fun er => App.path er.2 ∉ App.before_request_skipped) reqs).
  { repeat constructor; cbn; intros Hin; unfold App.before_request_skipped in Hin;
      each_member Hin ltac:(discriminate). }
  split; [exact Hall |].
  exact (proj2 (error_rate_gauge_is_a_percentage 0 reqs Hall)).
Defined.

Section Aligned.
Import Monitor App Keeps.

Lemma length_observations_observe {K A} `{Countable K} (k k' : K) (v : A)
    (m : gmap K (list A)) :
  length (observations k (observe k' v m))
  = (length (observations k m) + if decide (k' = k) then 1 else 0)%nat.
Proof.
  unfold observe. unfold observations at 1. case_decide as Hk.
  - subst k'. rewrite lookup_insert_eq. cbn. lia.
  - rewrite lookup_insert_ne by exact Hk. cbn. fold (observations k m). lia.
Qed.

Lemma aligned_full_dispatch (env : Env) (req : Request) (st : State) :
  aligned st -> aligned (full_dispatch_request env req st).2.
Proof.
  intros Ha. unfold full_dispatch_request.
  assert (Hb : aligned (before_request (t_before env) (new_request_id env) req st).2).
  { unfold before_request. case_decide; [| exact Ha].
    destruct (increment_request _). exact Ha. }
  destruct (before_request _ _ req st) as [req1 st1]. cbn [snd] in Hb.
  assert (Hafter : forall r s, aligned s -> aligned (after_request (t_after env) req1 r s).2).
  { intros r s Hs. unfold after_request. destruct (req_start_time req1); [| exact Hs].
    case_decide; [| exact Hs]. intros k. cbn.
    rewrite !length_observations_observe. destruct (Hs k) as [-> ->]. split; reflexivity. }
  destruct (dispatch_request env req1) as [r | e]; [by apply Hafter |].
  assert (Hh : aligned (handle_exception (t_error env) (new_error_id env)
                          (iso_now env) (error_body_len env) e req1 st1).2).
  { unfold handle_exception. destruct (increment_error _ _). destruct e; exact Hb. }
  destruct (handle_exception _ _ _ _ e req1 st1) as [resp st2]. by apply Hafter.
Qed.

End Aligned.

(** X3: from start-up on, each series of the latency histogram and of the
    two size histograms holds the same number of observations. *)
Theorem histograms_stay_aligned (now : Q) (reqs : list (App.Env * App.Request)) :
  Keeps.aligned (App.serve reqs (App.boot now)).
Proof.
  assert (H : forall st, Keeps.aligned st -> Keeps.aligned (App.serve reqs st)).
  { induction reqs as [| [env req] reqs IH]; intros st Hst; [exact Hst |].
    cbn [App.serve fold_left]. apply IH. by apply aligned_full_dispatch. }
  apply H. intros k. split; reflexivity.
Qed.

Section ErrorPath.
Import Monitor App.

(** The post-hook only adds lines to the log. *)
Lemma after_request_log (now : Q) (req : Request) (r : Response) (st : State)
    (l : log_entry) :
  l ∈ log st -> l ∈ log (after_request now req r st).2.
Proof.
  intros Hl. unfold after_request. destruct (req_start_time req); [| exact Hl].
  case_decide; [| exact Hl]. cbn. apply elem_of_cons. by right.
Qed.

End ErrorPath.

(** X4: whenever a request ends in the error handler, the log holds an
    error line with the error id and time stamp of the response body, the
    path and method of the request, [str(e)] of the exception and the
    request id the pre-hook assigned. *)
Theorem error_response_matches_log
    (env : App.Env) (req : App.Request) (st : App.State) (e : App.exn) :
  App.dispatch_request env req = inr e ->
  let out := App.full_dispatch_request env req st in
  exists d : App.ErrorDetails,
    App.LogError d ∈ App.log out.2
    /\ App.json_get "error_id" (App.json out.1) = Some (App.error_id d)
    /\ App.json_get "timestamp" (App.json out.1) = Some (App.timestamp d)
    /\ App.err_path d = App.path req
    /\ App.err_method d = App.method req
    /\ App.error_type d = App.exn_type_name e
    /\ App.error_message d = App.exn_str e
    /\ App.err_request_id d = App.new_request_id env.
Proof.
  intros Hd. cbv zeta. unfold App.full_dispatch_request.
  assert (Hd' : forall now rid s,
             App.dispatch_request env (App.before_request now rid req s).1 = inr e).
  { intros now rid s. rewrite dispatch_before_request. exact Hd. }
  specialize (Hd' (App.t_before env) (App.new_request_id env) st).
  assert (Hreq : App.path (App.before_request (App.t_before env)
                             (App.new_request_id env) req st).1 = App.path req
                 /\ App.method (App.before_request (App.t_before env)
                                  (App.new_request_id env) req st).1 = App.method req
                 /\ App.request_id (App.before_request (App.t_before env)
                                      (App.new_request_id env) req st).1
                    = Some (App.new_request_id env)).
  { unfold App.before_request. case_decide; [destruct (Monitor.increment_request _) |];
      repeat split. }
  destruct (App.before_request _ _ req st) as [req1 st1].
  cbn [fst] in Hd', Hreq. destruct Hreq as (Hp & Hm & Hr). rewrite Hd'.
  destruct (App.handle_exception _ _ _ _ e req1 st1) as [resp st2] eqn:Hh.
  rewrite after_request_response.
  unfold App.handle_exception in Hh.
  destruct (Monitor.increment_error _ _) as [m g].
  eexists {| App.error_id := App.new_error_id env; App.timestamp := App.iso_now env;
             App.err_path := App.path req1; App.err_method := App.method req1;
             App.error_type := App.exn_type_name e;
             App.error_message := App.exn_str e;
             App.err_request_id := default "unknown" (App.request_id req1) |}.
  split.
  { apply after_request_log. destruct e; injection Hh as <- <-; cbn;
      apply elem_of_cons; by left. }
  destruct e; injection Hh as <- <-; cbn; rewrite Hr; repeat split; assumption.
Qed.

(** Witness of X4: [abort(404)] in the error simulator. *)
Lemma error_response_matches_log_witness :
  let env := App.mkEnv 1 "rid" (App.Raises App.NotFound) 2 "eid" "iso" 90 3 in
  let req := App.incoming "/api/simulate-error" "GET" 0 in
  App.dispatch_request env req = inr App.NotFound
  /\ exists d : App.ErrorDetails,
       App.LogError d ∈ App.log (App.full_dispatch_request env req (App.boot 0)).2
       /\ App.json_get "error_id"
            (App.json (App.full_dispatch_request env req (App.boot 0)).1)
          = Some (App.error_id d).
Proof.
  intros env req. split; [reflexivity |].
  destruct (error_response_matches_log env req (App.boot 0) App.NotFound eq_refl)
    as (d & Hl & Hid & _).
  exists d. split; assumption.
Defined.

Section Recorded.
Import Monitor App.

(** The post-hook on a request that went through the pre-hook, on a path
    it records. *)
Lemma after_request_recorded (now t0 : Q) (req : Request) (r : Response) (st : State) :
  req_start_time req = Some t0 -> path req ∉ after_request_skipped ->
  after_request now req r st
  = (r, {| system_monitor := system_monitor st; gauges := gauges st;
           http_requests_total :=
             counter_inc (method req, path req, status_code r)
                         (http_requests_total st);
           http_request_duration_seconds :=
             observe (method req, path req) (now - t0)%Q
                     (http_request_duration_seconds st);
           http_request_size_bytes :=
             observe (method req, path req) (data_len req)
                     (http_request_size_bytes st);
           http_response_size_bytes :=
             observe (method req, path req) (resp_len r)
                     (http_response_size_bytes st);
           log := LogRequest (default "" (request_id req)) (method req) (path req)
                    (status_code r) (now - t0)%Q (data_len req) (resp_len r)
                  :: log st |}).
Proof.
  intros Ht Hp. unfold after_request. rewrite Ht.
  rewrite decide_True by exact Hp. reflexivity.
Qed.

(** The error handler's answer and its count, for any request that went
    through the pre-hook on a counted path. *)
Lemma full_dispatch_raises (env : Env) (req : Request) (st : State) (e : exn) :
  path req ∉ before_request_skipped ->
  dispatch_request env req = inr e ->
  let out := full_dispatch_request env req st in
  status_code out.1
  = match e with HTTPException _ code _ _ => code | OtherException _ _ => 500 end
  /\ json_get "error" (json out.1)
     = Some match e with
            | HTTPException _ _ description _ => description
            | OtherException _ _ => "Internal Server Error"
            end
  /\ error_count (system_monitor out.2) = error_count (system_monitor st) + 1
  /\ total_requests (system_monitor out.2) = total_requests (system_monitor st) + 1.
Proof.
  intros Hskip Hd. cbv zeta. unfold full_dispatch_request.
  assert (Hd' : forall now rid s,
             dispatch_request env (before_request now rid req s).1 = inr e).
  { intros now rid s. rewrite dispatch_before_request. exact Hd. }
  specialize (Hd' (t_before env) (new_request_id env) st).
  destruct (before_request _ _ req st) as [req1 st1] eqn:Hb.
  cbn [fst] in Hd'. rewrite Hd'.
  destruct (handle_exception _ _ _ _ e req1 st1) as [resp st2] eqn:Hh.
  rewrite after_request_response.
  destruct (after_request_monitor (t_after env) req1 resp st2) as [-> _].
  unfold before_request in Hb. cbn [path] in Hb.
  rewrite decide_True in Hb by exact Hskip.
  unfold increment_request in Hb.
  destruct (0 <? _) in Hb; injection Hb as <- <-;
    unfold handle_exception, increment_error in Hh;
    destruct (0 <? _) in Hh; destruct e; injection Hh as <- <-; cbn; repeat split.
Qed.

End Recorded.

(** X5: a GET or HEAD request for [/api/health] is never counted as an
    error, even when the body of the view raises: the view answers 503
    itself, with ["status"] unhealthy and [str(e)] under ["error"], and
    the error count and the time stamp of the last error stay as they
    were; the answer is recorded by the post-hook under its own status
    code. A request with a method the route does not answer never
    reaches the view: it is refused with 405 and counted as an error. *)
Theorem failed_health_check_is_not_an_error
    (env : App.Env) (m : string) (len : Z) (st : App.State) :
  let out := App.full_dispatch_request env (App.incoming "/api/health" m len) st in
  (m = "GET" \/ m = "HEAD" ->
   Monitor.error_count (App.system_monitor out.2)
   = Monitor.error_count (App.system_monitor st)
   /\ Monitor.gauge_get Monitor.last_error_timestamp (App.gauges out.2)
      = Monitor.gauge_get Monitor.last_error_timestamp (App.gauges st)
   /\ (forall r, App.body env = App.Returns r -> out.1 = r)
   /\ (forall e, App.body env = App.Raises e ->
         App.status_code out.1 = 503
         /\ App.json_get "status" (App.json out.1) = Some "unhealthy"
         /\ App.json_get "error" (App.json out.1) = Some (App.exn_str e)
         /\ App.json_get "error_id" (App.json out.1) = None
         /\ App.counter_get (m, "/api/health", 503) (App.http_requests_total out.2)
            = App.counter_get (m, "/api/health", 503) (App.http_requests_total st) + 1))
  /\ (m ∉ ["GET"; "HEAD"; "OPTIONS"] ->
      App.status_code out.1 = 405
      /\ Monitor.error_count (App.system_monitor out.2)
         = Monitor.error_count (App.system_monitor st) + 1).
Proof.
  cbv zeta. split.
  - intros Hm.
    assert (Hd : App.dispatch_request env (App.incoming "/api/health" m len)
                 = App.run_view env App.HealthView)
      by (destruct Hm as [-> | ->]; reflexivity).
    unfold App.full_dispatch_request.
    pose proof (dispatch_before_request env (App.t_before env) (App.new_request_id env)
                  (App.incoming "/api/health" m len) st) as Hd'.
    rewrite Hd in Hd'. revert Hd'.
    unfold App.incoming, App.before_request. cbn [App.path App.method App.data_len].
    rewrite decide_True by exact health_route_not_skipped_before.
    unfold Monitor.increment_request.
    destruct (0 <? _); cbn beta iota; cbn [fst]; intros ->; unfold App.run_view;
      destruct (App.body env) as [r | e];
      rewrite (after_request_recorded _ (App.t_before env))
        by (try reflexivity; exact health_route_not_skipped_after);
      cbn [fst snd App.system_monitor App.gauges App.path App.method
           Monitor.error_count App.http_requests_total App.status_code App.json];
      (split; [reflexivity |]);
      (split; [first [reflexivity
                     | rewrite gauge_get_set_ne by discriminate; reflexivity] |]);
      (split; intros x Hx; inversion Hx; subst);
      rewrite ?counter_get_inc; repeat split.
  - intros Hm.
    assert (Hd : App.dispatch_request env (App.incoming "/api/health" m len)
                 = inr App.MethodNotAllowed).
    { unfold App.dispatch_request, App.dispatch, App.match_request.
      cbn [App.incoming App.path App.method App.url_map App.match_method App.match_rule
           String.eqb Ascii.eqb Bool.eqb andb App.rule_methods existsb app orb].
      destruct (String.eqb_spec m "GET") as [-> | _];
        [exfalso; apply Hm; set_solver |].
      destruct (String.eqb_spec m "HEAD") as [-> | _];
        [exfalso; apply Hm; set_solver |].
      destruct (String.eqb_spec m "OPTIONS") as [-> | _];
        [exfalso; apply Hm; set_solver |].
      reflexivity. }
    destruct (full_dispatch_raises env (App.incoming "/api/health" m len) st _
                health_route_not_skipped_before Hd) as (Hs & _ & He & _).
    split; [exact Hs | exact He].
Qed.

(** Witness of X5: a GET whose body raises, and a POST. *)
Lemma failed_health_check_is_not_an_error_witness :
  let env := App.mkEnv 1 "rid" (App.Raises (App.OtherException "Error" "psutil"))
                       2 "eid" "iso" 90 3 in
  (App.status_code
     (App.full_dispatch_request env (App.incoming "/api/health" "GET" 0) (App.boot 0)).1
   = 503)
  /\ App.status_code
       (App.full_dispatch_request env (App.incoming "/api/health" "POST" 0)
          (App.boot 0)).1
     = 405.
Proof.
  intros env. split.
  - destruct (proj1 (failed_health_check_is_not_an_error env "GET" 0 (App.boot 0))
                (or_introl eq_refl)) as (_ & _ & _ & H).
    exact (proj1 (H _ eq_refl)).
  - refine (proj1 (proj2 (failed_health_check_is_not_an_error env "POST" 0 (App.boot 0)) _)).
    intros Hin. each_member Hin ltac:(discriminate).
Defined.

(** X6: the two request counts can part. [/health] is the one path that
    the pre-hook skips and the post-hook records; it is no route, so a
    request for it, whatever its method, is answered 404 by the error
    handler: it adds one to the error count and one to the series 404 of
    the labelled request counter, while the total-request count stays as
    it was. *)
Theorem skipped_path_is_still_recorded
    (env : App.Env) (m : string) (len : Z) (st : App.State) :
  let out := App.full_dispatch_request env (App.incoming "/health" m len) st in
  (forall p : string,
      (p ∈ App.before_request_skipped) /\ (p ∉ App.after_request_skipped)
      <-> p = "/health")
  /\ App.status_code out.1 = 404
  /\ Monitor.total_requests (App.system_monitor out.2)
     = Monitor.total_requests (App.system_monitor st)
  /\ Monitor.error_count (App.system_monitor out.2)
     = Monitor.error_count (App.system_monitor st) + 1
  /\ App.counter_get (m, "/health", 404) (App.http_requests_total out.2)
     = App.counter_get (m, "/health", 404) (App.http_requests_total st) + 1.
Proof.
  cbv zeta.
  assert (Hskip : forall p : string,
             (p ∈ App.before_request_skipped) /\ (p ∉ App.after_request_skipped)
             <-> p = "/health").
  { intros p. unfold App.before_request_skipped, App.after_request_skipped.
    rewrite !elem_of_cons, !elem_of_nil. split.
    - intros [[-> | [-> | [-> | []]]] Hn]; [exfalso; apply Hn; tauto | reflexivity
                                            | exfalso; apply Hn; tauto].
    - intros ->. split; [tauto |]. intros [H | [H | []]]; discriminate H. }
  split; [exact Hskip |].
  destruct (proj2 (Hskip "/health") eq_refl) as [Hin Hout].
  pose proof (full_dispatch_recorded env (App.incoming "/health" m len) st Hout)
    as (H1 & _).
  cbv zeta in H1. cbn [App.incoming App.method App.path] in H1.
  unfold App.full_dispatch_request, App.incoming, App.before_request in *.
  cbn [App.path App.method App.data_len] in *.
  rewrite decide_False in * by (intros Hn; exact (Hn Hin)).
  replace (App.dispatch_request env _) with (@inr App.Response _ App.NotFound) in *
    by reflexivity.
  destruct (App.handle_exception _ _ _ _ App.NotFound _ st) as [resp st2] eqn:Hh.
  rewrite after_request_response in *.
  destruct (after_request_monitor (App.t_after env)
              {| App.path := "/health"; App.method := m; App.data_len := len;
                 App.req_start_time := Some (App.t_before env);
                 App.request_id := Some (App.new_request_id env) |} resp st2)
    as [Hmon _].
  rewrite Hmon, H1.
  unfold App.handle_exception, Monitor.increment_error in Hh.
  destruct (0 <? _) in Hh; injection Hh as <- <-;
    cbn [App.status_code App.system_monitor Monitor.total_requests
         Monitor.error_count App.NotFound];
    rewrite counter_get_inc; repeat split.
Qed.

Section ScoreOrder.
Import Monitor.

(** A dimension's penalty does not shrink when its reading grows. *)
Lemma tier_monotone (x x' hi lo : Q) (big small : Z) :
  (lo <= hi)%Q -> 0 <= small <= big -> (x <= x')%Q ->
  tier x hi lo big small <= tier x' hi lo big small.
Proof.
  intros Hlh Hsb Hx. unfold tier.
  destruct (Qgtb x hi) eqn:H1, (Qgtb x' hi) eqn:H2,
           (Qgtb x lo) eqn:H3, (Qgtb x' lo) eqn:H4; try lia;
    exfalso;
    repeat match goal with
           | H : Qgtb _ _ = true |- _ => apply Qgtb_true in H
           | H : Qgtb _ _ = false |- _ => apply Qgtb_false in H
           end; lra.
Qed.

(** Every penalty is a multiple of five. *)
Lemma tier_multiple (x hi lo : Q) (k l : Z) :
  exists n, tier x hi lo (5 * k) (5 * l) = 5 * n.
Proof.
  unfold tier. destruct (Qgtb x hi); [by exists k |].
  destruct (Qgtb x lo); [by exists l | by exists 0].
Qed.

(** The stored rate does not shrink when errors are added to the same
    number of requests. *)
Lemma stored_error_rate_monotone (e e' t : Z) (now now' : Q) :
  e <= e' ->
  (stored_error_rate (mkMonitor now e t) <= stored_error_rate (mkMonitor now' e' t))%Q.
Proof.
  intros He. unfold stored_error_rate, error_rate_expr. cbn.
  destruct (Z.ltb_spec 0 t) as [Hpos | _]; [| apply Qle_refl].
  assert (Ht : (0 < inject_Z t)%Q) by (unfold Qlt; simpl; lia).
  apply Qmult_le_compat_r; [| discriminate].
  unfold Qdiv. apply Qmult_le_compat_r.
  - unfold Qle. simpl. lia.
  - apply Qlt_le_weak, Qinv_lt_0_compat. exact Ht.
Qed.

End ScoreOrder.

(** X7: the health score never rises when a reading rises: a higher CPU,
    memory or disk percentage, or more errors over the same requests,
    gives a score that is at most the old one. *)
Theorem health_score_is_antitone
    (start start' : Q) (errors errors' requests : Z)
    (cpu cpu' mem mem' disk disk' : Q) :
  (cpu <= cpu')%Q -> (mem <= mem')%Q -> (disk <= disk')%Q -> errors <= errors' ->
  Monitor.calculate_health_score (Monitor.mkMonitor start' errors' requests)
    cpu' mem' disk'
  <= Monitor.calculate_health_score (Monitor.mkMonitor start errors requests)
       cpu mem disk.
Proof.
  intros Hc Hm Hd He. rewrite !calculate_health_score_score_rule.
  unfold Monitor.score_rule.
  pose proof (tier_monotone cpu cpu' 80 60 30 15 ltac:(discriminate) ltac:(lia) Hc).
  pose proof (tier_monotone mem mem' 90 70 25 10 ltac:(discriminate) ltac:(lia) Hm).
  pose proof (tier_monotone disk disk' 95 85 20 10 ltac:(discriminate) ltac:(lia) Hd).
  pose proof (tier_monotone _ _ 10 5 20 10 ltac:(discriminate) ltac:(lia)
                (stored_error_rate_monotone errors errors' requests start start' He)).
  lia.
Qed.

(** Witness of X7: the CPU rising from 50 to 85 with everything else
    kept. *)
Lemma health_score_is_antitone_witness :
  (50 <= 85)%Q /\ (50 <= 50)%Q /\ 0 <= 0
  /\ Monitor.calculate_health_score (Monitor.mkMonitor 0 0 7) 85 50 50
     <= Monitor.calculate_health_score (Monitor.mkMonitor 0 0 7) 50 50 50.
Proof.
  assert (H1 : (50 <= 85)%Q) by discriminate.
  assert (H2 : (50 <= 50)%Q) by discriminate.
  split; [exact H1 |]. split; [exact H2 |]. split; [lia |].
  apply (health_score_is_antitone 0 0 0 0 7 50 85 50 50 50 50 H1 H2 H2). lia.
Defined.

(** X8: the score is always one of 5, 10, ..., 100: the penalties are
    multiples of five that add up to 95 at most, so the clamp at 0 never
    changes the result. *)
Theorem health_score_is_never_clamped
    (self : Monitor.SystemMonitor) (cpu mem disk : Q) :
  exists n : Z,
    1 <= n <= 20
    /\ Monitor.calculate_health_score self cpu mem disk = 5 * n
    /\ Monitor.calculate_health_score self cpu mem disk
       = 100 - Monitor.tier cpu 80 60 30 15 - Monitor.tier mem 90 70 25 10
         - Monitor.tier disk 95 85 20 10
         - Monitor.tier (Monitor.stored_error_rate self) 10 5 20 10.
Proof.
  rewrite calculate_health_score_score_rule.
  pose proof (score_rule_range cpu mem disk (Monitor.stored_error_rate self)) as Hr.
  unfold Monitor.score_rule in *.
  destruct (tier_multiple cpu 80 60 6 3) as [a Ha].
  destruct (tier_multiple mem 90 70 5 2) as [b Hb].
  destruct (tier_multiple disk 95 85 4 2) as [c Hc].
  destruct (tier_multiple (Monitor.stored_error_rate self) 10 5 4 2) as [d Hd].
  change (5 * 6) with 30 in Ha. change (5 * 3) with 15 in Ha.
  change (5 * 5) with 25 in Hb. change (5 * 2) with 10 in Hb, Hc, Hd.
  change (5 * 4) with 20 in Hc, Hd.
  exists (20 - a - b - c - d). lia.
Qed.

(** * Further properties of the sampler *)

Section SamplerFrame.
Import Monitor App Sampler Keeps.

(** A tick touches the gauges only: they are the old ones after the
    writes of its trace, and the rest of the state is as it was. *)
Lemma collect_system_metrics_replay (p : Probe) (w : State * list event) :
  exists (st' : State) (tr : list event),
    collect_system_metrics p w = (Ok tt, (st', (w.2 ++ tr)%list))
    /\ gauges st' = replay tr (gauges w.1)
    /\ system_monitor st' = system_monitor w.1
    /\ http_requests_total st' = http_requests_total w.1
    /\ http_request_duration_seconds st' = http_request_duration_seconds w.1
    /\ http_request_size_bytes st' = http_request_size_bytes w.1
    /\ http_response_size_bytes st' = http_response_size_bytes w.1.
Proof.
  destruct w as [[m g c h1 h2 h3 l] tr0].
  destruct p as [[cpu | e1] [mem | e2] [[du dt] | e3] now rand [conns | e4]];
    unfold collect_system_metrics, try_except, collect_body;
    unfold mbind, io_bind, call, set, monitor, write_log, true_div;
    cbn [cpu_percent virtual_memory disk_usage net_connections disk_used
         disk_total fst snd update_gauges add_log gauges log system_monitor];
    try destruct (dt =? 0);
    cbn [fst snd update_gauges add_log gauges log system_monitor];
    rewrite <- ?app_assoc;
    first [ eexists _, _; split; [reflexivity |]
          | eexists _, []; split; [by rewrite app_nil_r |] ];
    repeat split.
Qed.

(** Writes leave the gauges they do not name alone. *)
Lemma gauge_get_replay (name : string) (tr : list event) (g : gmap string Q) :
  name ∉ written tr -> gauge_get name (replay tr g) = gauge_get name g.
Proof.
  revert g. induction tr as [| [n v | s] tr IH]; intros g Hn; [reflexivity | |].
  - cbn [replay fold_left]. fold (replay tr (gauge_set n v g)).
    cbn [written omap list_omap] in Hn. apply not_elem_of_cons in Hn as [Hne Hn].
    rewrite (IH _ Hn). apply gauge_get_set_ne. congruence.
  - cbn [replay fold_left]. fold (replay tr g). apply IH. exact Hn.
Qed.

End SamplerFrame.

(** X9: a tick of the sampler, failed or not, changes nothing but the
    eight gauges of the sampler: every other gauge (the error rate and the
    time stamp of the last error among them), the error and request
    counts, the request counter and the histograms are as before. *)
Theorem sampler_touches_only_its_gauges
    (p : Sampler.Probe) (w : App.State * list Sampler.event) (name : string) :
  name ∉ Sampler.tick_gauges ->
  let st' := (Sampler.collect_system_metrics p w).2.1 in
  Monitor.gauge_get name (App.gauges st') = Monitor.gauge_get name (App.gauges w.1)
  /\ App.system_monitor st' = App.system_monitor w.1
  /\ App.http_requests_total st' = App.http_requests_total w.1
  /\ App.http_request_duration_seconds st' = App.http_request_duration_seconds w.1
  /\ App.http_request_size_bytes st' = App.http_request_size_bytes w.1
  /\ App.http_response_size_bytes st' = App.http_response_size_bytes w.1.
Proof.
  intros Hname. cbv zeta.
  destruct (collect_system_metrics_replay p w)
    as (st' & tr & Hc & Hg & Hm & H1 & H2 & H3 & H4).
  destruct (collect_system_metrics_total p w) as (st'' & tr' & Hc' & Hpre & _).
  rewrite Hc in Hc'. injection Hc' as <- Htr. apply app_inv_head in Htr. subst tr'.
  rewrite Hc. cbn [fst snd]. rewrite Hg.
  split; [| repeat split; assumption].
  apply gauge_get_replay. intros Hin. apply Hname.
  destruct Hpre as [k ->]. apply elem_of_app. by left.
Qed.

(** Witness of X9: the error-rate gauge across a tick whose disk reading
    fails. *)
Lemma sampler_touches_only_its_gauges_witness :
  (Monitor.error_rate ∉ Sampler.tick_gauges)
  /\ Monitor.gauge_get Monitor.error_rate
       (App.gauges (Sampler.collect_system_metrics
          (Sampler.mkProbe (Sampler.Ok 42%Q) (Sampler.Ok (Sampler.mkSvmem 10 20 33))
             (Sampler.Raise "no disk") 5 7 (Sampler.Ok 3))
          (App.boot 0, [])).2.1)
     = Monitor.gauge_get Monitor.error_rate (App.gauges (App.boot 0)).
Proof.
  assert (H : Monitor.error_rate ∉ Sampler.tick_gauges).
  { intros Hin. unfold Sampler.tick_gauges in Hin. each_member Hin ltac:(discriminate). }
  split; [exact H |].
  exact (proj1 (sampler_touches_only_its_gauges _ (App.boot 0, []) _ H)).
Defined.

(** X10: after a tick in which no call fails, each of the eight gauges
    reads back the value of that tick: the CPU percentage, the used and
    available memory, 100 * used / total of the disk, the time since the
    monitor was created, the health score of these readings, the drawn
    pool size and the number of connections. *)
Theorem complete_tick_reads_back
    (cpu : Q) (mem : Sampler.svmem) (disk : Sampler.sdiskusage) (now : Q)
    (rand conns : Z) (w : App.State * list Sampler.event) :
  Sampler.disk_total disk <> 0 ->
  let p := Sampler.mkProbe (Sampler.Ok cpu) (Sampler.Ok mem) (Sampler.Ok disk)
             now rand (Sampler.Ok conns) in
  let g := App.gauges (Sampler.collect_system_metrics p w).2.1 in
  let self := App.system_monitor w.1 in
  let disk_usage_percent :=
    (inject_Z (Sampler.disk_used disk) / inject_Z (Sampler.disk_total disk) * 100)%Q in
  Monitor.gauge_get Sampler.system_cpu_usage_percent g = cpu
  /\ Monitor.gauge_get Sampler.system_memory_usage_bytes g
     = inject_Z (Sampler.used mem)
  /\ Monitor.gauge_get Sampler.system_memory_available_bytes g
     = inject_Z (Sampler.available mem)
  /\ Monitor.gauge_get Sampler.system_disk_usage_percent g = disk_usage_percent
  /\ Monitor.gauge_get Sampler.app_uptime_seconds g
     = (now - Monitor.start_time self)%Q
  /\ Monitor.gauge_get Sampler.app_health_score g
     = inject_Z (Monitor.calculate_health_score self cpu (Sampler.percent mem)
                   disk_usage_percent)
  /\ Monitor.gauge_get Sampler.database_connection_pool_size g = inject_Z rand
  /\ Monitor.gauge_get Sampler.active_connections g = inject_Z conns.
Proof.
  intros Hdisk. destruct w as [[m g0 c h1 h2 h3 l] tr0]. destruct disk as [du dt].
  cbn [Sampler.disk_total] in Hdisk. cbv zeta.
  unfold Sampler.collect_system_metrics, Sampler.try_except, Sampler.collect_body.
  unfold mbind, Sampler.io_bind, Sampler.call, Sampler.set, Sampler.monitor,
    Sampler.write_log, Sampler.true_div.
  cbn [Sampler.cpu_percent Sampler.virtual_memory Sampler.disk_usage
       Sampler.net_connections Sampler.disk_used Sampler.disk_total
       Sampler.time_now Sampler.randint_5_25 fst snd
       Sampler.update_gauges Sampler.add_log App.gauges App.log App.system_monitor].
  destruct (Z.eqb_spec dt 0) as [| _]; [contradiction |].
  cbn [fst snd Sampler.update_gauges Sampler.add_log App.gauges App.log
       App.system_monitor Sampler.time_now Sampler.randint_5_25].
  repeat split;
    repeat first [ apply gauge_get_set
                 | rewrite gauge_get_set_ne by discriminate ].
Qed.

(** Witness of X10: a tick on a disk that is half full. *)
Lemma complete_tick_reads_back_witness :
  Sampler.disk_total (Sampler.mkSdiskusage 1 2) <> 0
  /\ Monitor.gauge_get Sampler.system_cpu_usage_percent
       (App.gauges (Sampler.collect_system_metrics
          (Sampler.mkProbe (Sampler.Ok 42%Q) (Sampler.Ok (Sampler.mkSvmem 10 20 33))
             (Sampler.Ok (Sampler.mkSdiskusage 1 2)) 5 7 (Sampler.Ok 3))
          (App.boot 0, [])).2.1) = 42%Q.
Proof.
  split; [discriminate |].
  exact (proj1 (complete_tick_reads_back 42 (Sampler.mkSvmem 10 20 33)
                  (Sampler.mkSdiskusage 1 2) 5 7 3 (App.boot 0, [])
                  ltac:(discriminate))).
Defined.

(** * Further properties of the traffic generator *)

(** X11: settings the generator cannot run with end it with an exception
    and no trace: a thread count of zero or less is refused by the pool;
    an aggregate rate of zero makes every worker divide by zero before its
    first request; and with a negative rate a worker whose clock is still
    before the end fails in its first sleep, which is refused as negative,
    or as too large when its length does not fit the nanoseconds of a
    signed 64-bit integer. *)
Theorem load_test_rejects_bad_settings
    (duration requests_per_second num_threads : Z)
    (now : Q) (d : LoadTest.Draw) (draws : list LoadTest.Draw)
    (envs : list (Q * list LoadTest.Draw)) :
  (num_threads <= 0 ->
   LoadTest.run_load_test duration requests_per_second num_threads envs
   = Sampler.Raise "max_workers must be greater than 0")
  /\ (0 < num_threads ->
      LoadTest.run_load_test duration 0 num_threads ((now, draws) :: envs)
      = Sampler.Raise "float division by zero")
  /\ (0 < num_threads -> requests_per_second < 0 ->
      (LoadTest.clock d < now + inject_Z duration)%Q ->
      LoadTest.run_load_test duration requests_per_second num_threads
        ((now, d :: draws) :: envs)
      = Sampler.Raise
          (if (2 ^ 63 - 1) * - requests_per_second <? num_threads * 10 ^ 9
           then "timestamp too large to convert to C _PyTime_t"
           else "sleep length must be non-negative")).
Proof.
  split; [| split].
  - intros Hn. unfold LoadTest.run_load_test, LoadTest.submissions.
    destruct (Z.leb_spec num_threads 0); [reflexivity | lia].
  - intros Hn. unfold LoadTest.run_load_test, LoadTest.submissions, Sampler.true_div.
    destruct (Z.leb_spec num_threads 0); [lia |].
    destruct (Z.eqb_spec num_threads 0); [lia |].
    destruct (Z.to_nat num_threads) as [| k] eqn:Hk; [lia |].
    cbn [repeat zip zip_with LoadTest.results]. unfold LoadTest.worker.
    assert (Hz : LoadTest.reciprocal (inject_Z 0 / inject_Z num_threads) = Sampler.Raise "float division by zero").
    { unfold LoadTest.reciprocal.
      assert (Qeq_bool (inject_Z 0 / inject_Z num_threads) 0 = true) as ->;
        [| reflexivity].
      apply Qeq_bool_iff. unfold Qdiv. apply Qmult_0_l. }
    rewrite Hz. reflexivity.
  - intros Hn Hrps Hclock.
    unfold LoadTest.run_load_test, LoadTest.submissions, Sampler.true_div.
    destruct (Z.leb_spec num_threads 0); [lia |].
    destruct (Z.eqb_spec num_threads 0); [lia |].
    destruct (Z.to_nat num_threads) as [| k] eqn:Hk; [lia |].
    cbn [repeat zip zip_with LoadTest.results]. unfold LoadTest.worker.
    set (rate := (inject_Z requests_per_second / inject_Z num_threads)%Q).
    assert (Hrate : (rate < 0)%Q).
    { subst rate. apply Qlt_shift_div_r.
      - unfold Qlt. simpl. lia.
      - rewrite Qmult_0_l. unfold Qlt. simpl. lia. }
    unfold LoadTest.reciprocal.
    destruct (Qeq_bool rate 0) eqn:Hz.
    { apply Qeq_bool_iff in Hz. rewrite Hz in Hrate. by apply Qlt_irrefl in Hrate. }
    cbn [LoadTest.worker_loop].
    assert (Qltb (LoadTest.clock d) (now + inject_Z duration) = true) as ->
      by (apply Qltb_true; exact Hclock).
    assert (Hneg : Sampler.sleep_error (1 / rate)
                   = Some (if (2 ^ 63 - 1) * - requests_per_second
                              <? num_threads * 10 ^ 9
                           then "timestamp too large to convert to C _PyTime_t"
                           else "sleep length must be non-negative")).
    { subst rate. rewrite sleep_error_reciprocal by lia.
      rewrite Z.abs_neq by lia.
      destruct (_ <? num_threads * 10 ^ 9); [reflexivity |].
      destruct (Z.ltb_spec requests_per_second 0); [reflexivity | lia]. }
    destruct (Qltb (LoadTest.coin d) (9 # 10)).
    + destruct (choice_elem (LoadTest.pick d) LoadTest.endpoints) as (ep & -> & _);
        [done |]. rewrite Hneg. reflexivity.
    + destruct (choice_elem (LoadTest.pick d) LoadTest.error_endpoints) as (ep & -> & _);
        [done |]. rewrite Hneg. reflexivity.
Qed.

(** Witness of X11: four threads asked for a rate of minus one. *)
Lemma load_test_rejects_bad_settings_witness :
  0 < 4 /\ -1 < 0 /\ (1 < 0 + inject_Z 60)%Q
  /\ LoadTest.run_load_test 60 (-1) 4
       [(0%Q, [LoadTest.mkDraw 1 (1 # 2) 7 (Sampler.Ok (200, 1 # 100))])]
     = Sampler.Raise "sleep length must be non-negative".
Proof.
  assert (H : (1 < 0 + inject_Z 60)%Q) by reflexivity.
  split; [lia |]. split; [lia |]. split; [exact H |].
  exact (proj2 (proj2 (load_test_rejects_bad_settings 60 (-1) 4 0
           (LoadTest.mkDraw 1 (1 # 2) 7 (Sampler.Ok (200, 1 # 100))) [] []))
           ltac:(lia) ltac:(lia) H).
Defined.

(** * Further properties of the views *)

Section DatabaseCounters.
Import Monitor App Views.

Lemma counter_get_inc_other {K} `{Countable K} (k k' : K) (m : gmap K Z) :
  k' <> k -> counter_get k (counter_inc k' m) = counter_get k m.
Proof.
  intros Hne. unfold counter_inc. unfold counter_get at 1.
  by rewrite lookup_insert_ne.
Qed.

(** What one query does to the series of one operation and table. *)
Lemma execute_query_series (operation table : string)
    (c : string * string * bool * Query) (b : Business) :
  let b' := (execute_query c.1.1.1 c.1.1.2 c.1.2 c.2 b).2 in
  let hit (good : bool) : Z :=
    if names operation table c && Bool.eqb (raises c) (negb good) then 1 else 0 in
  counter_get (operation, table, "success") (database_operations_total b')
  = counter_get (operation, table, "success") (database_operations_total b) + hit true
  /\ counter_get (operation, table, "error") (database_operations_total b')
     = counter_get (operation, table, "error") (database_operations_total b) + hit false
  /\ Z.of_nat (length (observations (operation, table)
                         (database_query_duration_seconds b')))
     = Z.of_nat (length (observations (operation, table)
                           (database_query_duration_seconds b))) + hit true.
Proof.
  destruct c as [[[op tb] slow] q]. destruct b as [ops dur api reg l].
  cbv zeta. unfold execute_query, names, raises. cbn [fst snd].
  destruct (query_body op tb slow q) as [d | e];
    cbn [inc_operation observe_query log_line database_operations_total
         database_query_duration_seconds snd];
    case_bool_decide as Hn; cbn [andb Bool.eqb negb].
  - destruct Hn as [-> ->]. rewrite counter_get_inc.
    rewrite counter_get_inc_other by congruence.
    rewrite length_observations_observe, decide_True by reflexivity. lia.
  - assert ((op, tb) <> (operation, table)) by (intros [= -> ->]; by apply Hn).
    rewrite !counter_get_inc_other by congruence.
    rewrite length_observations_observe, decide_False by assumption. lia.
  - destruct Hn as [-> ->]. rewrite counter_get_inc.
    rewrite counter_get_inc_other by congruence. lia.
  - rewrite !counter_get_inc_other by (intros [= -> ->]; by apply Hn). lia.
Qed.

End DatabaseCounters.

(** X12: every call of the database simulator adds one to exactly one of
    the two series success and error of its operation and table, and an
    observation to the duration histogram if and only if it succeeded: from
    empty metrics, after any sequence of queries, the success series counts
    the calls that returned, the error series those that raised, and the
    histogram holds one duration for each success. *)
Theorem database_counters_add_up
    (calls : list (string * string * bool * Views.Query)) (operation table : string) :
  let b := Views.run_queries calls Views.empty in
  let ops := Views.database_operations_total b in
  let good := filter (fun c => Views.names operation table c && negb (Views.raises c)) calls in
  let bad := filter (fun c => Views.names operation table c && Views.raises c) calls in
  App.counter_get (operation, table, "success") ops = Z.of_nat (length good)
  /\ App.counter_get (operation, table, "error") ops = Z.of_nat (length bad)
  /\ length (App.observations (operation, table)
               (Views.database_query_duration_seconds b)) = length good
  /\ App.counter_get (operation, table, "success") ops
     + App.counter_get (operation, table, "error") ops
     = Z.of_nat (length (filter (fun c => Views.names operation table c) calls)).
Proof.
  cbv zeta.
  assert (H : forall b0,
    let b := Views.run_queries calls b0 in
    let good := filter (fun c => Views.names operation table c && negb (Views.raises c)) calls in
    let bad := filter (fun c => Views.names operation table c && Views.raises c) calls in
    App.counter_get (operation, table, "success") (Views.database_operations_total b)
    = App.counter_get (operation, table, "success") (Views.database_operations_total b0)
      + Z.of_nat (length good)
    /\ App.counter_get (operation, table, "error") (Views.database_operations_total b)
       = App.counter_get (operation, table, "error") (Views.database_operations_total b0)
         + Z.of_nat (length bad)
    /\ Z.of_nat (length (App.observations (operation, table)
                           (Views.database_query_duration_seconds b)))
       = Z.of_nat (length (App.observations (operation, table)
                             (Views.database_query_duration_seconds b0)))
         + Z.of_nat (length good)
    /\ Z.of_nat (length good) + Z.of_nat (length bad)
       = Z.of_nat (length (filter (fun c => Views.names operation table c) calls))).
  { induction calls as [| c calls IH]; intros b0; cbv zeta.
    - cbn. repeat split; lia.
    - cbn [Views.run_queries fold_left].
      fold (Views.run_queries calls (Views.execute_query c.1.1.1 c.1.1.2 c.1.2 c.2 b0).2).
      destruct (IH (Views.execute_query c.1.1.1 c.1.1.2 c.1.2 c.2 b0).2)
        as (-> & -> & -> & Hsum).
      destruct (execute_query_series operation table c b0) as (-> & -> & ->).
      rewrite !filter_cons.
      destruct (Views.names operation table c), (Views.raises c);
        cbn [andb negb Bool.eqb]; repeat case_decide; try done;
        cbn [length]; repeat split; lia. }
  destruct (H Views.empty) as (H1 & H2 & H3 & H4). cbv zeta in *.
  rewrite H1, H2. clear H1 H2.
  assert (H0 : forall k, App.counter_get k (Views.database_operations_total Views.empty) = 0).
  { intros k. unfold App.counter_get. cbn. by rewrite lookup_empty. }
  assert (H0' : App.observations (operation, table)
                  (Views.database_query_duration_seconds Views.empty) = []).
  { unfold App.observations. cbn. by rewrite lookup_empty. }
  rewrite H0' in H3. rewrite !H0. cbn [length] in H3.
  repeat split; lia.
Qed.

(** X13: with the draw of [random.random()] that scales the delay not
    negative, as the library gives it, the sleep of a query never fails:
    the query raises exactly when its failure draw is below 0.02, and then
    with the message naming the operation and the table; otherwise it
    returns [True]. *)
Theorem query_fails_on_its_draw
    (operation table : string) (simulate_slow : bool) (q : Views.Query)
    (b : Views.Business) :
  (0 <= Views.q_delay q)%Q ->
  ((Views.q_fail q < 2 # 100)%Q ->
   (Views.execute_query operation table simulate_slow q b).1
   = inr (App.OtherException "Exception"
            ("Database operation failed: " ++ operation ++ " on " ++ table)))
  /\ ((2 # 100 <= Views.q_fail q)%Q ->
      (Views.execute_query operation table simulate_slow q b).1 = inl true).
Proof.
  intros Hd. unfold Views.execute_query, Views.query_body.
  set (delay := if simulate_slow || Qltb (Views.q_slow q) (1 # 10)
                then Views.uniform (1 # 2) 2 (Views.q_delay q)
                else Views.uniform (1 # 100) (1 # 10) (Views.q_delay q)).
  assert (Hdelay : Qltb delay 0 = false).
  { apply Qltb_false. subst delay. unfold Views.uniform.
    destruct (simulate_slow || Qltb (Views.q_slow q) (1 # 10)); lra. }
  rewrite Hdelay. split; intros Hf.
  - apply Qltb_true in Hf. rewrite Hf. reflexivity.
  - apply Qltb_false in Hf. rewrite Hf. reflexivity.
Qed.

(** Witness of X13: a failure draw of 0.01. *)
Lemma query_fails_on_its_draw_witness :
  (0 <= 1 # 2)%Q /\ (1 # 100 < 2 # 100)%Q
  /\ (Views.execute_query "SELECT" "users" false
        (Views.mkQuery 0 (1 # 2) (1 # 2) (1 # 100) 1) Views.empty).1
     = inr (App.OtherException "Exception"
              "Database operation failed: SELECT on users").
Proof.
  assert (H1 : (0 <= 1 # 2)%Q) by discriminate.
  assert (H2 : (1 # 100 < 2 # 100)%Q) by reflexivity.
  split; [exact H1 |]. split; [exact H2 |].
  exact (proj1 (query_fails_on_its_draw "SELECT" "users" false
                  (Views.mkQuery 0 (1 # 2) (1 # 2) (1 # 100) 1) Views.empty H1) H2).
Defined.

Section SimulatedErrors.
Import Monitor App Views.

Lemma simulate_error_not_skipped : "/api/simulate-error" ∉ before_request_skipped.
Proof.
  intros Hin. unfold before_request_skipped in Hin. each_member Hin ltac:(discriminate).
Qed.

End SimulatedErrors.

(** X14: on a GET or HEAD request the error simulator answers the types
    404, 403 and 429 with these status codes, the type timeout with 200,
    and any other type with 500 and the generic message under ["error"];
    every type but timeout is counted as one error. *)
Theorem simulated_error_statuses
    (env : App.Env) (m error_type : string) (len : Z) (st : App.State) :
  m = "GET" \/ m = "HEAD" ->
  App.body env = Views.simulate_error error_type len ->
  let out := App.full_dispatch_request env (App.incoming "/api/simulate-error" m 0) st in
  App.status_code out.1
  = (if String.eqb error_type "404" then 404
     else if String.eqb error_type "403" then 403
     else if String.eqb error_type "429" then 429
     else if String.eqb error_type "timeout" then 200 else 500)
  /\ Monitor.error_count (App.system_monitor out.2)
     = Monitor.error_count (App.system_monitor st)
       + (if String.eqb error_type "timeout" then 0 else 1)
  /\ (App.status_code out.1 = 500 ->
      App.json_get "error" (App.json out.1) = Some "Internal Server Error").
Proof.
  intros Hm Hbody. cbv zeta.
  assert (Hdisp : App.dispatch_request env (App.incoming "/api/simulate-error" m 0)
                  = match Views.simulate_error error_type len with
                    | App.Returns r => inl r
                    | App.Raises e => inr e
                    end).
  { rewrite <- Hbody. destruct Hm as [-> | ->]; reflexivity. }
  unfold Views.simulate_error in Hdisp.
  destruct (String.eqb error_type "404") eqn:H404;
    [| destruct (String.eqb error_type "403") eqn:H403;
       [| destruct (String.eqb error_type "429") eqn:H429;
          [| destruct (String.eqb error_type "timeout") eqn:Htimeout;
             [| destruct (String.eqb error_type "db") eqn:Hdb ]]]].
  all: try (apply String.eqb_eq in H404; subst error_type).
  all: try (apply String.eqb_eq in H403; subst error_type).
  all: try (apply String.eqb_eq in H429; subst error_type).
  all: try (apply String.eqb_eq in Htimeout; subst error_type).
  all: cbn [String.eqb Ascii.eqb Bool.eqb].
  4: { (* timeout: the view returns *)
    unfold App.full_dispatch_request, App.incoming, App.before_request.
    cbn [App.path App.method App.data_len].
    rewrite decide_True by exact simulate_error_not_skipped.
    unfold Monitor.increment_request.
    destruct (0 <? _); cbn beta iota;
      match goal with
      | |- context [App.dispatch_request env ?r] =>
          replace (App.dispatch_request env r)
            with (App.dispatch_request env (App.incoming "/api/simulate-error" m 0))
            by (unfold App.dispatch_request, App.dispatch; reflexivity)
      end; rewrite Hdisp; cbn beta iota; rewrite after_request_response;
      match goal with
      | |- context [App.after_request ?n ?r ?resp ?s] =>
          destruct (after_request_monitor n r resp s) as [-> _]
      end; cbn; repeat split; intros; try discriminate; lia. }
  all: match type of Hdisp with
       | _ = inr ?e =>
           destruct (full_dispatch_raises env (App.incoming "/api/simulate-error" m 0)
                       st e simulate_error_not_skipped Hdisp) as (Hs & Hj & He & _)
       end; cbv zeta in Hs, Hj, He; rewrite Hs, He; cbn in Hj |- *;
       repeat split; intros; try discriminate; try assumption.
Qed.

(** Witness of X14: the type [db]. *)
Lemma simulated_error_statuses_witness :
  let env := App.mkEnv 1 "rid" (Views.simulate_error "db" 40) 2 "eid" "iso" 90 3 in
  ("GET" = "GET" \/ "GET" = "HEAD")
  /\ App.body env = Views.simulate_error "db" 40
  /\ App.status_code
       (App.full_dispatch_request env (App.incoming "/api/simulate-error" "GET" 0)
          (App.boot 0)).1 = 500.
Proof.
  intros env. split; [by left |]. split; [reflexivity |].
  exact (proj1 (simulated_error_statuses env "GET" "db" 40 (App.boot 0)
                  (or_introl eq_refl) eq_refl)).
Defined.

Section ApiKey.
Import Monitor App Views.

Lemma config_not_skipped : "/api/config" ∉ before_request_skipped.
Proof.
  intros Hin. unfold before_request_skipped in Hin. each_member Hin ltac:(discriminate).
Qed.

End ApiKey.

(** X15: a GET or HEAD request for the configuration whose [X-API-Key]
    header is missing or differs from [Config.PROMETHEUS_HEX] never runs
    the view: the metrics of the views are untouched, the answer is 403
    with werkzeug's description, and the request is counted as one request
    and one error. With the configured key the view runs. *)
Theorem wrong_api_key_is_forbidden
    (env : App.Env) (m key : string) (api_key : option string) (len : Z)
    (b : Views.Business) (st : App.State) :
  m = "GET" \/ m = "HEAD" ->
  api_key <> Some key ->
  App.body env
  = Views.outcome_of id (Views.require_api_key key api_key (Views.get_config len) b).1 ->
  let out := App.full_dispatch_request env (App.incoming "/api/config" m 0) st in
  (Views.require_api_key key api_key (Views.get_config len) b).2 = b
  /\ App.status_code out.1 = 403
  /\ App.json_get "error" (App.json out.1)
     = Some "You don't have the permission to access the requested resource. It is either read-protected or not readable by the server."
  /\ Monitor.error_count (App.system_monitor out.2)
     = Monitor.error_count (App.system_monitor st) + 1
  /\ Monitor.total_requests (App.system_monitor out.2)
     = Monitor.total_requests (App.system_monitor st) + 1
  /\ (forall (A : Type) (f : Views.Business -> Views.raising A * Views.Business),
         Views.require_api_key key None f b = (inr Views.Forbidden, b)
         /\ Views.require_api_key key (Some key) f b = f b).
Proof.
  intros Hm Hkey Hbody. cbv zeta.
  assert (Hrej : forall (A : Type) (f : Views.Business -> Views.raising A * Views.Business),
             Views.require_api_key key api_key f b = (inr Views.Forbidden, b)).
  { intros A f. unfold Views.require_api_key. by rewrite decide_True. }
  rewrite Hrej in Hbody |- *. cbn [fst snd Views.outcome_of] in Hbody.
  assert (Hd : App.dispatch_request env (App.incoming "/api/config" m 0)
               = inr Views.Forbidden).
  { assert (Hv : App.dispatch_request env (App.incoming "/api/config" m 0)
                 = App.run_view env App.Propagating)
      by (destruct Hm as [-> | ->]; reflexivity).
    rewrite Hv. unfold App.run_view. by rewrite Hbody. }
  destruct (full_dispatch_raises env (App.incoming "/api/config" m 0) st _
              config_not_skipped Hd) as (Hs & Hj & He & Ht).
  cbv zeta in Hs, Hj, He, Ht.
  split; [reflexivity |]. split; [exact Hs |]. split; [exact Hj |].
  split; [exact He |]. split; [exact Ht |].
  intros A f. unfold Views.require_api_key. split.
  - by rewrite decide_True.
  - rewrite decide_False; [reflexivity |]. intros Hn. by apply Hn.
Qed.

(** Witness of X15: no header at all against the default key. *)
Lemma wrong_api_key_is_forbidden_witness :
  let env := App.mkEnv 1 "rid" (App.Raises Views.Forbidden) 2 "eid" "iso" 90 3 in
  ("GET" = "GET" \/ "GET" = "HEAD")
  /\ None <> Some "default-key"
  /\ App.status_code
       (App.full_dispatch_request env (App.incoming "/api/config" "GET" 0)
          (App.boot 0)).1 = 403.
Proof.
  intros env. split; [by left |]. split; [discriminate |].
  exact (proj1 (proj2 (wrong_api_key_is_forbidden env "GET" "default-key" None 10
                         Views.empty (App.boot 0) (or_introl eq_refl)
                         ltac:(discriminate) eq_refl))).
Defined.

Section Users.
Import Monitor App Views.

Lemma take_drop_seqZ (m len k n : Z) :
  0 <= k -> k + n <= len ->
  take (Z.to_nat n) (drop (Z.to_nat k) (seqZ m len)) = seqZ (m + k) n.
Proof.
  intros Hk Hn. destruct (Z.le_gt_cases n 0) as [Hn0 | Hn0].
  { rewrite (seqZ_nil _ n) by exact Hn0.
    replace (Z.to_nat n) with 0%nat by lia. apply take_0. }
  replace len with (k + (n + (len - k - n))) by lia.
  rewrite seqZ_app by lia.
  rewrite drop_app_length' by (rewrite length_seqZ; reflexivity).
  rewrite seqZ_app by lia.
  apply take_app_length'. rewrite length_seqZ. reflexivity.
Qed.

Lemma length_all_users (rand : Z -> string * string) :
  length (all_users rand) = 100%nat.
Proof. unfold all_users. rewrite length_fmap, length_seqZ. reflexivity. Qed.

Lemma slice_index_range (len i : Z) : 0 <= len -> 0 <= slice_index len i <= len.
Proof. intros Hl. unfold slice_index. destruct (Z.ltb_spec i 0); lia. Qed.

(** The ids of a slice of the users. *)
Lemma py_slice_all_users (rand : Z -> string * string) (start stop : Z) :
  user_id <$> py_slice (all_users rand) start stop
  = seqZ (1 + slice_index 100 start)
         (slice_index 100 stop - slice_index 100 start).
Proof.
  unfold py_slice. rewrite length_all_users.
  change (Z.of_nat 100) with 100.
  pose proof (slice_index_range 100 start ltac:(lia)).
  pose proof (slice_index_range 100 stop ltac:(lia)).
  rewrite fmap_take, fmap_drop. unfold all_users.
  rewrite <- list_fmap_compose.
  rewrite (list_fmap_ext _ id (seqZ 1 100)) by done.
  rewrite list_fmap_id. apply take_drop_seqZ; lia.
Qed.

(** What [get_users] does once its query has returned. *)
Lemma get_users_after_query (pg lim : Z) (start_time : Q) (env : users_env)
    (b : Business) :
  (execute_query "SELECT" "users" false (u_query env) b).1 = inl true ->
  let b1 := (execute_query "SELECT" "users" false (u_query env) b).2 in
  let b2 := inc_api_call ("/api/users", "GET") b1 in
  get_users pg lim start_time env b
  = match floor_div (100 + lim - 1) lim with
    | inr e => (inr e, log_line (ViewError "Error fetching users: " (exn_str e)) b2)
    | inl n =>
        (inl {| users := py_slice (all_users (u_rand env)) ((pg - 1) * lim)
                           ((pg - 1) * lim + lim);
                page := pg; limit := lim; total := 100; pages := n;
                users_timestamp := u_iso env;
                response_time_ms := py_int ((u_now env - start_time) * 1000) |},
         b2)
    end.
Proof.
  intros Hq. cbv zeta. unfold get_users.
  destruct (execute_query "SELECT" "users" false (u_query env) b) as [[t | e] b1];
    cbn [fst snd] in *; [| discriminate].
  rewrite length_all_users. reflexivity.
Qed.

Lemma api_calls_total_inc_api_call (k : string * string) (b : Business) :
  api_calls_total (inc_api_call k b) = counter_inc k (api_calls_total b).
Proof. by destruct b. Qed.

End Users.

(** X16: for a page and a limit that are at least 1, once the query has
    returned, [get_users] answers with the users whose ids start at
    (page - 1) * limit + 1, [limit] of them or as many as are left of the
    hundred (none beyond the last page, without an error); [pages] is the
    least number of pages that holds all hundred; and the call is counted
    as one API call. *)
Theorem users_page_contents
    (page limit : Z) (start_time : Q) (env : Views.users_env) (b : Views.Business) :
  1 <= page -> 1 <= limit ->
  (Views.execute_query "SELECT" "users" false (Views.u_query env) b).1 = inl true ->
  exists (p : Views.users_page) (b' : Views.Business),
    Views.get_users page limit start_time env b = (inl p, b')
    /\ Views.user_id <$> Views.users p
       = seqZ ((page - 1) * limit + 1) (Z.min limit (100 - (page - 1) * limit))
    /\ Views.total p = 100
    /\ (Views.pages p - 1) * limit < 100 <= Views.pages p * limit
    /\ App.counter_get ("/api/users", "GET") (Views.api_calls_total b')
       = App.counter_get ("/api/users", "GET")
           (Views.api_calls_total
              (Views.execute_query "SELECT" "users" false (Views.u_query env) b).2) + 1.
Proof.
  intros Hp Hl Hq. rewrite (get_users_after_query page limit start_time env b Hq).
  unfold Views.floor_div. destruct (Z.eqb_spec limit 0) as [| _]; [lia |].
  eexists _, _. split; [reflexivity |]. cbn [Views.users Views.total Views.pages].
  split; [| split; [reflexivity | split]].
  - rewrite py_slice_all_users. unfold Views.slice_index.
    assert (0 <= (page - 1) * limit) by nia.
    destruct (Z.ltb_spec ((page - 1) * limit) 0); [lia |].
    destruct (Z.ltb_spec ((page - 1) * limit + limit) 0); [lia |].
    destruct (Z.le_gt_cases 100 ((page - 1) * limit)).
    + rewrite !seqZ_nil by lia. reflexivity.
    + f_equal; lia.
  - pose proof (Z.div_mod (100 + limit - 1) limit ltac:(lia)) as Hdm.
    pose proof (Z.mod_pos_bound (100 + limit - 1) limit ltac:(lia)) as Hmod.
    nia.
  - rewrite api_calls_total_inc_api_call. apply counter_get_inc.
Qed.

(** Witness of X16: the last page of ten. *)
Lemma users_page_contents_witness :
  let env := Views.mkUsersEnv (Views.mkQuery 0 (1 # 2) (1 # 2) (1 # 2) 1)
               (fun _ => ("2024-01-01", "active")) "iso" (3 # 2) in
  1 <= 10 /\ 1 <= 10
  /\ exists (p : Views.users_page) (b' : Views.Business),
       Views.get_users 10 10 1 env Views.empty = (inl p, b')
       /\ Views.user_id <$> Views.users p
          = seqZ ((10 - 1) * 10 + 1) (Z.min 10 (100 - (10 - 1) * 10)).
Proof.
  intros env. split; [lia |]. split; [lia |].
  destruct (users_page_contents 10 10 1 env Views.empty ltac:(lia) ltac:(lia) eq_refl)
    as (p & b' & Hg & Hids & _).
  exists p, b'. split; assumption.
Defined.

(** X17: the edges of the paging. A limit of 0 makes [get_users] raise
    ZeroDivisionError, after the query has been counted as a success and
    the call as an API call. Page 0 gives no user. A negative page reads
    from the end of the list: its users are those between the places
    100 + (page - 1) * limit and 100 + page * limit, clipped at the
    start. *)
Theorem users_paging_edges
    (page limit : Z) (start_time : Q) (env : Views.users_env) (b : Views.Business) :
  (Views.execute_query "SELECT" "users" false (Views.u_query env) b).1 = inl true ->
  let b1 := (Views.execute_query "SELECT" "users" false (Views.u_query env) b).2 in
  (exists b', Views.get_users page 0 start_time env b
              = (inr (App.OtherException "ZeroDivisionError"
                        "integer division or modulo by zero"), b')
              /\ App.counter_get ("/api/users", "GET") (Views.api_calls_total b')
                 = App.counter_get ("/api/users", "GET") (Views.api_calls_total b1) + 1)
  /\ (1 <= limit ->
      exists p b', Views.get_users 0 limit start_time env b = (inl p, b')
                   /\ Views.users p = [])
  /\ (1 <= limit -> page < 0 ->
      exists p b', Views.get_users page limit start_time env b = (inl p, b')
                   /\ Views.user_id <$> Views.users p
                      = seqZ (1 + Z.max (100 + (page - 1) * limit) 0)
                             (Z.max (100 + page * limit) 0
                              - Z.max (100 + (page - 1) * limit) 0)).
Proof.
  intros Hq. cbv zeta. split; [| split].
  - rewrite (get_users_after_query page 0 start_time env b Hq).
    cbn [Views.floor_div Z.eqb]. eexists. split; [reflexivity |].
    destruct (Views.inc_api_call _ _) as [ops dur api reg l] eqn:Hb.
    cbn [Views.log_line Views.api_calls_total].
    change api with (Views.api_calls_total (Views.mkBusiness ops dur api reg l)).
    rewrite <- Hb, api_calls_total_inc_api_call. apply counter_get_inc.
  - intros Hl. rewrite (get_users_after_query 0 limit start_time env b Hq).
    unfold Views.floor_div. destruct (Z.eqb_spec limit 0) as [| _]; [lia |].
    eexists _, _. split; [reflexivity |]. cbn [Views.users].
    apply (fmap_nil_inv Views.user_id). rewrite py_slice_all_users.
    apply seqZ_nil. unfold Views.slice_index.
    destruct (Z.ltb_spec ((0 - 1) * limit) 0); [| lia].
    destruct (Z.ltb_spec ((0 - 1) * limit + limit) 0); lia.
  - intros Hl Hp. rewrite (get_users_after_query page limit start_time env b Hq).
    unfold Views.floor_div. destruct (Z.eqb_spec limit 0) as [| _]; [lia |].
    eexists _, _. split; [reflexivity |]. cbn [Views.users].
    rewrite py_slice_all_users. unfold Views.slice_index.
    assert ((page - 1) * limit + limit = page * limit) as -> by lia.
    assert (page * limit < 0) by nia. assert ((page - 1) * limit < 0) by nia.
    destruct (Z.ltb_spec ((page - 1) * limit) 0); [| lia].
    destruct (Z.ltb_spec (page * limit) 0); [| lia].
    f_equal; lia.
Qed.

(** Witness of X17: page -1 of ten gives the users 81 to 90. *)
Lemma users_paging_edges_witness :
  let env := Views.mkUsersEnv (Views.mkQuery 0 (1 # 2) (1 # 2) (1 # 2) 1)
               (fun _ => ("2024-01-01", "active")) "iso" (3 # 2) in
  1 <= 10 /\ -1 < 0
  /\ exists p b', Views.get_users (-1) 10 1 env Views.empty = (inl p, b')
                  /\ Views.user_id <$> Views.users p = seqZ 81 10.
Proof.
  intros env. split; [lia |]. split; [lia |].
  destruct (proj2 (proj2 (users_paging_edges (-1) 10 1 env Views.empty eq_refl))
              ltac:(lia) ltac:(lia)) as (p & b' & Hg & Hids).
  exists p, b'. split; [exact Hg | exact Hids].
Defined.

Section Orders.
Import Monitor App Views.

(** The loop over the orders counts each status. *)
Lemma count_statuses_from (l : list order) (m : gmap string Z) (s : string) :
  counter_get s (fold_left (fun counts o => counter_inc (order_status o) counts) l m)
  = counter_get s m + Z.of_nat (length (filter (fun o => order_status o = s) l)).
Proof.
  revert m. induction l as [| o l IH]; intros m; cbn [fold_left].
  - cbn. lia.
  - rewrite IH, filter_cons. case_decide as Hs.
    + rewrite <- Hs, counter_get_inc. cbn [length]. lia.
    + rewrite counter_get_inc_other by exact Hs. lia.
Qed.

Lemma round_digits_0 (n : nat) : (round_digits n 0 == 0)%Q.
Proof.
  unfold round_digits.
  assert (H : forall q : Q, round_half_even (0 * q) = 0).
  { intros [num den]. unfold round_half_even, Qltb, Qle_bool, Qfloor. cbn.
    rewrite !Z.mul_0_l, Zdiv_0_l. cbn.
    destruct (Z.leb_spec (Z.pos (den * 1)) 0); [lia | reflexivity]. }
  rewrite H. reflexivity.
Qed.

End Orders.

(** X18: once its query has returned, [get_orders] answers, for any
    filter and whatever [str.lower] does: the orders are a selection of
    the four of the table, all of them without a status parameter or with
    an empty one, and else those whose lowered status is the lowered
    parameter; [total_orders] is their number; each count of the status
    breakdown is the number of returned orders with that status; and an
    empty selection gives a total and an average of 0 instead of a
    division by zero. *)
Theorem orders_report_is_consistent
    (lower : string -> string) (status_filter : option string) (start_time : Q)
    (env : Views.orders_env) (b : Views.Business) :
  (Views.execute_query "SELECT" "orders" true (Views.o_query env) b).1 = inl true ->
  exists (r : Views.orders_report) (b' : Views.Business),
    Views.get_orders lower status_filter start_time env b = (inl r, b')
    /\ Views.orders r `sublist_of` Views.orders_table
    /\ Views.total_orders r = Z.of_nat (length (Views.orders r))
    /\ (forall s : string,
           App.counter_get s (Views.status_breakdown r)
           = Z.of_nat (length (filter (fun o => Views.order_status o = s)
                                      (Views.orders r))))
    /\ (Views.orders r = [] ->
        (Views.total_value r == 0)%Q /\ (Views.average_order_value r == 0)%Q)
    /\ (forall s : string, status_filter = Some s -> s <> "" ->
          Views.orders r
          = filter (fun o => lower (Views.order_status o) = lower s) Views.orders_table)
    /\ (status_filter = None \/ status_filter = Some "" ->
        Views.orders r = Views.orders_table).
Proof.
  intros Hq. unfold Views.get_orders.
  destruct (Views.execute_query "SELECT" "orders" true (Views.o_query env) b)
    as [[t | e] b1]; cbn [fst] in Hq; [| discriminate].
  eexists _, _. split; [reflexivity |].
  cbn [Views.orders Views.total_orders Views.status_breakdown Views.total_value
       Views.average_order_value].
  split; [| split; [reflexivity | split; [| split; [| split]]]].
  - unfold Views.select_orders. destruct status_filter as [s |]; [| reflexivity].
    destruct (String.eqb s ""); [reflexivity | apply sublist_filter].
  - intros s. unfold Views.count_statuses. rewrite count_statuses_from.
    unfold App.counter_get. rewrite lookup_empty. cbn. lia.
  - intros ->. cbn. split; apply round_digits_0.
  - intros s -> Hs. unfold Views.select_orders.
    destruct (String.eqb_spec s ""); [contradiction | reflexivity].
  - intros [-> | ->]; reflexivity.
Qed.

(** Witness of X18: the filter [pending], with a lowering that leaves
    lower-case letters alone. *)
Lemma orders_report_is_consistent_witness :
  let env := Views.mkOrdersEnv (Views.mkQuery 0 (1 # 2) (1 # 2) (1 # 2) 1) "iso" (3 # 2) in
  (Views.execute_query "SELECT" "orders" true (Views.o_query env) Views.empty).1 = inl true
  /\ exists (r : Views.orders_report) (b' : Views.Business),
       Views.get_orders (fun s => s) (Some "pending") 1 env Views.empty = (inl r, b')
       /\ Views.total_orders r = Z.of_nat (length (Views.orders r)).
Proof.
  intros env. split; [reflexivity |].
  destruct (orders_report_is_consistent (fun s => s) (Some "pending") 1 env
              Views.empty eq_refl) as (r & b' & Hg & _ & Ht & _).
  exists r, b'. split; assumption.
Defined.

Section Registration.
Import Monitor App Views.

Lemma user_registrations_total_log_line (e : view_entry) (b : Business) :
  user_registrations_total (log_line e b) = user_registrations_total b.
Proof. by destruct b. Qed.

Lemma user_registrations_total_inc (b : Business) :
  user_registrations_total (inc_registration b) = user_registrations_total b + 1.
Proof. by destruct b. Qed.

Lemma user_registrations_total_execute_query (op tb : string) (slow : bool)
    (q : Query) (b : Business) :
  user_registrations_total (execute_query op tb slow q b).2
  = user_registrations_total b.
Proof.
  unfold execute_query. destruct (query_body op tb slow q); by destruct b.
Qed.

End Registration.

(** X19: [create_user] counts a registration before it looks at the
    body. Behind an accepted key, once the INSERT has returned, the
    registration counter goes up by one whatever the request carries: also
    when [get_json] raises and when required fields are missing. The
    answer is 201 when the JSON is an object with both [name] and [email],
    and these two values are passed on as they are; it is 400, naming the
    required fields, when the JSON is no object or lacks one of the two.
    With a key that is not accepted nothing is run or counted. *)
Theorem registration_is_counted_before_validation
    (V : Type) (key : string) (env : Views.create_env V) (b : Views.Business) :
  (Views.execute_query "INSERT" "users" false (Views.c_query env) b).1 = inl true ->
  let out := Views.create_user key (Some key) env b in
  Views.user_registrations_total out.2 = Views.user_registrations_total b + 1
  /\ (forall (d : gmap string V) (name email : V),
         Views.c_json env = inl (Some d) ->
         d !! "name" = Some name -> d !! "email" = Some email ->
         out.1 = inl (Views.Created (Views.c_id env) name email "active"
                        (Views.c_iso env) false
                        ("/api/users/" ++ pretty (Views.c_id env))
                        ("/api/users/" ++ pretty (Views.c_id env) ++ "/profile")))
  /\ (forall d : option (gmap string V),
         Views.c_json env = inl d ->
         (forall m, d = Some m -> m !! "name" = None \/ m !! "email" = None) ->
         out.1 = inl (Views.MissingFields ["email"; "name"]))
  /\ (forall api_key : option string,
         api_key <> Some key ->
         Views.create_user key api_key env b = (inr Views.Forbidden, b)).
Proof.
  intros Hq. cbv zeta. unfold Views.create_user, Views.require_api_key.
  rewrite decide_False by (intros Hn; by apply Hn).
  unfold Views.create_user_body.
  pose proof (user_registrations_total_execute_query "INSERT" "users" false
                (Views.c_query env) b) as Hreg.
  destruct (Views.execute_query "INSERT" "users" false (Views.c_query env) b)
    as [[t | e] b1]; cbn [fst snd] in Hq, Hreg; [| discriminate].
  split; [| split; [| split]].
  - destruct (Views.c_json env) as [[d |] | e]; cbn [negb andb mbind option_bind];
      try (cbn [snd]; rewrite ?user_registrations_total_log_line,
             user_registrations_total_inc; lia).
    destruct (negb _); [cbn [snd]; rewrite user_registrations_total_inc; lia |].
    destruct (d !! "name"), (d !! "email"); cbn [snd];
      rewrite ?user_registrations_total_log_line, user_registrations_total_inc; lia.
  - intros d name email -> Hn He. cbn [mbind option_bind forallb].
    rewrite Hn, He.
    rewrite !(bool_decide_eq_true_2 (is_Some _)) by eauto.
    rewrite bool_decide_eq_false_2.
    2: { intros ->. by rewrite lookup_empty in Hn. }
    reflexivity.
  - intros d -> Hmiss. destruct d as [m |]; [| reflexivity].
    cbn [forallb].
    destruct (Hmiss m eq_refl) as [Hn | He].
    + rewrite (bool_decide_eq_false_2 (is_Some (m !! "name")))
        by (rewrite Hn; by intros [? ?]).
      rewrite !andb_false_r. reflexivity.
    + rewrite (bool_decide_eq_false_2 (is_Some (m !! "email")))
        by (rewrite He; by intros [? ?]).
      rewrite andb_false_l, !andb_false_r. reflexivity.
  - intros api_key Hk. by rewrite decide_True.
Qed.

(** Witness of X19: a body without an email is answered 400 and
    counted. *)
Lemma registration_is_counted_before_validation_witness :
  let env := Views.mkCreateEnv string (Views.mkQuery 0 (1 # 2) (1 # 2) (1 # 2) 1)
               (inl (Some {[ "name" := "Ada" ]})) 12345 "iso" in
  (Views.execute_query "INSERT" "users" false (Views.c_query env) Views.empty).1
  = inl true
  /\ Views.user_registrations_total
       (Views.create_user "default-key" (Some "default-key") env Views.empty).2
     = Views.user_registrations_total Views.empty + 1.
Proof.
  intros env. split; [reflexivity |].
  exact (proj1 (registration_is_counted_before_validation string "default-key" env
                  Views.empty eq_refl)).
Defined.

Section Stress.
Import Monitor App Views.

Lemma database_operations_total_log_line (e : view_entry) (b : Business) :
  database_operations_total (log_line e b) = database_operations_total b.
Proof. by destruct b. Qed.

(** What one query of the stress test does to its two series. *)
Lemma stress_query_counts (q : Query) (b : Business) :
  let out := execute_query "SELECT" "stress_test" false q b in
  let series status b :=
    counter_get ("SELECT", "stress_test", status) (database_operations_total b) in
  match query_body "SELECT" "stress_test" false q with
  | inl _ => out.1 = inl true
             /\ series "success" out.2 = series "success" b + 1
             /\ series "error" out.2 = series "error" b
  | inr e => out.1 = inr e
             /\ series "success" out.2 = series "success" b
             /\ series "error" out.2 = series "error" b + 1
  end.
Proof.
  cbv zeta. unfold execute_query. destruct b as [ops dur api reg l].
  destruct (query_body "SELECT" "stress_test" false q) as [d | e];
    cbn [fst snd inc_operation observe_query log_line database_operations_total];
    rewrite counter_get_inc, counter_get_inc_other by discriminate;
    repeat split.
Qed.

(** The loop of the stress test: it runs its queries in order and stops
    at the first that raises. *)
Lemma stress_loop_counts (n i : nat) (queries : nat -> Query) (b : Business) :
  let out := stress_loop n i queries b in
  let series status b :=
    counter_get ("SELECT", "stress_test", status) (database_operations_total b) in
  exists k : nat,
    (k <= n)%nat
    /\ series "success" out.2 = series "success" b + Z.of_nat k
    /\ (forall j, (j < k)%nat ->
          exists d, query_body "SELECT" "stress_test" false (queries (i + j)%nat) = inl d)
    /\ ((k = n /\ out.1 = inl tt /\ series "error" out.2 = series "error" b)
        \/ ((k < n)%nat /\ series "error" out.2 = series "error" b + 1
            /\ exists e, out.1 = inr e
                 /\ query_body "SELECT" "stress_test" false (queries (i + k)%nat)
                    = inr e)).
Proof.
  cbv zeta. revert i b. induction n as [| n IH]; intros i b.
  - exists 0%nat. cbn. split; [lia |]. split; [lia |]. split; [intros j Hj; lia |].
    left. repeat split.
  - cbn [stress_loop].
    pose proof (stress_query_counts (queries i) b) as Hq. cbv zeta in Hq.
    destruct (query_body "SELECT" "stress_test" false (queries i)) as [d | e] eqn:Hb.
    + destruct Hq as (H1 & H2 & H3).
      destruct (execute_query "SELECT" "stress_test" false (queries i) b) as [r b1].
      cbn [fst snd] in H1, H2, H3. subst r.
      destruct (IH (S i) b1) as (k & Hk & Hs & Hall & Hend).
      exists (S k). split; [lia |]. split; [lia |]. split.
      * intros [| j] Hj.
        -- rewrite Nat.add_0_r. eauto.
        -- replace (i + S j)%nat with (S i + j)%nat by lia. apply Hall. lia.
      * replace (i + S k)%nat with (S i + k)%nat by lia.
        destruct Hend as [(-> & Hr & He) | (Hlt & He & Hr)].
        -- left. repeat split; [exact Hr | lia].
        -- right. split; [lia |]. split; [lia | exact Hr].
    + destruct Hq as (H1 & H2 & H3).
      destruct (execute_query "SELECT" "stress_test" false (queries i) b) as [r b1].
      cbn [fst snd] in H1, H2, H3. subst r.
      exists 0%nat. split; [lia |]. split; [cbn [snd]; lia |].
      split; [intros j Hj; lia |].
      right. split; [lia |]. split; [exact H3 |].
      exists e. rewrite Nat.add_0_r. split; [reflexivity | exact Hb].
Qed.

End Stress.

(** X20: the stress test runs its queries one after the other and stops
    at the first that raises: the success series of its queries grows by
    the number [k] of queries that returned before; either all
    [iterations] of them did, the error series is as before and the view
    answers (or raises ZeroDivisionError when the two clock readings are
    equal), or query [k] raised, the error series grew by one and this
    exception leaves the view. A count of zero or less runs no query. *)
Theorem stress_test_stops_at_first_failure
    (iterations : Z) (t0 t1 : Q) (iso : string) (queries : nat -> Views.Query)
    (b : Views.Business) :
  let out := Views.stress_test iterations t0 t1 iso queries b in
  let series status b :=
    App.counter_get ("SELECT", "stress_test", status)
                    (Views.database_operations_total b) in
  exists k : nat,
    (k <= Z.to_nat iterations)%nat
    /\ series "success" out.2 = series "success" b + Z.of_nat k
    /\ (forall j, (j < k)%nat ->
          exists d, Views.query_body "SELECT" "stress_test" false (queries j) = inl d)
    /\ ((k = Z.to_nat iterations
         /\ series "error" out.2 = series "error" b
         /\ ((t1 - t0 == 0)%Q ->
             out.1 = inr (App.OtherException "ZeroDivisionError"
                            "float division by zero"))
         /\ (~ (t1 - t0 == 0)%Q ->
             exists r, out.1 = inl r /\ Views.iterations_done r = iterations))
        \/ ((k < Z.to_nat iterations)%nat
            /\ series "error" out.2 = series "error" b + 1
            /\ exists e, out.1 = inr e
                 /\ Views.query_body "SELECT" "stress_test" false (queries k) = inr e)).
Proof.
  cbv zeta. unfold Views.stress_test.
  destruct (stress_loop_counts (Z.to_nat iterations) 0 queries b)
    as (k & Hk & Hs & Hall & Hend). cbv zeta in Hs, Hend.
  exists k. split; [exact Hk |].
  destruct (Views.stress_loop (Z.to_nat iterations) 0 queries b) as [r b1].
  cbn [fst snd] in Hs, Hend.
  destruct Hend as [(-> & -> & He) | (Hlt & He & e & -> & Hq)].
  - destruct (Qeq_bool (t1 - t0) 0) eqn:Hz; cbn [fst snd];
      rewrite ?database_operations_total_log_line;
      (split; [exact Hs |]); (split; [exact Hall |]); left;
      (split; [reflexivity |]); (split; [exact He |]); split; intros Hd.
    + reflexivity.
    + apply Qeq_bool_iff in Hz. contradiction.
    + apply Qeq_bool_iff in Hd. congruence.
    + eexists. split; reflexivity.
  - cbn [fst snd]. rewrite database_operations_total_log_line.
    split; [exact Hs |]. split; [exact Hall |]. right.
    split; [exact Hlt |]. split; [exact He |]. exists e. split; [reflexivity | exact Hq].
Qed.

(** * Properties of the hooks of [app_20250706113427.py] *)

Section V2Flow.
Import App AppV2 AppV2Flow.

Lemma active_requests_add_active (d : Z) (st : State) :
  active_requests (add_active d st) = active_requests st + d.
Proof. by destruct st. Qed.

Lemma error_counter_add_active (d : Z) (st : State) :
  error_counter (add_active d st) = error_counter st.
Proof. by destruct st. Qed.

(** What the handler Flask picks does to the state. *)
Lemma handle_user_exception_effect (e : exn) (req : Request) (st : State) :
  let out := handle_user_exception e req st in
  active_requests out.2 = active_requests st - 1
  /\ error_counter out.2 = counter_inc (path req, counted_as e) (error_counter st)
  /\ pretty out.1.2 = counted_as e.
Proof.
  cbv zeta. unfold handle_user_exception, counted_as.
  destruct e as [n code d s | n s]; [| repeat split].
  destruct code as [| p | p]; try (repeat split; fail).
  repeat (destruct p as [p | p |]; try (repeat split; fail)).
Qed.

(** One request through the hooks. *)
Lemma full_dispatch_effect (env : Env) (req : Request) (st : State * Traffic) :
  let out := full_dispatch_request env req st in
  match dispatch_request env req with
  | inl r =>
      out.1 = r
      /\ active_requests out.2.1 = active_requests st.1
      /\ error_counter out.2.1 = error_counter st.1
  | inr e =>
      pretty (status_code out.1) = counted_as e
      /\ active_requests out.2.1 = active_requests st.1 - 1
      /\ error_counter out.2.1
         = counter_inc (path req, counted_as e) (error_counter st.1)
  end
  /\ out.2.2
     = if bool_decide (path req ≠ "/favicon.ico") && bool_decide (path req ≠ "/metrics")
       then record_request req (status_code out.1) (t_after env - t_before env)%Q
                           (resp_len out.1) st.2
       else st.2.
Proof.
  cbv zeta. unfold full_dispatch_request, start_timer. destruct st as [s t].
  cbn [fst snd].
  change (dispatch_request env
            {| path := path req; method := method req; data_len := data_len req;
               req_start_time := Some (t_before env); request_id := request_id req |})
    with (dispatch_request env req).
  destruct (dispatch_request env req) as [r | e].
  - unfold track_metrics. cbn [fst snd path method data_len].
    rewrite !active_requests_add_active, !error_counter_add_active.
    split; [repeat split; lia |].
    destruct (_ && _); [destruct t |]; reflexivity.
  - pose proof (handle_user_exception_effect e
                  {| path := path req; method := method req; data_len := data_len req;
                     req_start_time := Some (t_before env);
                     request_id := request_id req |} (add_active 1 s)) as H.
    cbv zeta in H.
    destruct (handle_user_exception e _ (add_active 1 s)) as [[j c] s'].
    cbn [fst snd path] in H. destruct H as (Ha & Hc & Hp).
    unfold track_metrics. cbn [fst snd path method data_len status_code resp_len].
    rewrite !active_requests_add_active, !error_counter_add_active, Ha, Hc,
      active_requests_add_active, error_counter_add_active.
    split; [repeat split; [exact Hp | lia] |].
    destruct (_ && _); [destruct t |]; reflexivity.
Qed.

End V2Flow.

(** X21: in [app_20250706113427.py] the gauge of requests in flight
    comes back to its value after a request that returns, and ends one
    lower after a request that raises, because the error handler and the
    post-hook both decrement it: after any sequence of requests from
    start-up it is minus the number of requests that ended in an error
    handler. *)
Theorem active_requests_drifts_below_zero (reqs : list (App.Env * App.Request)) :
  AppV2.active_requests (AppV2Flow.serve reqs AppV2Flow.boot).1
  = - Z.of_nat (length (filter (fun er => AppV2Flow.fails er) reqs)).
Proof.
  assert (H : forall st,
             AppV2.active_requests (AppV2Flow.serve reqs st).1
             = AppV2.active_requests st.1
               - Z.of_nat (length (filter (fun er => AppV2Flow.fails er) reqs))).
  { induction reqs as [| [env req] reqs IH]; intros st.
    - cbn. lia.
    - cbn [AppV2Flow.serve fold_left]. fold (AppV2Flow.serve reqs).
      rewrite IH. cbn [fst snd].
      destruct (full_dispatch_effect env req st) as [Hd _]. cbv zeta in Hd.
      rewrite filter_cons.
      assert (Hf : AppV2Flow.fails (env, req)
                   = match AppV2Flow.dispatch_request env req with
                     | inl _ => false
                     | inr _ => true
                     end) by reflexivity.
      destruct (AppV2Flow.dispatch_request env req) as [r | e].
      + destruct Hd as (_ & -> & _).
        rewrite decide_False by (rewrite Hf; exact id). lia.
      + destruct Hd as (_ & -> & _).
        rewrite decide_True by (rewrite Hf; exact I).
        cbn [length]. lia. }
  rewrite H. reflexivity.
Qed.

(** X22: a request that ends in an error handler adds one to exactly one
    series of the error counter, the one of its path and of the label 404
    for a 404, 403 for a 403 and 500 for everything else, which is the
    status code of the answer; any other [HTTPException], a 405 for one,
    is answered and counted as 500. A request that returns changes no
    series. *)
Theorem errors_are_counted_by_path_and_status
    (env : App.Env) (req : App.Request) (st : AppV2.State * AppV2Flow.Traffic)
    (k : string * string) :
  let out := AppV2Flow.full_dispatch_request env req st in
  match AppV2Flow.dispatch_request env req with
  | inl r =>
      App.counter_get k (AppV2.error_counter out.2.1)
      = App.counter_get k (AppV2.error_counter st.1)
  | inr e =>
      pretty (App.status_code out.1) = AppV2Flow.counted_as e
      /\ AppV2Flow.counted_as e ∈ ["404"; "403"; "500"]
      /\ App.counter_get k (AppV2.error_counter out.2.1)
         = App.counter_get k (AppV2.error_counter st.1)
           + (if decide (k = (App.path req, AppV2Flow.counted_as e)) then 1 else 0)
  end.
Proof.
  cbv zeta. destruct (full_dispatch_effect env req st) as [Hd _]. cbv zeta in Hd.
  destruct (AppV2Flow.dispatch_request env req) as [r | e].
  - destruct Hd as (_ & _ & ->). reflexivity.
  - destruct Hd as (Hp & _ & ->). split; [exact Hp |]. split.
    + unfold AppV2Flow.counted_as. destruct e as [n code d s | n s]; [| set_solver].
      destruct code as [| p | p]; try set_solver.
      repeat (destruct p as [p | p |]; try set_solver).
    + case_decide as Hk.
      * subst k. apply counter_get_inc.
      * rewrite counter_get_inc_other by congruence. lia.
Qed.

Section V2Traffic.
Import App AppV2 AppV2Flow.

(** What holds of the traffic metrics from start-up on. *)
Lemma traffic_invariant (reqs : list (Env * Request)) (st : State * Traffic) :
  (endpoint_clicks st.2 = api_calls st.2
   /\ forall k, Z.of_nat (length (observations k (endpoint_latency st.2)))
                = counter_get k (endpoint_clicks st.2)) ->
  endpoint_clicks (serve reqs st).2 = api_calls (serve reqs st).2
  /\ forall k, Z.of_nat (length (observations k (endpoint_latency (serve reqs st).2)))
               = counter_get k (endpoint_clicks (serve reqs st).2).
Proof.
  revert st. induction reqs as [| [env req] reqs IH]; intros st Hst; [exact Hst |].
  cbn [serve fold_left]. fold (serve reqs). apply IH. cbn [fst snd].
  destruct (full_dispatch_effect env req st) as [_ ->].
  destruct (_ && _); [| exact Hst].
  destruct st as [s [clicks calls lat dur rq rs l]].
  cbn [fst snd endpoint_clicks api_calls endpoint_latency] in *.
  destruct Hst as [<- Hlen]. cbn [record_request endpoint_clicks api_calls endpoint_latency].
  split; [reflexivity |]. intros k.
  rewrite length_observations_observe. case_decide as Hk.
  - subst k. rewrite counter_get_inc, <- Hlen. lia.
  - rewrite counter_get_inc_other by exact Hk. rewrite <- Hlen. lia.
Qed.

End V2Traffic.

(** X23: from start-up on, the counter of API calls is a copy of the
    counter of endpoint clicks, and each of their series counts the
    observations of the latency histogram of the same path and method; a
    request for [/metrics] or [/favicon.ico] leaves all the traffic
    metrics as they were. *)
Theorem api_calls_copy_endpoint_clicks
    (reqs : list (App.Env * App.Request)) (env : App.Env) (m : string) (len : Z) :
  let t := (AppV2Flow.serve reqs AppV2Flow.boot).2 in
  AppV2Flow.endpoint_clicks t = AppV2Flow.api_calls t
  /\ (forall k, Z.of_nat (length (App.observations k (AppV2Flow.endpoint_latency t)))
                = App.counter_get k (AppV2Flow.endpoint_clicks t))
  /\ (AppV2Flow.full_dispatch_request env (App.incoming "/metrics" m len)
        (AppV2Flow.serve reqs AppV2Flow.boot)).2.2 = t
  /\ (AppV2Flow.full_dispatch_request env (App.incoming "/favicon.ico" m len)
        (AppV2Flow.serve reqs AppV2Flow.boot)).2.2 = t.
Proof.
  cbv zeta.
  destruct (traffic_invariant reqs AppV2Flow.boot) as [H1 H2].
  { split; [reflexivity |]. intros k. cbn. unfold App.observations, App.counter_get.
    rewrite !lookup_empty. reflexivity. }
  split; [exact H1 |]. split; [exact H2 |].
  split.
  - destruct (full_dispatch_effect env (App.incoming "/metrics" m len)
                (AppV2Flow.serve reqs AppV2Flow.boot)) as [_ ->]. reflexivity.
  - destruct (full_dispatch_effect env (App.incoming "/favicon.ico" m len)
                (AppV2Flow.serve reqs AppV2Flow.boot)) as [_ ->]. reflexivity.
Qed.

(** X24: [get_location] never raises. It returns the values under [lat]
    and [lon] when the fetched object has the status [success] and both
    keys; when the status is another one it returns [0.0, 0.0] without a
    warning; and when the fetch raised or one of the three keys is missing
    it returns [0.0, 0.0] and logs a warning with the exception. *)
Theorem get_location_falls_back
    (ip : string) (data : gmap string AppV2Flow.jvalue) (e : App.exn) :
  (forall lat lon,
      data !! "status" = Some (AppV2Flow.JString "success") ->
      data !! "lat" = Some lat -> data !! "lon" = Some lon ->
      AppV2Flow.get_location ip (inl data) = ((lat, lon), None))
  /\ (forall status,
         data !! "status" = Some status -> status <> AppV2Flow.JString "success" ->
         AppV2Flow.get_location ip (inl data)
         = ((AppV2Flow.JNumber 0, AppV2Flow.JNumber 0), None))
  /\ (data !! "status" = None
      \/ (data !! "status" = Some (AppV2Flow.JString "success")
          /\ (data !! "lat" = None \/ data !! "lon" = None)) ->
      exists warning,
        AppV2Flow.get_location ip (inl data)
        = ((AppV2Flow.JNumber 0, AppV2Flow.JNumber 0), Some warning))
  /\ AppV2Flow.get_location ip (inr e)
     = ((AppV2Flow.JNumber 0, AppV2Flow.JNumber 0),
        Some ("Failed to get location for IP " ++ ip ++ ": " ++ App.exn_str e)).
Proof.
  unfold AppV2Flow.get_location, AppV2Flow.get_location_body, AppV2Flow.lookup_key.
  split; [| split; [| split]].
  - intros lat lon -> -> ->. reflexivity.
  - intros status -> Hs.
    assert (He : AppV2Flow.eq_str status "success" = false).
    { destruct status as [s | x |]; try reflexivity. cbn.
      destruct (String.eqb_spec s "success") as [-> | Hne]; [contradiction | reflexivity]. }
    rewrite He. reflexivity.
  - intros [-> | [-> [-> | ->]]]; [eauto | eauto |].
    destruct (data !! "lat"); eauto.
  - reflexivity.
Qed.

(** Witness of X24: an answer without coordinates. *)
Lemma get_location_falls_back_witness :
  let data : gmap string AppV2Flow.jvalue :=
    {[ "status" := AppV2Flow.JString "fail" ]} in
  data !! "status" = Some (AppV2Flow.JString "fail")
  /\ AppV2Flow.JString "fail" <> AppV2Flow.JString "success"
  /\ AppV2Flow.get_location "10.0.0.1" (inl data)
     = ((AppV2Flow.JNumber 0, AppV2Flow.JNumber 0), None).
Proof.
  intros data.
  assert (H1 : data !! "status" = Some (AppV2Flow.JString "fail")) by reflexivity.
  assert (H2 : AppV2Flow.JString "fail" <> AppV2Flow.JString "success") by discriminate.
  split; [exact H1 |]. split; [exact H2 |].
  exact (proj1 (proj2 (get_location_falls_back "10.0.0.1" data App.NotFound))
           _ H1 H2).
Defined.
